(** * Timetable generator and conflict engine

    A shallow embedding of [services/timetable_service.py] and of the
    [generate] and [activate] handlers of [routes/timetable_routes.py],
    with the properties of the timetable specification stated over it;
    then of the handlers that edit a timetable by hand ([move_entry],
    [lock_period], the substitutes) and of the two handlers of
    [routes/data_routes.py] that write the availability and the time
    slots the generator reads, with further properties of the code.

    Conventions of the embedding:
    - database rows are records, tables are lists of rows in query order;
      identifiers are natural numbers ([0] is the only falsy identifier,
      as in Python's [if not teacher_id]);
    - the process-wide random generator of module [random] is an explicit
      state of an abstract type, threaded through every [random.shuffle];
    - scores are kept in hundredths ([100.0] is [10000], [0.4] is [40]),
      the resolution of [round(score, 2)];
    - an uncaught Python exception is the [Raise] outcome. *)

From stdpp Require Import gmap strings list pretty.
From Stdlib Require Import ZArith.

Open Scope string_scope.
Open Scope list_scope.

(** ** Rows of models.py *)

Record ClassGroup := {
  class_id : nat;
  class_name : string;
  student_strength : nat }.

Record Subject := {
  subject_id : nat;
  subject_name : string;
  subject_class_id : nat;
  lectures_per_week : nat;
  priority_morning : bool;
  is_lab : bool }.

Record Teacher := {
  teacher_id : nat;
  max_lectures_per_day : nat }.

Record Room := {
  room_id : nat;
  capacity : nat;
  room_type : string }.

Record TeacherSubject := {
  ts_teacher_id : nat;
  ts_subject_id : nat }.

Record TimeSlot := {
  slot_id : nat;
  day_of_week : string;
  is_break : bool;
  slot_order : nat }.

Record TeacherAvailability := {
  av_teacher_id : nat;
  av_time_slot_id : nat;
  is_available : bool }.

Record TimetableVersion := {
  version_id : nat;
  version_name : string;
  score : Z;
  created_by : nat;
  is_active : bool }.

Record TimetableEntry := {
  e_version_id : nat;
  e_class_id : nat;
  e_subject_id : nat;
  e_teacher_id : nat;
  e_room_id : nat;
  e_time_slot_id : nat;
  is_locked : bool }.

Record ConflictLog := {
  cl_version_id : nat;
  conflict_type : string;
  cl_message : string }.

(** The database: the entity tables the generator reads and the three
    tables it writes. *)
Record Db := {
  classes : list ClassGroup;
  subjects : list Subject;
  teachers : list Teacher;
  rooms : list Room;
  teacher_subjects : list TeacherSubject;
  time_slots : list TimeSlot;
  availability : list TeacherAvailability;
  versions : list TimetableVersion;
  timetable : list TimetableEntry;
  conflicts : list ConflictLog }.

#[export] Instance TimetableEntry_eq_dec : EqDecision TimetableEntry.
Proof. solve_decision. Defined.

(** ** Exceptions *)

Inductive exn := TypeError | KeyError.

Inductive outcome (A : Type) :=
  | Ok (a : A)
  | Raise (e : exn).
Arguments Ok {A} a.
Arguments Raise {A} e.

(** ** The random generator

    [random.shuffle] permutes a list in place and advances the state of
    the generator; which permutation it picks depends on the state and on
    the length of the list only. *)
Class Random (G : Type) := {
  shuffle : ∀ {A : Type}, list A → G → list A * G;
  shuffle_perm : ∀ (A : Type) (l : list A) (g : G), (shuffle l g).1 ≡ₚ l }.

(** ** Demand expander (generate_timetable, lines 109-125) *)

Inductive kind := L | T.

#[export] Instance kind_eq_dec : EqDecision kind.
Proof. solve_decision. Defined.

(** The value stored under the dict key ["type"]. *)
Definition type_str (k : kind) : string :=
  match k with L => "L" | T => "T" end.

Record Item := {
  item_class_id : nat;
  item_subject_id : nat;
  item_type : kind }.

#[export] Instance Item_eq_dec : EqDecision Item.
Proof. solve_decision. Defined.

Definition l_items_of (c : ClassGroup) (s : Subject) : list Item :=
  if is_lab s
  then replicate (lectures_per_week s / 2)
         {| item_class_id := class_id c; item_subject_id := subject_id s; item_type := L |}
  else [].

Definition t_items_of (c : ClassGroup) (s : Subject) : list Item :=
  if is_lab s
  then []
  else replicate (lectures_per_week s)
         {| item_class_id := class_id c; item_subject_id := subject_id s; item_type := T |}.

Definition c_subs (subs : list Subject) (c : ClassGroup) : list Subject :=
  filter (λ s, subject_class_id s = class_id c) subs.

(** One turn of [for c in classes]: the lab items of the class, then its
    theory items. *)
Definition expand_class (subs : list Subject) (c : ClassGroup) : list Item :=
  (c_subs subs c ≫= l_items_of c) ++ (c_subs subs c ≫= t_items_of c).

Definition expand_demand (cls : list ClassGroup) (subs : list Subject) : list Item :=
  cls ≫= expand_class subs.

(** [list.sort(key=..., reverse=True)]: a stable sort into descending key
    order.  [insert_desc x l] puts [x], which stood before every element
    of [l], in front of the first element whose key is not greater. *)
Fixpoint insert_desc (x : Item) (l : list Item) : list Item :=
  match l with
  | [] => [x]
  | y :: l' =>
      if String.leb (type_str (item_type y)) (type_str (item_type x))
      then x :: y :: l'
      else y :: insert_desc x l'
  end.

Fixpoint sort_type_desc (l : list Item) : list Item :=
  match l with
  | [] => []
  | x :: l' => insert_desc x (sort_type_desc l')
  end.

(** [random.shuffle(class_items); class_items.sort(key=type, reverse=True)] *)
Definition order_items `{Random G} (items : list Item) (g : G) : list Item * G :=
  let '(shuffled, g') := shuffle items g in
  (sort_type_desc shuffled, g').

Definition class_items `{Random G} (db : Db) (g : G) : list Item * G :=
  order_items (expand_demand (classes db) (subjects db)) g.

(** ** Grid builder (lines 127-159) *)

(** The item stored in a filled block. *)
Record Placed := {
  p_subject_id : nat;
  p_teacher_id : nat;
  p_room_id : nat }.

(** A block dict: ["slots"], ["type"] and the mutable ["item"]. *)
Record Block := {
  b_slots : list nat;
  b_type : kind;
  b_item : option Placed }.

(** An element of [empty_blocks].  Its ["block"] is the very dict that
    [class_grids[class_id][day]] lists: the list of these records is the
    one store of blocks, and a day of a class's grid is read back from it
    by [grid_day]. *)
Record EmptyBlock := {
  eb_class_id : nat;
  eb_day : string;
  eb_block : Block }.

Definition days_order : list string :=
  ["Monday"; "Tuesday"; "Wednesday"; "Thursday"; "Friday"].

Definition empty_block (sl : list nat) (k : kind) : Block :=
  {| b_slots := sl; b_type := k; b_item := None |}.

(** Heavy day: two lab blocks and three theory slots. *)
Definition heavy_day : list Block :=
  [ empty_block [1; 2] L; empty_block [5; 6] L;
    empty_block [3] T; empty_block [8] T; empty_block [9] T ].

(** Light day: one lab block and three theory slots. *)
Definition light_day : list Block :=
  [ empty_block [1; 2] L;
    empty_block [3] T; empty_block [5] T; empty_block [6] T ].

Definition day_template (i : nat) : list Block :=
  if decide (i < 3) then heavy_day else light_day.

(** The blocks of one class, day by day in the order of [days_shuffled]. *)
Definition class_blocks (c_id : nat) (days_shuffled : list string) : list EmptyBlock :=
  mjoin (imap (λ i d,
    (λ b, {| eb_class_id := c_id; eb_day := d; eb_block := b |}) <$> day_template i)
    days_shuffled).

(** [for c in classes]: one shuffle of the days per class.  Class ids are
    the primary key of their table, so the dict [class_grids] holds one
    grid per class, in class order, and [empty_blocks] is their
    concatenation. *)
Fixpoint build_grids `{Random G} (cls : list ClassGroup) (g : G) : list EmptyBlock * G :=
  match cls with
  | [] => ([], g)
  | c :: cls' =>
      let '(days_shuffled, g1) := shuffle days_order g in
      let '(rest, g2) := build_grids cls' g1 in
      (class_blocks (class_id c) days_shuffled ++ rest, g2)
  end.

(** [class_grids[c_id][day]] *)
Definition grid_day (ebs : list EmptyBlock) (c_id : nat) (day : string) : list Block :=
  eb_block <$> filter (λ eb, eb_class_id eb = c_id ∧ eb_day eb = day) ebs.

(** ** Lookup tables *)

(** [slots]: the non-break slots.  The query orders them by day and order,
    which only fixes the insertion order of [slot_map]. *)
Definition lecture_slots (db : Db) : list TimeSlot :=
  filter (λ s, is_break s = false) (time_slots db).

Definition slot_map (db : Db) : gmap (string * nat) nat :=
  foldl (λ m s, <[(day_of_week s, slot_order s) := slot_id s]> m) ∅ (lecture_slots db).

(** [t_map]: a later mapping of a subject overwrites an earlier one. *)
Definition t_map (db : Db) : gmap nat nat :=
  foldl (λ m ts, <[ts_subject_id ts := ts_teacher_id ts]> m) ∅ (teacher_subjects db).

Definition classrooms (db : Db) : list Room :=
  filter (λ r, room_type r = "classroom") (rooms db).

Definition lab_rooms (db : Db) : list Room :=
  filter (λ r, room_type r = "lab") (rooms db).

(** ** Search core (place_item, lines 165-232) *)

Record Search := {
  empty_blocks : list EmptyBlock;
  teacher_busy : gset (nat * nat);
  room_busy : gset (nat * nat) }.

Definition set_item (eb : EmptyBlock) (it : option Placed) : EmptyBlock :=
  {| eb_class_id := eb_class_id eb;
     eb_day := eb_day eb;
     eb_block := {| b_slots := b_slots (eb_block eb);
                    b_type := b_type (eb_block eb);
                    b_item := it |} |}.

(** [valid_blocks]: references into [empty_blocks], kept as the position
    together with the block found there. *)
Definition valid_blocks (ebs : list EmptyBlock) (item : Item) : list (nat * EmptyBlock) :=
  filter (λ ib, eb_class_id ib.2 = item_class_id item
                ∧ b_type (eb_block ib.2) = item_type item
                ∧ b_item (eb_block ib.2) = None)
         (imap pair ebs).

Definition daily_subs (ebs : list EmptyBlock) (c_id : nat) (day : string) : list nat :=
  p_subject_id <$> omap b_item (grid_day ebs c_id day).

(** The loop that sets [t_conflict] (and [r_conflict], with a room id):
    some slot of the block has no id in [slot_map], or is already busy. *)
Definition slot_conflict (sm : gmap (string * nat) nat) (busy : gset (nat * nat))
    (who : nat) (day : string) (sl : list nat) : bool :=
  existsb (λ s_idx,
    match sm !! (day, s_idx) with
    | None => true
    | Some ts_id => bool_decide (ts_id = 0) || bool_decide ((who, ts_id) ∈ busy)
    end) sl.

(** [room_id]: the id of the first shuffled room free on every slot. *)
Definition pick_room (sm : gmap (string * nat) nat) (busy : gset (nat * nat))
    (day : string) (sl : list nat) (shuffled_rooms : list Room) : option nat :=
  room_id <$> List.find (λ r, negb (slot_conflict sm busy (room_id r) day sl)) shuffled_rooms.

(** The keys [(who, ts_id)] of the slots of a block; every slot was found
    in [slot_map] by the conflict loops before [slot_map[(day, s_idx)]]
    is read. *)
Definition slot_keys (sm : gmap (string * nat) nat) (who : nat) (day : string)
    (sl : list nat) : list (nat * nat) :=
  (λ s_idx, (who, default 0 (sm !! (day, s_idx)))) <$> sl.

(** The tentative assignment: the block at position [i] gets the item and
    the keys of its slots join the busy sets. *)
Definition assign (st : Search) (i : nat) (eb : EmptyBlock) (p : Placed)
    (added_teacher added_room : list (nat * nat)) : Search :=
  {| empty_blocks := <[i := set_item eb (Some p)]> (empty_blocks st);
     teacher_busy := teacher_busy st ∪ list_to_set added_teacher;
     room_busy := room_busy st ∪ list_to_set added_room |}.

(** The undo after a failed recursion: the block is cleared and the added
    keys are removed.  Each key is in its set when [remove] is called, as
    it was added just before and the slots of a block have distinct ids
    (slot ids are a primary key), so [remove] is set difference. *)
Definition undo (st : Search) (i : nat) (eb : EmptyBlock)
    (added_teacher added_room : list (nat * nat)) : Search :=
  {| empty_blocks := <[i := set_item eb None]> (empty_blocks st);
     teacher_busy := teacher_busy st ∖ list_to_set added_teacher;
     room_busy := room_busy st ∖ list_to_set added_room |}.

Section search.
Context `{Random G} (db : Db).

(** [for vb in valid_blocks], with [rec] the call [place_item(item_idx + 1)]. *)
Fixpoint try_blocks (rec : Search → G → bool * Search * G)
    (item : Item) (teacher : nat) (vbs : list (nat * EmptyBlock))
    (st : Search) (g : G) : bool * Search * G :=
  match vbs with
  | [] => (false, st, g)
  | (i, eb) :: vbs' =>
      let day := eb_day eb in
      let sl := b_slots (eb_block eb) in
      if bool_decide (item_subject_id item ∈ daily_subs (empty_blocks st) (item_class_id item) day)
      then try_blocks rec item teacher vbs' st g
      else if slot_conflict (slot_map db) (teacher_busy st) teacher day sl
      then try_blocks rec item teacher vbs' st g
      else
        let r_group := if decide (item_type item = T) then classrooms db else lab_rooms db in
        let '(shuffled_rooms, g1) := shuffle r_group g in
        match pick_room (slot_map db) (room_busy st) day sl shuffled_rooms with
        | None => try_blocks rec item teacher vbs' st g1
        | Some room =>
            if decide (room = 0) then try_blocks rec item teacher vbs' st g1
            else
              let p := {| p_subject_id := item_subject_id item;
                          p_teacher_id := teacher;
                          p_room_id := room |} in
              let added_teacher := slot_keys (slot_map db) teacher day sl in
              let added_room := slot_keys (slot_map db) room day sl in
              let '(ok, st2, g2) := rec (assign st i eb p added_teacher added_room) g1 in
              if ok then (true, st2, g2)
              else try_blocks rec item teacher vbs' (undo st2 i eb added_teacher added_room) g2
        end
  end.

(** [place_item(item_idx)], on the items from [item_idx] on. *)
Fixpoint place_item (items : list Item) (st : Search) (g : G) : bool * Search * G :=
  match items with
  | [] => (true, st, g)
  | item :: items' =>
      match t_map db !! item_subject_id item with
      | None => (false, st, g)
      | Some teacher =>
          if decide (teacher = 0) then (false, st, g)
          else
            let '(vbs, g1) := shuffle (valid_blocks (empty_blocks st) item) g in
            try_blocks (place_item items') item teacher vbs st g1
      end
  end.
End search.

(** What a search that returns [True] has done to the store of blocks:
    item after item, an empty block of the item's class and type, found at
    position [i], was given the subject, the mapped teacher and a room of
    the pool of the item's type. *)
Inductive placed_all (db : Db) : list Item → list EmptyBlock → list EmptyBlock → Prop :=
  | placed_nil ebs : placed_all db [] ebs ebs
  | placed_cons item items ebs ebs' i eb teacher r :
      ebs !! i = Some eb →
      eb_class_id eb = item_class_id item →
      b_type (eb_block eb) = item_type item →
      b_item (eb_block eb) = None →
      t_map db !! item_subject_id item = Some teacher →
      r ∈ (if decide (item_type item = T) then classrooms db else lab_rooms db) →
      placed_all db items
        (<[i := set_item eb (Some {| p_subject_id := item_subject_id item;
                                     p_teacher_id := teacher;
                                     p_room_id := room_id r |})]> ebs) ebs' →
      placed_all db (item :: items) ebs ebs'.

(** ** Persistence of a candidate (lines 236-266) *)

(** The id the database gives to a new version row. *)
Definition next_version_id (db : Db) : nat :=
  S (max_list (version_id <$> versions db)).

(** [for s_idx in block["slots"]]: [slot_map[(day, s_idx)]] raises
    [KeyError] on a missing slot, [item["subject_id"]] raises [TypeError]
    when the block was left at [None]. *)
Fixpoint block_entries (sm : gmap (string * nat) nat) (v_id : nat) (eb : EmptyBlock)
    (sl : list nat) : outcome (list TimetableEntry) :=
  match sl with
  | [] => Ok []
  | s_idx :: sl' =>
      match sm !! (eb_day eb, s_idx) with
      | None => Raise KeyError
      | Some ts_id =>
          match b_item (eb_block eb) with
          | None => Raise TypeError
          | Some p =>
              match block_entries sm v_id eb sl' with
              | Raise e => Raise e
              | Ok es =>
                  Ok ({| e_version_id := v_id;
                         e_class_id := eb_class_id eb;
                         e_subject_id := p_subject_id p;
                         e_teacher_id := p_teacher_id p;
                         e_room_id := p_room_id p;
                         e_time_slot_id := ts_id;
                         is_locked := false |} :: es)
              end
          end
      end
  end.

(** [for eb in empty_blocks] *)
Fixpoint persist_entries (sm : gmap (string * nat) nat) (v_id : nat)
    (ebs : list EmptyBlock) : outcome (list TimetableEntry) :=
  match ebs with
  | [] => Ok []
  | eb :: ebs' =>
      match block_entries sm v_id eb (b_slots (eb_block eb)) with
      | Raise e => Raise e
      | Ok es =>
          match persist_entries sm v_id ebs' with
          | Raise e => Raise e
          | Ok es' => Ok (es ++ es')
          end
      end
  end.

Definition new_version (v_id index creator : nat) (sc : Z) : TimetableVersion :=
  {| version_id := v_id;
     version_name := "Auto Formatted " +:+ pretty (index + 1);
     score := sc;
     created_by := creator;
     is_active := false |}.

Definition commit_candidate (db : Db) (v : TimetableVersion)
    (es : list TimetableEntry) (log : ConflictLog) : Db :=
  {| classes := classes db; subjects := subjects db; teachers := teachers db;
     rooms := rooms db; teacher_subjects := teacher_subjects db;
     time_slots := time_slots db; availability := availability db;
     versions := versions db ++ [v];
     timetable := timetable db ++ es;
     conflicts := conflicts db ++ [log] |}.

Section generator.
Context `{Random G}.

(** The search of one candidate: items, grid, then [place_item(0)]. *)
Definition search (db : Db) (g : G) : bool * Search * G :=
  let '(items, g1) := class_items db g in
  let '(ebs, g2) := build_grids (classes db) g1 in
  place_item db items
    {| empty_blocks := ebs; teacher_busy := ∅; room_busy := ∅ |} g2.

(** One turn of [for index in range(num_versions)].  The result is the
    committed database and the version appended to
    [generated_versions]; an exception leaves the database as it was,
    nothing of the candidate being committed. *)
Definition generate_candidate (db : Db) (creator index : nat) (g : G)
    : outcome (Db * TimetableVersion) * G :=
  let '(success, st, g') := search db g in
  let v_id := next_version_id db in
  if success then
    match persist_entries (slot_map db) v_id (empty_blocks st) with
    | Raise e => (Raise e, g')
    | Ok es =>
        let v := new_version v_id index creator 10000 in
        let log := {| cl_version_id := v_id; conflict_type := "Success";
                      cl_message := "Contiguous Generation Successful" |} in
        (Ok (commit_candidate db v es log, v), g')
    end
  else
    let v := new_version v_id index creator 0 in
    let log := {| cl_version_id := v_id; conflict_type := "generation_failed";
                  cl_message := "Constraints too strict to find contiguous solution." |} in
    (Ok (commit_candidate db v [] log, v), g').

(** [for index in range(num_versions)], from [index] on, [n] turns. *)
Fixpoint generate_loop (db : Db) (creator index n : nat) (g : G)
    : outcome (list TimetableVersion) * Db * G :=
  match n with
  | 0 => (Ok [], db, g)
  | S n' =>
      match generate_candidate db creator index g with
      | (Raise e, g') => (Raise e, db, g')
      | (Ok (db', v), g') =>
          match generate_loop db' creator (S index) n' g' with
          | (Raise e, db'', g'') => (Raise e, db'', g'')
          | (Ok vs, db'', g'') => (Ok (v :: vs), db'', g'')
          end
      end
  end.
End generator.

(** ** Selector (lines 268-272) *)

(** [max(generated_versions, key=lambda v: v.score)]: the first version of
    the highest score. *)
Definition best_version (v0 : TimetableVersion) (vs : list TimetableVersion) : TimetableVersion :=
  foldl (λ best v, if (score best <? score v)%Z then v else best) v0 vs.

Definition with_active (a : bool) (v : TimetableVersion) : TimetableVersion :=
  {| version_id := version_id v; version_name := version_name v;
     score := score v; created_by := created_by v; is_active := a |}.

(** [TimetableVersion.query.update({"is_active": False})] *)
Definition deactivate_all (vs : list TimetableVersion) : list TimetableVersion :=
  with_active false <$> vs.

(** [row.is_active = True] on the row of primary key [v_id]. *)
Definition set_active (v_id : nat) (vs : list TimetableVersion) : list TimetableVersion :=
  (λ v, if decide (version_id v = v_id) then with_active true v else v) <$> vs.

Definition with_versions (db : Db) (vs : list TimetableVersion) : Db :=
  {| classes := classes db; subjects := subjects db; teachers := teachers db;
     rooms := rooms db; teacher_subjects := teacher_subjects db;
     time_slots := time_slots db; availability := availability db;
     versions := vs;
     timetable := timetable db;
     conflicts := conflicts db |}.

(** The selector step; the versions returned are the objects of
    [generated_versions] as the session holds them afterwards. *)
Definition select_best (db : Db) (generated : list TimetableVersion)
    : list TimetableVersion * Db :=
  match generated with
  | [] => ([], db)
  | v0 :: vs =>
      let best := version_id (best_version v0 vs) in
      (set_active best (deactivate_all generated),
       with_versions db (set_active best (deactivate_all (versions db))))
  end.

(** [generate_timetable(created_by, num_versions, max_retries)] *)
Definition generate_timetable `{Random G} (db : Db)
    (creator num_versions max_retries : nat) (g : G)
    : outcome (list TimetableVersion) * Db * G :=
  match generate_loop db creator 0 num_versions g with
  | (Raise e, db', g') => (Raise e, db', g')
  | (Ok generated, db', g') =>
      let '(vs, db'') := select_best db' generated in
      (Ok vs, db'', g')
  end.

(** ** Availability (_load_availability) *)

(** The [defaultdict(lambda: True)]: a later row overwrites an earlier
    one, a pair without a row reads as available. *)
Definition _load_availability (db : Db) : gmap (nat * nat) bool :=
  foldl (λ out row, <[(av_teacher_id row, av_time_slot_id row) := is_available row]> out)
        ∅ (availability db).

Definition available (db : Db) (teacher slot : nat) : bool :=
  default true (_load_availability db !! (teacher, slot)).

(** ** Conflict detector (detect_conflicts) *)

Record Conflict := {
  c_type : string;
  c_message : string }.

(** [{row.id: row for row in table}] *)
Definition by_id {A : Type} (key : A → nat) (rows : list A) : gmap nat A :=
  foldl (λ m row, <[key row := row]> m) ∅ rows.

Record Detect := {
  d_conflicts : list Conflict;
  seen_teacher : gset (nat * nat);
  seen_room : gset (nat * nat);
  seen_class : gset (nat * nat);
  daily_subject : gset (nat * string * nat);
  teacher_daily_count : gmap (nat * string) nat }.

Definition detect_init : Detect :=
  {| d_conflicts := []; seen_teacher := ∅; seen_room := ∅; seen_class := ∅;
     daily_subject := ∅; teacher_daily_count := ∅ |}.

Definition conflict_if (b : bool) (ty msg : string) : list Conflict :=
  if b then [{| c_type := ty; c_message := msg |}] else [].

(** The body of [for e in entries]; a dict read of an id without a row
    raises [KeyError]. *)
Definition detect_step (db : Db) (d : Detect) (e : TimetableEntry) : outcome Detect :=
  match by_id slot_id (time_slots db) !! e_time_slot_id e with
  | None => Raise KeyError
  | Some slot =>
      let key_teacher := (e_teacher_id e, e_time_slot_id e) in
      let key_room := (e_room_id e, e_time_slot_id e) in
      let key_class := (e_class_id e, e_time_slot_id e) in
      let day_key := (e_class_id e, day_of_week slot, e_subject_id e) in
      let teacher_day := (e_teacher_id e, day_of_week slot) in
      match by_id room_id (rooms db) !! e_room_id e,
            by_id class_id (classes db) !! e_class_id e,
            by_id teacher_id (teachers db) !! e_teacher_id e with
      | Some room, Some cls, Some teacher =>
          let count := S (default 0 (teacher_daily_count d !! teacher_day)) in
          Ok {| d_conflicts :=
                  d_conflicts d
                  ++ conflict_if (bool_decide (key_teacher ∈ seen_teacher d)) "teacher_clash"
                       ("Teacher clash at slot " +:+ pretty (e_time_slot_id e))
                  ++ conflict_if (bool_decide (key_room ∈ seen_room d)) "room_clash"
                       ("Room clash at slot " +:+ pretty (e_time_slot_id e))
                  ++ conflict_if (bool_decide (key_class ∈ seen_class d)) "class_clash"
                       ("Class clash at slot " +:+ pretty (e_time_slot_id e))
                  ++ conflict_if (bool_decide (day_key ∈ daily_subject d)) "subject_repeat"
                       ("Subject repetition for class " +:+ pretty (e_class_id e))
                  ++ conflict_if (bool_decide (capacity room < student_strength cls))
                       "room_capacity_mismatch"
                       ("Room " +:+ pretty (e_room_id e) +:+ " capacity is less than class "
                        +:+ pretty (e_class_id e) +:+ " strength")
                  ++ conflict_if (bool_decide (max_lectures_per_day teacher < count))
                       "teacher_overload"
                       ("Teacher " +:+ pretty (e_teacher_id e) +:+ " overloaded on "
                        +:+ day_of_week slot);
                seen_teacher := seen_teacher d ∪ {[key_teacher]};
                seen_room := seen_room d ∪ {[key_room]};
                seen_class := seen_class d ∪ {[key_class]};
                daily_subject := daily_subject d ∪ {[day_key]};
                teacher_daily_count := <[teacher_day := count]> (teacher_daily_count d) |}
      | _, _, _ => Raise KeyError
      end
  end.

Fixpoint detect_loop (db : Db) (d : Detect) (es : list TimetableEntry) : outcome Detect :=
  match es with
  | [] => Ok d
  | e :: es' =>
      match detect_step db d e with
      | Raise x => Raise x
      | Ok d' => detect_loop db d' es'
      end
  end.

(** [TimetableEntry.query.filter_by(version_id=version_id).all()] *)
Definition version_entries (db : Db) (v_id : nat) : list TimetableEntry :=
  filter (λ e, e_version_id e = v_id) (timetable db).

(** The detector on a given list of entries, and on a stored version. *)
Definition detect_entries (db : Db) (es : list TimetableEntry) : outcome (list Conflict) :=
  match detect_loop db detect_init es with
  | Raise x => Raise x
  | Ok d => Ok (d_conflicts d)
  end.

Definition detect_conflicts (db : Db) (v_id : nat) : outcome (list Conflict) :=
  detect_entries db (version_entries db v_id).

(** ** Scorer (_score_schedule) *)

(** The morning penalty of one entry, in hundredths. *)
Definition morning_penalty (db : Db) (e : TimetableEntry) : outcome Z :=
  match by_id subject_id (subjects db) !! e_subject_id e,
        by_id slot_id (time_slots db) !! e_time_slot_id e with
  | Some sub, Some slot =>
      Ok (if priority_morning sub && bool_decide (2 < slot_order slot) then 40%Z else 0%Z)
  | _, _ => Raise KeyError
  end.

Fixpoint morning_penalties (db : Db) (es : list TimetableEntry) : outcome Z :=
  match es with
  | [] => Ok 0%Z
  | e :: es' =>
      match morning_penalty db e with
      | Raise x => Raise x
      | Ok p =>
          match morning_penalties db es' with
          | Raise x => Raise x
          | Ok q => Ok (p + q)%Z
          end
      end
  end.

(** [max(0.0, round(score, 2))], the score in hundredths. *)
Definition score_entries (db : Db) (es : list TimetableEntry) : outcome Z :=
  match morning_penalties db es with
  | Raise x => Raise x
  | Ok pen =>
      match detect_entries db es with
      | Raise x => Raise x
      | Ok cs => Ok (Z.max 0 (10000 - pen - Z.of_nat (length cs) * 1000))
      end
  end.

Definition _score_schedule (db : Db) (v_id : nat) : outcome Z :=
  score_entries db (version_entries db v_id).

(** ** Handlers of routes/timetable_routes.py *)

Inductive response :=
  | Blocked (issues : list string)
  | GenerationFailed
  | Created (vs : list TimetableVersion)
  | ServerError (e : exn).

Definition subject_ids_with_teachers (db : Db) : gset nat :=
  list_to_set (ts_subject_id <$> teacher_subjects db).

Definition no_subjects_issue (cls : ClassGroup) : string :=
  "Class '" +:+ class_name cls +:+ "' has no subjects configured.".

Definition no_teacher_issue (cls : ClassGroup) (sub : Subject) : string :=
  "Subject '" +:+ subject_name sub +:+ "' in class '" +:+ class_name cls
  +:+ "' has no teacher mapping.".

(** The issues the handler collects for one class. *)
Definition class_issues (db : Db) (cls : ClassGroup) : list string :=
  match c_subs (subjects db) cls with
  | [] => [no_subjects_issue cls]
  | cls_subjects =>
      no_teacher_issue cls <$>
        filter (λ sub, subject_id sub ∉ subject_ids_with_teachers db) cls_subjects
  end.

Definition setup_issues (db : Db) : list string :=
  classes db ≫= class_issues db.

(** [generate()], once the caller is authorised. *)
Definition generate `{Random G} (db : Db) (creator num_versions max_retries : nat) (g : G)
    : response * Db * G :=
  match setup_issues db with
  | [] =>
      match generate_timetable db creator num_versions max_retries g with
      | (Raise e, db', g') => (ServerError e, db', g')
      | (Ok [], db', g') => (GenerationFailed, db', g')
      | (Ok vs, db', g') => (Created vs, db', g')
      end
  | issues => (Blocked issues, db, g)
  end.

(** [activate(version_id)]: [get_or_404] aborts the request, and with it
    the uncommitted update, when no row has the id. *)
Definition activate (db : Db) (v_id : nat) : option Db :=
  if bool_decide (v_id ∈ version_id <$> versions db)
  then Some (with_versions db (set_active v_id (deactivate_all (versions db))))
  else None.

(** The versions marked active. *)
Definition active_versions (db : Db) : list TimetableVersion :=
  filter (λ v, is_active v = true) (versions db).

(** ** A concrete generator and concrete instances

    [rot_shuffle] is a generator whose state is a counter: a shuffle
    rotates the list by the counter and increments it. *)

Definition rot_shuffle {A : Type} (l : list A) (g : nat) : list A * nat :=
  (drop (g mod length l) l ++ take (g mod length l) l, S g).

#[export] Instance rot_random : Random nat.
Proof.
  refine {| shuffle := @rot_shuffle |}.
  intros A l g. simpl. rewrite Permutation_app_comm. by rewrite take_drop.
Defined.

(** The day template of the specification on the five working days:
    orders 1 to 9, with the breaks at 4 and 7; slot ids 1 to 45. *)
Definition week_slots : list TimeSlot :=
  mjoin (imap (λ i d,
    (λ o, {| slot_id := i * 9 + o; day_of_week := d;
             is_break := bool_decide (o = 4 ∨ o = 7); slot_order := o |}) <$> seq 1 9)
    days_order).

Definition mk_db (cls : list ClassGroup) (subs : list Subject) (tchs : list Teacher)
    (rms : list Room) (tss : list TeacherSubject) (avail : list TeacherAvailability) : Db :=
  {| classes := cls; subjects := subs; teachers := tchs; rooms := rms;
     teacher_subjects := tss; time_slots := week_slots; availability := avail;
     versions := []; timetable := []; conflicts := [] |}.

Definition bsc_cs_1 : ClassGroup :=
  {| class_id := 1; class_name := "BSc-CS-1"; student_strength := 30 |}.

Definition sub (i : nat) (n : string) (k : nat) (pm lab : bool) : Subject :=
  {| subject_id := i; subject_name := n; subject_class_id := 1;
     lectures_per_week := k; priority_morning := pm; is_lab := lab |}.

(** The smallest feasible scenario of the specification: one class, one
    classroom, one teacher, one theory subject with three lectures. *)
Definition smallest_db : Db :=
  mk_db [bsc_cs_1]
        [sub 1 "Mathematics" 3 false false]
        [{| teacher_id := 1; max_lectures_per_day := 6 |}]
        [{| room_id := 1; capacity := 40; room_type := "classroom" |}]
        [{| ts_teacher_id := 1; ts_subject_id := 1 |}]
        [].

(** A week that fills the grid of the class: fifteen theory lectures and
    eight lab blocks, one teacher, one classroom of capacity [cap] and one
    lab room; [k4] and [k5] are the weekly lectures of the two labs. *)
Definition full_db (cap k4 k5 : nat) (avail : list TeacherAvailability) : Db :=
  mk_db [bsc_cs_1]
        [sub 1 "Mathematics" 5 true false; sub 2 "Physics" 5 false false;
         sub 3 "English" 5 false false; sub 4 "DBMS Lab" k4 false true;
         sub 5 "OS Lab" k5 false true]
        [{| teacher_id := 1; max_lectures_per_day := 7 |}]
        [{| room_id := 1; capacity := cap; room_type := "classroom" |};
         {| room_id := 2; capacity := 40; room_type := "lab" |}]
        ((λ i, {| ts_teacher_id := 1; ts_subject_id := i |}) <$> seq 1 5)
        avail.

Definition week_db : Db := full_db 40 10 6 [].

(** The first component of a run: what the call returns. *)
Definition returned {A B C : Type} (r : A * B * C) : A := r.1.1.

(** The second component of a run: the database it leaves. *)
Definition stored {A B C : Type} (r : A * B * C) : B := r.1.2.

(** ** Vocabulary of the properties *)

(** What a call of [place_item] on the items [items] guarantees: on
    [True] the store of blocks is the old one with the items placed, on
    [False] it is the old one. *)
Definition search_spec `{Random G} (db : Db) (items : list Item)
    (rec : Search → G → bool * Search * G) : Prop :=
  ∀ st g ok st' g', rec st g = (ok, st', g') →
    if ok then placed_all db items (empty_blocks st) (empty_blocks st')
    else empty_blocks st' = empty_blocks st.

(** The slots an item takes: a lab is two slots wide, a theory lecture one. *)
Definition width (k : kind) : nat :=
  match k with L => 2 | T => 1 end.

(** The entries a block yields for class [c] and subject [s]. *)
Definition block_weight (c s : nat) (eb : EmptyBlock) : nat :=
  match b_item (eb_block eb) with
  | Some p =>
      if decide (eb_class_id eb = c ∧ p_subject_id p = s)
      then length (b_slots (eb_block eb)) else 0
  | None => 0
  end.

(** The entries an item asks for class [c] and subject [s]. *)
Definition item_weight (c s : nat) (item : Item) : nat :=
  if decide (item_class_id item = c ∧ item_subject_id item = s)
  then width (item_type item) else 0.

(** The number of entries of class [c] and subject [s]. *)
Definition count_entries (c s : nat) (es : list TimetableEntry) : nat :=
  length (filter (λ e, e_class_id e = c ∧ e_subject_id e = s) es).

(** The entries a run added to the table. *)
Definition new_entries (db db' : Db) : list TimetableEntry :=
  drop (length (timetable db)) (timetable db').

(** The room type the kind of a subject asks for. *)
Definition room_type_of (lab : bool) : string :=
  if lab then "lab" else "classroom".

(** The six kinds of record the detector can emit. *)
Definition detector_kinds : list string :=
  ["teacher_clash"; "room_clash"; "class_clash"; "subject_repeat";
   "room_capacity_mismatch"; "teacher_overload"].

(** Every block is as wide as its type says. *)
Definition shaped (ebs : list EmptyBlock) : Prop :=
  Forall (λ eb, length (b_slots (eb_block eb)) = width (b_type (eb_block eb))) ebs.

(** The week with the teacher marked unavailable on Monday's first slot. *)
Definition absent_db : Db :=
  full_db 40 10 6 [{| av_teacher_id := 1; av_time_slot_id := 1; is_available := false |}].

(** The week with a classroom smaller than the class. *)
Definition small_room_db : Db := full_db 20 10 6 [].

(** The week with odd numbers of weekly lectures on both labs. *)
Definition odd_lab_db : Db := full_db 40 11 7 [].

(** An entry of version 1 for the class, its teacher and its classroom. *)
Definition entry_at (s ts : nat) : TimetableEntry :=
  {| e_version_id := 1; e_class_id := 1; e_subject_id := s; e_teacher_id := 1;
     e_room_id := 1; e_time_slot_id := ts; is_locked := false |}.

(** A class without any subject configured. *)
Definition empty_class_db : Db := mk_db [bsc_cs_1] [] [] [] [] [].

(** The database and the version of a turn of the generation loop that
    raised nothing. *)
Definition candidate `{Random G} (db : Db) (creator index : nat) (g : G)
    : Db * TimetableVersion :=
  match (generate_candidate db creator index g).1 with
  | Ok x => x
  | Raise _ => (db, new_version 0 index creator 0)
  end.


(** ** The checks of the search *)

(** What a search that returns [True] has done, with the checks each
    placement passed: the subject was not yet on the day of the class,
    the teacher and the room were free on every slot of the block, and
    the keys of the slots joined the busy sets. *)
Inductive placed_trace (db : Db) : list Item → Search → Search → Prop :=
  | trace_nil st : placed_trace db [] st st
  | trace_cons item items st st' i eb teacher r :
      empty_blocks st !! i = Some eb →
      eb_class_id eb = item_class_id item →
      b_type (eb_block eb) = item_type item →
      b_item (eb_block eb) = None →
      item_subject_id item
        ∉ daily_subs (empty_blocks st) (item_class_id item) (eb_day eb) →
      t_map db !! item_subject_id item = Some teacher →
      teacher ≠ 0 →
      slot_conflict (slot_map db) (teacher_busy st) teacher (eb_day eb)
        (b_slots (eb_block eb)) = false →
      r ∈ (if decide (item_type item = T) then classrooms db else lab_rooms db) →
      room_id r ≠ 0 →
      slot_conflict (slot_map db) (room_busy st) (room_id r) (eb_day eb)
        (b_slots (eb_block eb)) = false →
      placed_trace db items
        (assign st i eb
           {| p_subject_id := item_subject_id item; p_teacher_id := teacher;
              p_room_id := room_id r |}
           (slot_keys (slot_map db) teacher (eb_day eb) (b_slots (eb_block eb)))
           (slot_keys (slot_map db) (room_id r) (eb_day eb) (b_slots (eb_block eb))))
        st' →
      placed_trace db (item :: items) st st'.

(** What a call of [place_item] guarantees about the whole search state. *)
Definition search_trace_spec `{Random G} (db : Db) (items : list Item)
    (rec : Search → G → bool * Search * G) : Prop :=
  ∀ st g ok st' g', rec st g = (ok, st', g') →
    if ok then placed_trace db items st st' else st' = st.

(** The busy keys a filled block stands for: one per slot, for the teacher
    or for the room, as [who] chooses. *)
Definition block_keys (sm : gmap (string * nat) nat) (who : Placed → nat)
    (eb : EmptyBlock) : list (nat * nat) :=
  match b_item (eb_block eb) with
  | Some p => slot_keys sm (who p) (eb_day eb) (b_slots (eb_block eb))
  | None => []
  end.

Definition busy_keys (sm : gmap (string * nat) nat) (who : Placed → nat)
    (ebs : list EmptyBlock) : list (nat * nat) :=
  ebs ≫= block_keys sm who.

(** The places of a grid: class, day and slot order of every slot of
    every block. *)
Definition block_places (eb : EmptyBlock) : list (nat * string * nat) :=
  (λ s_idx, (eb_class_id eb, eb_day eb, s_idx)) <$> b_slots (eb_block eb).

Definition grid_places (ebs : list EmptyBlock) : list (nat * string * nat) :=
  ebs ≫= block_places.

(** The entry the persistence loop adds for one slot of a filled block. *)
Definition entry_of_block (v_id : nat) (eb : EmptyBlock) (p : Placed) (ts_id : nat)
    : TimetableEntry :=
  {| e_version_id := v_id; e_class_id := eb_class_id eb;
     e_subject_id := p_subject_id p; e_teacher_id := p_teacher_id p;
     e_room_id := p_room_id p; e_time_slot_id := ts_id; is_locked := false |}.

(** The busy keys of the filled blocks are pairwise distinct and all in
    the busy set. *)
Definition keys_inv (sm : gmap (string * nat) nat) (who : Placed → nat)
    (ebs : list EmptyBlock) (busy : gset (nat * nat)) : Prop :=
  NoDup (busy_keys sm who ebs) ∧ ∀ k, k ∈ busy_keys sm who ebs → k ∈ busy.

(** No block lists a slot order twice. *)
Definition slots_distinct (ebs : list EmptyBlock) : Prop :=
  Forall (λ eb, NoDup (b_slots (eb_block eb))) ebs.

(** 1 for a filled block, 0 for an empty one. *)
Definition filled (eb : EmptyBlock) : nat :=
  match b_item (eb_block eb) with Some _ => 1 | None => 0 end.

(** The entry [e] moved to the slot [ts]. *)
Definition with_slot (e : TimetableEntry) (ts : nat) : TimetableEntry :=
  {| e_version_id := e_version_id e; e_class_id := e_class_id e;
     e_subject_id := e_subject_id e; e_teacher_id := e_teacher_id e;
     e_room_id := e_room_id e; e_time_slot_id := ts; is_locked := is_locked e |}.

(** The class, day and subject a filled block stands for. *)
Definition day_key (eb : EmptyBlock) : list (nat * string * nat) :=
  match b_item (eb_block eb) with
  | Some p => [(eb_class_id eb, eb_day eb, p_subject_id p)]
  | None => []
  end.

(** The smallest scenario with lecture slots on Monday only, and two
    lectures a week. *)
Definition monday_only_db : Db :=
  {| classes := [bsc_cs_1];
     subjects := [sub 1 "Mathematics" 2 false false];
     teachers := [{| teacher_id := 1; max_lectures_per_day := 6 |}];
     rooms := [{| room_id := 1; capacity := 40; room_type := "classroom" |}];
     teacher_subjects := [{| ts_teacher_id := 1; ts_subject_id := 1 |}];
     time_slots := take 9 week_slots;
     availability := []; versions := []; timetable := []; conflicts := [] |}.

(** The state in which [place_item(0)] starts on [db] when the grid was
    built from the generator state [g]. *)
Definition initial_search `{Random G} (db : Db) (g : G) : Search :=
  {| empty_blocks := (build_grids (classes db) g).1; teacher_busy := ∅; room_busy := ∅ |}.

(** An entry of the lab "DBMS Lab" of the week, in the lab room. *)
Definition entry_at_lab (ts : nat) : TimetableEntry :=
  {| e_version_id := 1; e_class_id := 1; e_subject_id := 4; e_teacher_id := 1;
     e_room_id := 2; e_time_slot_id := ts; is_locked := false |}.

(** Class, day and slot orders of a block: what a placement leaves alone. *)
Definition skeleton (eb : EmptyBlock) : nat * string * list nat :=
  (eb_class_id eb, eb_day eb, b_slots (eb_block eb)).

(** Two databases with the same entity tables. *)
Definition same_entities (db1 db2 : Db) : Prop :=
  classes db1 = classes db2 ∧ subjects db1 = subjects db2
  ∧ teachers db1 = teachers db2 ∧ rooms db1 = rooms db2
  ∧ teacher_subjects db1 = teacher_subjects db2
  ∧ time_slots db1 = time_slots db2 ∧ availability db1 = availability db2.

(** ** Vocabulary of the detector *)

(** The day of the slot of an entry, as the detector reads it. *)
Definition entry_day (db : Db) (e : TimetableEntry) : string :=
  match by_id slot_id (time_slots db) !! e_time_slot_id e with
  | Some s => day_of_week s
  | None => ""
  end.

Definition key_teacher (e : TimetableEntry) : nat * nat := (e_teacher_id e, e_time_slot_id e).
Definition key_room (e : TimetableEntry) : nat * nat := (e_room_id e, e_time_slot_id e).
Definition key_class (e : TimetableEntry) : nat * nat := (e_class_id e, e_time_slot_id e).
Definition day_key_of (db : Db) (e : TimetableEntry) : nat * string * nat :=
  (e_class_id e, entry_day db e, e_subject_id e).
Definition teacher_day (db : Db) (e : TimetableEntry) : nat * string :=
  (e_teacher_id e, entry_day db e).

(** The entries of [es] of the teacher and the day of [e]. *)
Definition day_load (db : Db) (es : list TimetableEntry) (e : TimetableEntry) : nat :=
  length (filter (λ e', teacher_day db e' = teacher_day db e) es).

(** Every id an entry refers to has a row in its table. *)
Definition resolved (db : Db) (e : TimetableEntry) : Prop :=
  e_time_slot_id e ∈ slot_id <$> time_slots db
  ∧ e_room_id e ∈ room_id <$> rooms db
  ∧ e_class_id e ∈ class_id <$> classes db
  ∧ e_teacher_id e ∈ teacher_id <$> teachers db.

(** The database with other availability rows. *)
Definition with_availability (db : Db) (rows : list TeacherAvailability) : Db :=
  {| classes := classes db; subjects := subjects db; teachers := teachers db;
     rooms := rooms db; teacher_subjects := teacher_subjects db;
     time_slots := time_slots db; availability := rows;
     versions := versions db; timetable := timetable db;
     conflicts := conflicts db |}.

(** The slot with another break flag, and the database with the break
    flag of every slot chosen by [f]. *)
Definition with_break (f : TimeSlot → bool) (s : TimeSlot) : TimeSlot :=
  {| slot_id := slot_id s; day_of_week := day_of_week s;
     is_break := f s; slot_order := slot_order s |}.

Definition with_breaks (f : TimeSlot → bool) (db : Db) : Db :=
  {| classes := classes db; subjects := subjects db; teachers := teachers db;
     rooms := rooms db; teacher_subjects := teacher_subjects db;
     time_slots := with_break f <$> time_slots db; availability := availability db;
     versions := versions db; timetable := timetable db;
     conflicts := conflicts db |}.

(** The kinds of the records of a report. *)
Definition kinds (cs : list Conflict) : list string := c_type <$> cs.

(** The state of the detector after the entries [pre]. *)
Definition detect_inv (db : Db) (d : Detect) (pre : list TimetableEntry) : Prop :=
  seen_teacher d = list_to_set (key_teacher <$> pre)
  ∧ seen_room d = list_to_set (key_room <$> pre)
  ∧ seen_class d = list_to_set (key_class <$> pre)
  ∧ daily_subject d = list_to_set (day_key_of db <$> pre)
  ∧ (∀ e, default 0 (teacher_daily_count d !! teacher_day db e) = day_load db pre e)
  ∧ ("teacher_clash" ∈ kinds (d_conflicts d) ↔ ¬ NoDup (key_teacher <$> pre))
  ∧ ("room_clash" ∈ kinds (d_conflicts d) ↔ ¬ NoDup (key_room <$> pre))
  ∧ ("class_clash" ∈ kinds (d_conflicts d) ↔ ¬ NoDup (key_class <$> pre))
  ∧ ("subject_repeat" ∈ kinds (d_conflicts d) ↔ ¬ NoDup (day_key_of db <$> pre))
  ∧ ("room_capacity_mismatch" ∈ kinds (d_conflicts d)
     ↔ ∃ e room cls, e ∈ pre
         ∧ by_id room_id (rooms db) !! e_room_id e = Some room
         ∧ by_id class_id (classes db) !! e_class_id e = Some cls
         ∧ capacity room < student_strength cls)
  ∧ ("teacher_overload" ∈ kinds (d_conflicts d)
     ↔ ∃ e teacher, e ∈ pre
         ∧ by_id teacher_id (teachers db) !! e_teacher_id e = Some teacher
         ∧ max_lectures_per_day teacher < day_load db pre e).

(** ** The integers of a request

    [num_versions] and [max_retries] reach [generate_timetable] as the
    integers of the request body, of either sign;
    [range(num_versions)] has no turn for a negative number, and
    [max_retries] is not read. *)
Definition generate_timetable_int `{Random G} (db : Db) (creator : nat)
    (num_versions max_retries : Z) (g : G)
    : outcome (list TimetableVersion) * Db * G :=
  generate_timetable db creator (Z.to_nat num_versions) (Z.to_nat max_retries) g.

(** [generate()] on such a request body. *)
Definition generate_int `{Random G} (db : Db) (creator : nat)
    (num_versions max_retries : Z) (g : G) : response * Db * G :=
  generate db creator (Z.to_nat num_versions) (Z.to_nat max_retries) g.

(** ** Manual edits of a timetable (routes/timetable_routes.py)

    The handlers that edit entries address them by primary key, so the
    table of entries is here a list of rows with their keys.  A
    suggestion keeps the slot and the day of the dict the code builds,
    not the two formatted times, which the rows of [TimeSlot] above do
    not carry. *)

Record EntryRow := {
  row_id : nat;
  row_entry : TimetableEntry }.

(** The database with the rows as its timetable table. *)
Definition with_rows (db : Db) (rows : list EntryRow) : Db :=
  {| classes := classes db; subjects := subjects db; teachers := teachers db;
     rooms := rooms db; teacher_subjects := teacher_subjects db;
     time_slots := time_slots db; availability := availability db;
     versions := versions db;
     timetable := row_entry <$> rows;
     conflicts := conflicts db |}.

(** [Model.query.get(id)]: the row of the primary key, if any. *)
Definition query_get {A : Type} (key : A → nat) (table : list A) (id : nat) : option A :=
  head (filter (λ row, key row = id) table).

(** Reading an attribute of [None] raises [AttributeError]. *)
Inductive attempt (A : Type) :=
  | Returned (a : A)
  | AttributeError.
Arguments Returned {A} a.
Arguments AttributeError {A}.

(** [_is_teacher_available(teacher_id, slot_id)]: the first row of the
    pair decides, a pair without a row reads as available.  The rows of
    [availability] hold booleans; what the function reads on a row that
    holds NULL is in [Nullable._is_teacher_available] below. *)
Definition _is_teacher_available (db : Db) (t_id s_id : nat) : bool :=
  match head (filter (λ row, av_teacher_id row = t_id ∧ av_time_slot_id row = s_id)
                (availability db)) with
  | None => true
  | Some row => is_available row
  end.

(** [room.capacity < cls.student_strength], when both rows exist. *)
Definition capacity_mismatch (db : Db) (c_id r_id : nat) : bool :=
  match query_get class_id (classes db) c_id, query_get room_id (rooms db) r_id with
  | Some cls, Some room => bool_decide (capacity room < student_strength cls)
  | _, _ => false
  end.

Definition same_slot_entries (rows : list EntryRow) (v_id s_id : nat) : list EntryRow :=
  filter (λ row, e_version_id (row_entry row) = v_id ∧ e_time_slot_id (row_entry row) = s_id)
    rows.

(** [for row in same_slot_entries]: the first row that is not the entry
    itself and shares something with it decides the message. *)
Fixpoint same_slot_issue (e_id c_id t_id r_id : nat) (entries : list EntryRow)
    : option string :=
  match entries with
  | [] => None
  | row :: rest =>
      if decide (row_id row = e_id) then same_slot_issue e_id c_id t_id r_id rest
      else if decide (e_teacher_id (row_entry row) = t_id) then Some "Teacher clash detected."
      else if decide (e_room_id (row_entry row) = r_id) then Some "Room clash detected."
      else if decide (e_class_id (row_entry row) = c_id) then Some "Class overlap detected."
      else same_slot_issue e_id c_id t_id r_id rest
  end.

(** The join of the entries with the slots, filtered: another entry of
    the version for the class and the subject on the day. *)
Definition subject_day_dup (db : Db) (rows : list EntryRow)
    (v_id e_id c_id sub_id : nat) (day : string) : option EntryRow :=
  head (row ← rows;
        s ← time_slots db;
        if decide (e_time_slot_id (row_entry row) = slot_id s
                   ∧ e_version_id (row_entry row) = v_id
                   ∧ row_id row ≠ e_id
                   ∧ e_class_id (row_entry row) = c_id
                   ∧ e_subject_id (row_entry row) = sub_id
                   ∧ day_of_week s = day)
        then [row] else []).

(** [_validate_entry(version_id, entry_id, class_id, teacher_id, room_id,
    slot_id)]: [None] when the move is accepted, the message otherwise. *)
Definition _validate_entry (db : Db) (rows : list EntryRow)
    (v_id e_id c_id t_id r_id s_id : nat) : attempt (option string) :=
  match query_get slot_id (time_slots db) s_id with
  | None => Returned (Some "Cannot assign timetable entry to a break slot.")
  | Some target_slot =>
      if is_break target_slot
      then Returned (Some "Cannot assign timetable entry to a break slot.")
      else if negb (_is_teacher_available db t_id s_id)
      then Returned (Some "Teacher is unavailable in the target slot.")
      else if capacity_mismatch db c_id r_id
      then Returned (Some "Room capacity does not match class strength.")
      else
        match same_slot_issue e_id c_id t_id r_id (same_slot_entries rows v_id s_id) with
        | Some issue => Returned (Some issue)
        | None =>
            match query_get row_id rows e_id with
            | None => AttributeError
            | Some this =>
                match subject_day_dup db rows v_id e_id c_id
                        (e_subject_id (row_entry this)) (day_of_week target_slot) with
                | Some _ =>
                    Returned (Some "Same subject repetition in one day is not allowed.")
                | None => Returned None
                end
            end
        end
  end.

(** [order_by(TimeSlot.day_of_week, TimeSlot.slot_order)]: days compare
    as strings; rows that tie keep the order of the table. *)
Definition slot_before (s1 s2 : TimeSlot) : bool :=
  match String.compare (day_of_week s1) (day_of_week s2) with
  | Lt => true
  | Gt => false
  | Eq => bool_decide (slot_order s1 ≤ slot_order s2)%nat
  end.

Fixpoint insert_slot (s : TimeSlot) (l : list TimeSlot) : list TimeSlot :=
  match l with
  | [] => [s]
  | x :: l' => if slot_before s x then s :: l else x :: insert_slot s l'
  end.

Definition all_slots (db : Db) : list TimeSlot :=
  foldr insert_slot [] (lecture_slots db).

Record Suggestion := {
  sg_time_slot_id : nat;
  sg_day : string }.

Definition suggestion_of (slot : TimeSlot) : Suggestion :=
  {| sg_time_slot_id := slot_id slot; sg_day := day_of_week slot |}.

(** [for slot in all_slots]: the length is tested after the append, so
    the loop also stops on a slot it did not take. *)
Fixpoint suggest_loop (validate : nat → attempt (option string)) (limit : nat)
    (slots : list TimeSlot) (suggestions : list Suggestion) : attempt (list Suggestion) :=
  match slots with
  | [] => Returned suggestions
  | slot :: rest =>
      match validate (slot_id slot) with
      | AttributeError => AttributeError
      | Returned err =>
          let suggestions' :=
            match err with
            | None => suggestions ++ [suggestion_of slot]
            | Some _ => suggestions
            end in
          if decide (limit ≤ length suggestions')%nat then Returned suggestions'
          else suggest_loop validate limit rest suggestions'
      end
  end.

(** [_suggest_alternate_slots(version_id, entry, limit)] *)
Definition _suggest_alternate_slots (db : Db) (rows : list EntryRow)
    (v_id : nat) (row : EntryRow) (limit : nat) : attempt (list Suggestion) :=
  suggest_loop
    (_validate_entry db rows v_id (row_id row) (e_class_id (row_entry row))
       (e_teacher_id (row_entry row)) (e_room_id (row_entry row)))
    limit (all_slots db) [].

(** [entry.time_slot_id = int(new_slot)] *)
Definition moved (s_id : nat) (row : EntryRow) : EntryRow :=
  {| row_id := row_id row; row_entry := with_slot (row_entry row) s_id |}.

Definition update_row (e_id : nat) (f : EntryRow → EntryRow) (rows : list EntryRow)
    : list EntryRow :=
  (λ row, if decide (row_id row = e_id) then f row else row) <$> rows.

Inductive move_response :=
  | NotFound
  | LockedEntry
  | SlotRequired
  | Rejected (issue : string) (alternates : list Suggestion)
  | Moved (row : EntryRow).

(** [move_entry(entry_id)] with the [time_slot_id] of the request body,
    [None] when the body has none; the answer and the table it leaves.
    The id is a natural number here: what [int(new_slot)] and the
    database do with other values of the body is not modelled. *)
Definition move_entry (db : Db) (rows : list EntryRow) (e_id : nat) (new_slot : option nat)
    : attempt (move_response * list EntryRow) :=
  match query_get row_id rows e_id with
  | None => Returned (NotFound, rows)
  | Some row =>
      if is_locked (row_entry row) then Returned (LockedEntry, rows)
      else
        match new_slot with
        | None | Some 0 => Returned (SlotRequired, rows)
        | Some s_id =>
            let e := row_entry row in
            match _validate_entry db rows (e_version_id e) (row_id row) (e_class_id e)
                    (e_teacher_id e) (e_room_id e) s_id with
            | AttributeError => AttributeError
            | Returned (Some issue) =>
                match _suggest_alternate_slots db rows (e_version_id e) row 5 with
                | AttributeError => AttributeError
                | Returned alternates => Returned (Rejected issue alternates, rows)
                end
            | Returned None =>
                Returned (Moved (moved s_id row), update_row e_id (moved s_id) rows)
            end
        end
  end.

(** The key the database gives to a new row of the timetable. *)
Definition next_row_id (rows : list EntryRow) : nat :=
  S (max_list (row_id <$> rows)).

(** [lock_period()]: the entry of the request body is stored locked,
    without any validation; [version_id] defaults to 0. *)
Definition lock_period (rows : list EntryRow) (v_id : option nat)
    (c_id sub_id t_id r_id s_id : nat) : EntryRow * list EntryRow :=
  let row := {| row_id := next_row_id rows;
                row_entry := {| e_version_id := default 0 v_id; e_class_id := c_id;
                                e_subject_id := sub_id; e_teacher_id := t_id;
                                e_room_id := r_id; e_time_slot_id := s_id;
                                is_locked := true |} |} in
  (row, rows ++ [row]).

(** ** Vocabulary of the edits *)

(** The rows of a version other than the row [e_id]. *)
Definition others (rows : list EntryRow) (v_id e_id : nat) : list EntryRow :=
  filter (λ row, e_version_id (row_entry row) = v_id ∧ row_id row ≠ e_id) rows.

(** What [_validate_entry] accepts: the slot is a lecture slot, the
    teacher is not marked unavailable in it, the room holds the class, no
    other entry of the version in the slot shares teacher, room or class
    with the entry, and no other entry of the version has the class and
    the subject on the day of the slot. *)
Definition acceptable (db : Db) (rows : list EntryRow)
    (v_id e_id c_id t_id r_id s_id : nat) : Prop :=
  ∃ target_slot this,
    query_get slot_id (time_slots db) s_id = Some target_slot
    ∧ is_break target_slot = false
    ∧ _is_teacher_available db t_id s_id = true
    ∧ capacity_mismatch db c_id r_id = false
    ∧ (∀ row, row ∈ others rows v_id e_id → e_time_slot_id (row_entry row) = s_id →
         e_teacher_id (row_entry row) ≠ t_id
         ∧ e_room_id (row_entry row) ≠ r_id
         ∧ e_class_id (row_entry row) ≠ c_id)
    ∧ query_get row_id rows e_id = Some this
    ∧ ∀ row s, row ∈ others rows v_id e_id → s ∈ time_slots db →
        slot_id s = e_time_slot_id (row_entry row) →
        e_class_id (row_entry row) = c_id →
        e_subject_id (row_entry row) = e_subject_id (row_entry this) →
        day_of_week s ≠ day_of_week target_slot.

(** The entries of a version in the table of rows. *)
Definition version_rows (rows : list EntryRow) (v_id : nat) : list TimetableEntry :=
  row_entry <$> filter (λ row, e_version_id (row_entry row) = v_id) rows.

(** The four kinds of the detector that [_validate_entry] guards. *)
Definition guarded_kinds : list string :=
  ["teacher_clash"; "room_clash"; "class_clash"; "subject_repeat"].

(** The pair a row of the availability table is about. *)
Definition av_key (row : TeacherAvailability) : nat * nat :=
  (av_teacher_id row, av_time_slot_id row).

(** ** Substitutes (substitutes_needed, assign_substitute)

    A record of [needed] keeps the ids of the dict the code builds; the
    names and the formatted times are left out.  The substitutes of a
    record are a set, as in the code, which lists them in the order of
    iteration of a Python set. *)

(** [TimetableVersion.query.filter_by(is_active=True).first()] *)
Definition active (db : Db) : option TimetableVersion :=
  head (active_versions db).

Definition unavailabilities (db : Db) : list TeacherAvailability :=
  filter (λ u, is_available u = false) (availability db).

Definition unavailable_set (db : Db) : gset (nat * nat) :=
  list_to_set (av_key <$> unavailabilities db).

(** [slot_to_busy_teachers[slot].add(teacher)] *)
Definition add_busy (m : gmap nat (gset nat)) (s_id t_id : nat) : gmap nat (gset nat) :=
  <[s_id := {[t_id]} ∪ default ∅ (m !! s_id)]> m.

Definition slot_to_busy_teachers (db : Db) (entries : list TimetableEntry)
    : gmap nat (gset nat) :=
  foldl (λ m u, add_busy m (av_time_slot_id u) (av_teacher_id u))
    (foldl (λ m e, add_busy m (e_time_slot_id e) (e_teacher_id e)) ∅ entries)
    (unavailabilities db).

Record Needed := {
  n_entry_id : nat;
  absent_teacher_id : nat;
  available_substitutes : gset nat }.

(** [set(teachers.keys())] *)
Definition all_teachers (db : Db) : gset nat :=
  dom (by_id teacher_id (teachers db)).

Definition active_rows (rows : list EntryRow) (v : TimetableVersion) : list EntryRow :=
  filter (λ row, e_version_id (row_entry row) = version_id v) rows.

Definition substitutes_needed (db : Db) (rows : list EntryRow) : list Needed :=
  match active db with
  | None => []
  | Some v =>
      let entries := active_rows rows v in
      let busy := slot_to_busy_teachers db (row_entry <$> entries) in
      row ← entries;
      if decide ((e_teacher_id (row_entry row), e_time_slot_id (row_entry row))
                 ∈ unavailable_set db)
      then [ {| n_entry_id := row_id row;
                absent_teacher_id := e_teacher_id (row_entry row);
                available_substitutes :=
                  all_teachers db
                  ∖ default ∅ (busy !! e_time_slot_id (row_entry row)) |} ]
      else []
  end.

(** [entry.teacher_id = new_teacher_id] *)
Definition with_teacher (t_id : nat) (row : EntryRow) : EntryRow :=
  {| row_id := row_id row;
     row_entry :=
       {| e_version_id := e_version_id (row_entry row);
          e_class_id := e_class_id (row_entry row);
          e_subject_id := e_subject_id (row_entry row);
          e_teacher_id := t_id;
          e_room_id := e_room_id (row_entry row);
          e_time_slot_id := e_time_slot_id (row_entry row);
          is_locked := is_locked (row_entry row) |} |}.

Inductive assign_response :=
  | IdsRequired
  | EntryNotFound
  | Assigned.

(** [assign_substitute()] with the [entry_id] and the
    [substitute_teacher_id] of the request body, [None] when the body
    lacks one; nothing about the new teacher is checked. *)
Definition assign_substitute (rows : list EntryRow) (e_id new_teacher_id : option nat)
    : assign_response * list EntryRow :=
  match e_id, new_teacher_id with
  | Some (S e), Some (S t) =>
      match query_get row_id rows (S e) with
      | None => (EntryNotFound, rows)
      | Some _ => (Assigned, update_row (S e) (with_teacher (S t)) rows)
      end
  | _, _ => (IdsRequired, rows)
  end.

(** ** The fixed day (configure_time_slots, routes/data_routes.py)

    The start and the end of a slot stay in [DAILY_SCHEDULE]; the rows
    of [TimeSlot] above carry the day, the order and the break flag.  The
    database numbers the new rows from [first_id] on, in the order in
    which they are added. *)

Definition DAILY_SCHEDULE : list (nat * nat * bool) :=
  [ (9 * 60, 10 * 60, false);
    (10 * 60, 11 * 60, false);
    (11 * 60, 12 * 60, false);
    (12 * 60, 12 * 60 + 30, true);
    (12 * 60 + 30, 13 * 60 + 30, false);
    (13 * 60 + 30, 14 * 60 + 30, false);
    (14 * 60 + 30, 14 * 60 + 45, true);
    (14 * 60 + 45, 15 * 60 + 45, false);
    (15 * 60 + 45, 16 * 60 + 45, false) ].

Definition with_time_slots (db : Db) (slots : list TimeSlot) : Db :=
  {| classes := classes db; subjects := subjects db; teachers := teachers db;
     rooms := rooms db; teacher_subjects := teacher_subjects db;
     time_slots := slots; availability := availability db;
     versions := versions db; timetable := timetable db;
     conflicts := conflicts db |}.

(** The rows of one day: [enumerate(DAILY_SCHEDULE, start=1)]. *)
Definition day_rows (day : string) : list (string * nat * bool) :=
  imap (λ i '(_, _, is_brk), (day, S i, is_brk)) DAILY_SCHEDULE.

(** [TimeSlot.query.delete()], then one row per working day and line of
    the schedule. *)
Definition configure_time_slots (db : Db) (first_id : nat) (working_days : list string)
    : Db :=
  with_time_slots db
    (imap (λ i '(day, order, is_brk),
             {| slot_id := first_id + i; day_of_week := day;
                is_break := is_brk; slot_order := order |})
       (working_days ≫= day_rows)).

(** The slot orders the grid of a class uses. *)
Definition template_orders : list nat := [1; 2; 3; 5; 6; 8; 9].

(** ** The availability table with NULL (routes/data_routes.py)

    The column [is_available] is nullable, and [upsert_availability]
    stores NULL in a row it updates when the request body has
    ["is_available": null].  The upsert and the three readers of the
    table are modelled here on rows that keep the NULL; the table is the
    list of its rows in the order of their ids. *)
Module Nullable.

Record AvailabilityRow := {
  ar_teacher_id : nat;
  ar_time_slot_id : nat;
  ar_is_available : option bool }.

Definition key (row : AvailabilityRow) : nat * nat :=
  (ar_teacher_id row, ar_time_slot_id row).

(** [filter_by(teacher_id=teacher_id, time_slot_id=slot_id).first()] *)
Definition first_row (rows : list AvailabilityRow) (t_id s_id : nat)
    : option AvailabilityRow :=
  head (filter (λ row, ar_teacher_id row = t_id ∧ ar_time_slot_id row = s_id) rows).

(** [True if not row else bool(row.is_available)]: [bool(None)] is
    [False]. *)
Definition _is_teacher_available (rows : list AvailabilityRow) (t_id s_id : nat) : bool :=
  match first_row rows t_id s_id with
  | None => true
  | Some row => default false (ar_is_available row)
  end.

(** [out[(row.teacher_id, row.time_slot_id)] = row.is_available] *)
Definition _load_availability (rows : list AvailabilityRow)
    : gmap (nat * nat) (option bool) :=
  foldl (λ out row, <[key row := ar_is_available row]> out) ∅ rows.

(** What the [defaultdict(lambda: True)] holds for a pair. *)
Definition loaded (rows : list AvailabilityRow) (t_id s_id : nat) : option bool :=
  default (Some true) (_load_availability rows !! (t_id, s_id)).

(** [filter_by(is_available=False)]: the comparison selects no row with
    NULL. *)
Definition unavailabilities (rows : list AvailabilityRow) : list AvailabilityRow :=
  filter (λ u, ar_is_available u = Some false) rows.

Definition unavailable_set (rows : list AvailabilityRow) : gset (nat * nat) :=
  list_to_set (key <$> unavailabilities rows).

(** The [is_available] of a request body: the key is absent, or its
    value is [null] or a boolean. *)
Inductive body_value :=
  | Absent
  | Null
  | Bool (b : bool).

(** What the INSERT stores for [data.get("is_available", True)]: an
    attribute that is [None] is left out of the statement, and the
    default of the column, [True], applies. *)
Definition inserted (v : body_value) : option bool :=
  match v with
  | Bool b => Some b
  | Absent | Null => Some true
  end.

(** What the UPDATE stores for
    [data.get("is_available", row.is_available)]. *)
Definition updated (old : option bool) (v : body_value) : option bool :=
  match v with
  | Absent => old
  | Null => None
  | Bool b => Some b
  end.

(** The update of the first row of a pair, the row [.first()] returned. *)
Fixpoint update_first (k : nat * nat) (v : body_value) (rows : list AvailabilityRow)
    : list AvailabilityRow :=
  match rows with
  | [] => []
  | row :: rest =>
      if decide (key row = k)
      then {| ar_teacher_id := ar_teacher_id row; ar_time_slot_id := ar_time_slot_id row;
              ar_is_available := updated (ar_is_available row) v |} :: rest
      else row :: update_first k v rest
  end.

Inductive upsert_response :=
  | Forbidden
  | Upserted (row : AvailabilityRow).

(** [upsert_availability()] for a user of the role [role] bound to the
    teacher [user_teacher], and a request body with [teacher_id],
    [time_slot_id] and the [is_available] that [is_av] describes; the
    answer carries the row as it is after the commit. *)
Definition upsert_availability (rows : list AvailabilityRow) (role : string)
    (user_teacher : option nat) (t_id s_id : nat) (is_av : body_value)
    : upsert_response * list AvailabilityRow :=
  if bool_decide (role = "teacher" ∧ user_teacher ≠ Some t_id) then (Forbidden, rows)
  else if bool_decide (role ∉ ["admin"; "teacher"]) then (Forbidden, rows)
  else
    match first_row rows t_id s_id with
    | None =>
        let row := {| ar_teacher_id := t_id; ar_time_slot_id := s_id;
                      ar_is_available := inserted is_av |} in
        (Upserted row, rows ++ [row])
    | Some row =>
        (Upserted {| ar_teacher_id := ar_teacher_id row;
                     ar_time_slot_id := ar_time_slot_id row;
                     ar_is_available := updated (ar_is_available row) is_av |},
         update_first (t_id, s_id) is_av rows)
    end.

End Nullable.

(** ** Concrete tables *)

(** Two entries of the week, on Monday. *)
Definition week_rows : list EntryRow :=
  [ {| row_id := 1; row_entry := entry_at 1 3 |};
    {| row_id := 2; row_entry := entry_at 2 5 |} ].

(** The week with its first version active, its teacher absent in the
    slot 3, and a second teacher. *)
Definition absence_db : Db :=
  {| classes := classes week_db; subjects := subjects week_db;
     teachers := teachers week_db ++ [{| teacher_id := 2; max_lectures_per_day := 6 |}];
     rooms := rooms week_db; teacher_subjects := teacher_subjects week_db;
     time_slots := time_slots week_db;
     availability := [{| av_teacher_id := 1; av_time_slot_id := 3; is_available := false |}];
     versions := [with_active true (new_version 1 0 1 10000)];
     timetable := []; conflicts := [] |}.

(** An availability table with a row that holds NULL. *)
Definition null_rows : list Nullable.AvailabilityRow :=
  [ {| Nullable.ar_teacher_id := 1; Nullable.ar_time_slot_id := 1;
       Nullable.ar_is_available := Some false |};
    {| Nullable.ar_teacher_id := 1; Nullable.ar_time_slot_id := 2;
       Nullable.ar_is_available := None |};
    {| Nullable.ar_teacher_id := 2; Nullable.ar_time_slot_id := 1;
       Nullable.ar_is_available := Some true |} ].

(** * Properties *)

(** ** The order of the items *)

Lemma insert_desc_T x l :
  item_type x = T →
  insert_desc x l = x :: l.
Proof.
  intros Hx. destruct l as [|y l]; [done|]. simpl. rewrite Hx.
  by destruct (item_type y).
Qed.

Lemma insert_desc_L x l1 l2 :
  item_type x = L →
  Forall (λ y, item_type y = T) l1 →
  Forall (λ y, item_type y = L) l2 →
  insert_desc x (l1 ++ l2) = l1 ++ x :: l2.
Proof.
  intros Hx H1 H2. induction H1 as [|y l1 Hy _ IH]; simpl.
  - destruct l2 as [|y l2]; [done|]. simpl. rewrite Hx.
    apply Forall_cons in H2 as [-> _]. done.
  - rewrite Hx, Hy. simpl. by rewrite IH.
Qed.

Lemma sort_type_desc_partition l :
  sort_type_desc l
  = filter (λ x, item_type x = T) l ++ filter (λ x, item_type x = L) l.
Proof.
  induction l as [|x l IH]; [done|]. simpl. rewrite IH.
  rewrite !filter_cons. destruct (item_type x) eqn:Hx.
  - rewrite decide_False, decide_True by done.
    apply insert_desc_L; [done| |]; apply Forall_forall; intros y Hy;
      by apply list_elem_of_filter in Hy as [? _].
  - rewrite decide_True, decide_False by done.
    by apply insert_desc_T.
Qed.

Lemma class_items_sorted `{Random G} (db : Db) (g : G) :
  (class_items db g).1 = sort_type_desc (shuffle (expand_demand (classes db) (subjects db)) g).1.
Proof. unfold class_items, order_items. by destruct (shuffle _ g). Qed.


(** ** Soundness of the search *)

Lemma set_item_None eb : b_item (eb_block eb) = None → set_item eb None = eb.
Proof. destruct eb as [c d [sl k it]]. simpl. by intros ->. Qed.

Lemma valid_blocks_spec ebs item i eb :
  (i, eb) ∈ valid_blocks ebs item →
  ebs !! i = Some eb ∧ eb_class_id eb = item_class_id item
  ∧ b_type (eb_block eb) = item_type item ∧ b_item (eb_block eb) = None.
Proof.
  unfold valid_blocks. rewrite list_elem_of_filter. simpl.
  intros [(Hc & Ht & Hn) Hin]. split; [|done].
  apply list_elem_of_lookup_1 in Hin as [j Hj].
  rewrite list_lookup_imap in Hj.
  destruct (ebs !! j) eqn:E; simpl in Hj; [|done]. by simplify_eq.
Qed.

Lemma pick_room_elem sm busy day sl rs r_id :
  pick_room sm busy day sl rs = Some r_id → ∃ r, r ∈ rs ∧ room_id r = r_id.
Proof.
  unfold pick_room. destruct (List.find _ rs) as [r|] eqn:E; simpl; [|done].
  intros [= <-]. exists r. split; [|done].
  apply find_some in E as [Hin _]. by apply list_elem_of_In.
Qed.

Section sound.
Context `{Random G} (db : Db).

Lemma try_blocks_sound rec item items teacher vbs :
  search_spec db items rec →
  t_map db !! item_subject_id item = Some teacher →
  ∀ ebs st g ok st' g',
    empty_blocks st = ebs →
    Forall (λ ib, ebs !! ib.1 = Some ib.2
                  ∧ eb_class_id ib.2 = item_class_id item
                  ∧ b_type (eb_block ib.2) = item_type item
                  ∧ b_item (eb_block ib.2) = None) vbs →
    try_blocks db rec item teacher vbs st g = (ok, st', g') →
    if ok then placed_all db (item :: items) ebs (empty_blocks st')
    else empty_blocks st' = ebs.
Proof.
  intros Hrec Ht ebs. induction vbs as [|[i eb] vbs IH]; intros st g ok st' g' Hst Hall Hrun.
  - simpl in Hrun. by simplify_eq.
  - apply Forall_cons in Hall as [(Hi & Hc & Hk & Hn) Hall]. simpl in Hi, Hc, Hk, Hn.
    simpl in Hrun.
    case_bool_decide; [by eapply IH|].
    destruct (slot_conflict _ _ _ _ _); [by eapply IH|].
    destruct (shuffle _ g) as [rs g1] eqn:Hsh.
    destruct (pick_room _ _ _ _ rs) as [room|] eqn:Hpick; [|by eapply IH].
    destruct (decide (room = 0)); [by eapply IH|].
    apply pick_room_elem in Hpick as (r & Hr & <-).
    assert (r ∈ (if decide (item_type item = T) then classrooms db else lab_rooms db)) as Hr'.
    { pose proof (shuffle_perm _ (if decide (item_type item = T) then classrooms db else lab_rooms db) g) as Hp.
      rewrite Hsh in Hp. simpl in Hp. by rewrite <- Hp. }
    match type of Hrun with context [rec ?s ?gg] =>
      destruct (rec s gg) as [[ok2 st2] g2] eqn:Hr2 end.
    apply Hrec in Hr2. simpl in Hr2. rewrite Hst in Hr2.
    destruct ok2.
    + simplify_eq. by eapply placed_cons.
    + eapply IH; [|done|exact Hrun].
      simpl. rewrite Hr2, list_insert_insert_eq, set_item_None by done.
      by apply list_insert_id.
Qed.

Lemma place_item_sound items : search_spec db items (place_item db items).
Proof.
  induction items as [|item items IH]; intros st g ok st' g' Hrun; simpl in Hrun.
  - simplify_eq. constructor.
  - destruct (t_map db !! item_subject_id item) as [teacher|] eqn:Ht; [|by simplify_eq].
    destruct (decide (teacher = 0)); [by simplify_eq|].
    destruct (shuffle _ g) as [vbs g1] eqn:Hsh.
    eapply try_blocks_sound; [exact IH|exact Ht|done| |exact Hrun].
    pose proof (shuffle_perm _ (valid_blocks (empty_blocks st) item) g) as Hp.
    rewrite Hsh in Hp. simpl in Hp. rewrite Hp.
    apply Forall_forall. intros [i eb] Hin. by apply valid_blocks_spec.
Qed.
End sound.

(** ** Items, grid and persisted entries *)

(** *** Items *)
Lemma insert_desc_perm x l : insert_desc x l ≡ₚ x :: l.
Proof.
  induction l as [|y l IH]; [done|]. simpl.
  destruct (String.leb _ _); [done|]. rewrite IH. apply Permutation_swap.
Qed.

Lemma sort_type_desc_perm l : sort_type_desc l ≡ₚ l.
Proof.
  induction l as [|x l IH]; [done|]. simpl. by rewrite insert_desc_perm, IH.
Qed.

Lemma class_items_perm `{Random G} (db : Db) (g : G) :
  (class_items db g).1 ≡ₚ expand_demand (classes db) (subjects db).
Proof. rewrite class_items_sorted, sort_type_desc_perm. apply shuffle_perm. Qed.

Lemma expand_demand_elem cls subs item :
  item ∈ expand_demand cls subs →
  ∃ c s, c ∈ cls ∧ s ∈ subs ∧ subject_class_id s = class_id c
         ∧ item_class_id item = class_id c
         ∧ item_subject_id item = subject_id s
         ∧ item_type item = (if is_lab s then L else T).
Proof.
  unfold expand_demand. rewrite list_elem_of_bind. intros (c & Hitem & Hc).
  unfold expand_class in Hitem. rewrite elem_of_app, !list_elem_of_bind in Hitem.
  destruct Hitem as [(s & Hitem & Hs)|(s & Hitem & Hs)];
    apply list_elem_of_filter in Hs as [Hsc Hs]; exists c, s;
    unfold l_items_of, t_items_of in Hitem; destruct (is_lab s);
    try (by apply elem_of_nil in Hitem);
    apply elem_of_replicate_inv in Hitem; by subst item.
Qed.

(** *** Grid *)
Lemma class_blocks_elem c_id days eb :
  eb ∈ class_blocks c_id days →
  eb_class_id eb = c_id ∧ b_item (eb_block eb) = None
  ∧ length (b_slots (eb_block eb)) = width (b_type (eb_block eb)).
Proof.
  unfold class_blocks. rewrite list_elem_of_join. intros (l & Heb & Hl).
  apply list_elem_of_lookup_1 in Hl as [i Hl]. rewrite list_lookup_imap in Hl.
  destruct (days !! i) as [d|]; simpl in Hl; [|done]. simplify_eq.
  apply list_elem_of_fmap in Heb as (b & -> & Hb). simpl. split; [done|].
  unfold day_template in Hb. destruct (decide (i < 3));
    unfold heavy_day, light_day in Hb;
    repeat (apply elem_of_cons in Hb as [->|Hb]; [by simpl|]);
    by apply elem_of_nil in Hb.
Qed.

Lemma build_grids_elem `{Random G} cls (g : G) eb :
  eb ∈ (build_grids cls g).1 →
  b_item (eb_block eb) = None
  ∧ length (b_slots (eb_block eb)) = width (b_type (eb_block eb)).
Proof.
  revert g. induction cls as [|c cls IH]; intros g; simpl.
  - intros Hin. by apply elem_of_nil in Hin.
  - destruct (shuffle days_order g) as [days g1].
    specialize (IH g1). destruct (build_grids cls g1) as [rest g2]. simpl in *.
    rewrite elem_of_app. intros [Hin|Hin]; [|by apply IH].
    by apply class_blocks_elem in Hin as (_ & ? & ?).
Qed.

(** *** Persistence *)
Lemma block_entries_spec sm v eb sl es :
  block_entries sm v eb sl = Ok es →
  length es = length sl
  ∧ (sl ≠ [] → is_Some (b_item (eb_block eb)))
  ∧ ∀ e, e ∈ es → ∃ p, b_item (eb_block eb) = Some p
      ∧ e_class_id e = eb_class_id eb ∧ e_subject_id e = p_subject_id p
      ∧ e_teacher_id e = p_teacher_id p ∧ e_room_id e = p_room_id p
      ∧ ∃ s_idx, s_idx ∈ sl ∧ sm !! (eb_day eb, s_idx) = Some (e_time_slot_id e).
Proof.
  revert es. induction sl as [|s_idx sl IH]; intros es; simpl.
  - intros [= <-]. split; [done|]. split; [done|]. intros e He. by apply elem_of_nil in He.
  - destruct (sm !! (eb_day eb, s_idx)) as [ts|] eqn:Hts; [|done].
    destruct (b_item (eb_block eb)) as [p|] eqn:Hp; [|done].
    destruct (block_entries sm v eb sl) as [es0|] eqn:Hes; [|done].
    intros [= <-]. destruct (IH es0 eq_refl) as (Hlen & _ & Hall).
    split; [simpl; by rewrite Hlen|]. split; [by eauto|].
    intros e [->|He]%elem_of_cons.
    + exists p. simpl. repeat split; try done. exists s_idx. split; [left|done].
    + destruct (Hall e He) as (p' & Hp' & ? & ? & ? & ? & s' & ? & ?).
      exists p'. repeat split; try done. exists s'. split; [by right|done].
Qed.

Lemma persist_entries_elem sm v ebs es e :
  persist_entries sm v ebs = Ok es → e ∈ es →
  ∃ eb p, eb ∈ ebs ∧ b_item (eb_block eb) = Some p
      ∧ e_class_id e = eb_class_id eb ∧ e_subject_id e = p_subject_id p
      ∧ e_teacher_id e = p_teacher_id p ∧ e_room_id e = p_room_id p
      ∧ ∃ s_idx, s_idx ∈ b_slots (eb_block eb)
                 ∧ sm !! (eb_day eb, s_idx) = Some (e_time_slot_id e).
Proof.
  revert es. induction ebs as [|eb ebs IH]; intros es; simpl.
  - intros [= <-] He. by apply elem_of_nil in He.
  - destruct (block_entries _ _ _ _) as [es1|] eqn:H1; [|done].
    destruct (persist_entries _ _ _) as [es2|] eqn:H2; [|done].
    intros [= <-] [He|He]%elem_of_app.
    + apply block_entries_spec in H1 as (_ & _ & Hall).
      destruct (Hall e He) as (p & ? & ?). exists eb, p. split; [left|done].
    + destruct (IH es2 eq_refl He) as (eb' & p & ? & ?). exists eb', p. split; [by right|done].
Qed.

(** *** What the filled blocks hold *)
Lemma placed_all_filled db items ebs ebs' eb' p :
  placed_all db items ebs ebs' → eb' ∈ ebs' → b_item (eb_block eb') = Some p →
  (eb' ∈ ebs)
  ∨ ∃ item r, item ∈ items
      ∧ r ∈ (if decide (item_type item = T) then classrooms db else lab_rooms db)
      ∧ eb_class_id eb' = item_class_id item
      ∧ b_type (eb_block eb') = item_type item
      ∧ p_subject_id p = item_subject_id item
      ∧ t_map db !! item_subject_id item = Some (p_teacher_id p)
      ∧ p_room_id p = room_id r.
Proof.
  intros Hpl. revert eb' p. induction Hpl as [ebs|item items ebs ebs' i eb teacher r Hi Hc Hk Hn Ht Hr Hpl IH];
    intros eb' p Hin Hp; [by left|].
  destruct (IH eb' p Hin Hp) as [Hold|(item' & r' & Hitem & ?)].
  - apply list_elem_of_lookup_1 in Hold as [j Hj].
    apply list_lookup_insert_Some in Hj as [(-> & <- & _)|(_ & Hj)].
    + right. exists item, r. simpl in Hp. simplify_eq. simpl.
      repeat split; try done. left.
    + left. by eapply list_elem_of_lookup_2.
  - right. exists item', r'. split; [by right|done].
Qed.

Lemma classrooms_elem db r : r ∈ classrooms db → r ∈ rooms db ∧ room_type r = "classroom".
Proof. unfold classrooms. rewrite list_elem_of_filter. tauto. Qed.

Lemma lab_rooms_elem db r : r ∈ lab_rooms db → r ∈ rooms db ∧ room_type r = "lab".
Proof. unfold lab_rooms. rewrite list_elem_of_filter. tauto. Qed.

Lemma NoDup_fmap_eq {A} (f : A → nat) (l : list A) x y :
  NoDup (f <$> l) → x ∈ l → y ∈ l → f x = f y → x = y.
Proof.
  induction l as [|z l IH]; [by intros _ ?%elem_of_nil|].
  rewrite fmap_cons, NoDup_cons. intros [Hz Hnd] Hx Hy Hf.
  apply elem_of_cons in Hx as [->|Hx]; apply elem_of_cons in Hy as [->|Hy]; try done.
  - exfalso. apply Hz. rewrite Hf. by apply list_elem_of_fmap_2.
  - exfalso. apply Hz. rewrite <- Hf. by apply list_elem_of_fmap_2.
  - by apply IH.
Qed.

Section candidate.
Context `{Random G}.

Lemma generate_candidate_inv (db : Db) (creator index : nat) (g : G) db' v g' :
  generate_candidate db creator index g = (Ok (db', v), g') →
  ∃ ok st, search db g = (ok, st, g')
    ∧ version_id v = next_version_id db
    ∧ if ok
      then ∃ es, persist_entries (slot_map db) (next_version_id db) (empty_blocks st) = Ok es
                 ∧ new_entries db db' = es ∧ score v = 10000%Z
      else new_entries db db' = [] ∧ score v = 0%Z.
Proof.
  unfold generate_candidate. destruct (search db g) as [[ok st] g1].
  intros Hrun. exists ok, st. destruct ok.
  - destruct (persist_entries _ _ _) as [es|] eqn:Hes; [|done].
    simplify_eq. split; [done|]. split; [done|]. exists es.
    unfold new_entries. simpl. by rewrite drop_app_length.
  - simplify_eq. split; [done|]. split; [done|].
    unfold new_entries. simpl. rewrite app_nil_r. by rewrite drop_all.
Qed.

Lemma search_placed (db : Db) (g : G) st g' :
  search db g = (true, st, g') →
  ∃ g1 g2, placed_all db (class_items db g).1 (build_grids (classes db) g1).1 (empty_blocks st)
           ∧ g1 = (class_items db g).2 ∧ g2 = (build_grids (classes db) g1).2.
Proof.
  unfold search. destruct (class_items db g) as [items g1].
  destruct (build_grids (classes db) g1) as [ebs g2] eqn:Hb.
  intros Hrun. exists g1, g2. rewrite Hb. simpl. split; [|done].
  by apply place_item_sound in Hrun.
Qed.

(** X28: in a candidate the generator persisted, the room of
    every entry has the type the kind of the entry's subject asks for,
    a classroom for a theory subject and a lab for a lab subject.  Ids
    are primary keys, so the subject and the room of an entry are the
    rows of that id. *)
Theorem generated_rooms_match_type (db : Db) (creator index : nat) (g : G)
    db' v g' (e : TimetableEntry) (sub : Subject) (r : Room) :
  NoDup (subject_id <$> subjects db) →
  NoDup (room_id <$> rooms db) →
  generate_candidate db creator index g = (Ok (db', v), g') →
  e ∈ new_entries db db' →
  sub ∈ subjects db → subject_id sub = e_subject_id e →
  r ∈ rooms db → room_id r = e_room_id e →
  room_type r = room_type_of (is_lab sub).
Proof.
  intros Hnds Hndr Hgen He Hsub Hsid Hr Hrid.
  apply generate_candidate_inv in Hgen as (ok & st & Hsearch & _ & Hok).
  destruct ok; [|destruct Hok as [Hnil _]; rewrite Hnil in He; by apply elem_of_nil in He].
  destruct Hok as (es & Hes & <- & _).
  destruct (persist_entries_elem _ _ _ _ _ Hes He)
    as (eb & p & Heb & Hp & _ & Hs & _ & Hroom & _).
  apply search_placed in Hsearch as (g1 & g2 & Hpl & _ & _).
  destruct (placed_all_filled _ _ _ _ _ _ Hpl Heb Hp)
    as [Hold|(item & r0 & Hitem & Hr0 & _ & _ & Hps & _ & Hpr)].
  { apply build_grids_elem in Hold as [Hnone _]. congruence. }
  rewrite class_items_perm in Hitem.
  apply expand_demand_elem in Hitem as (c & s & _ & Hs' & _ & _ & Hsid' & Hty).
  assert (s = sub) as ->.
  { eapply (NoDup_fmap_eq subject_id); eauto. congruence. }
  rewrite Hty in Hr0. destruct (is_lab sub); simpl in Hr0.
  - apply lab_rooms_elem in Hr0 as [Hin Hrt].
    assert (r0 = r) as -> by (eapply (NoDup_fmap_eq room_id); eauto; congruence). done.
  - apply classrooms_elem in Hr0 as [Hin Hrt].
    assert (r0 = r) as -> by (eapply (NoDup_fmap_eq room_id); eauto; congruence). done.
Qed.
End candidate.

(** ** Coverage *)

(** *** Counting entries *)
Lemma count_entries_app c s es1 es2 :
  count_entries c s (es1 ++ es2) = count_entries c s es1 + count_entries c s es2.
Proof. unfold count_entries. by rewrite filter_app, length_app. Qed.

Lemma count_entries_all c s es :
  Forall (λ e, e_class_id e = c ∧ e_subject_id e = s) es → count_entries c s es = length es.
Proof.
  unfold count_entries. induction 1 as [|e es He _ IH]; [done|].
  rewrite filter_cons, decide_True by done. simpl. by rewrite IH.
Qed.

Lemma count_entries_none c s es :
  Forall (λ e, ¬ (e_class_id e = c ∧ e_subject_id e = s)) es → count_entries c s es = 0.
Proof.
  unfold count_entries. induction 1 as [|e es He _ IH]; [done|].
  by rewrite filter_cons, decide_False.
Qed.

Lemma block_entries_count sm v eb c s es :
  block_entries sm v eb (b_slots (eb_block eb)) = Ok es →
  count_entries c s es = block_weight c s eb.
Proof.
  intros Hes. apply block_entries_spec in Hes as (Hlen & Hsome & Hall).
  unfold block_weight. destruct (b_item (eb_block eb)) as [p|] eqn:Hp.
  - case_decide as Hcs.
    + rewrite <- Hlen. apply count_entries_all, Forall_forall. intros e He.
      destruct (Hall e He) as (p' & ? & -> & -> & _). by simplify_eq.
    + apply count_entries_none, Forall_forall. intros e He.
      destruct (Hall e He) as (p' & ? & -> & -> & _). by simplify_eq.
  - destruct (b_slots (eb_block eb)) as [|x sl]; [|by destruct Hsome as [? ?]].
    destruct es; [done|done].
Qed.

Lemma persist_entries_count sm v ebs c s es :
  persist_entries sm v ebs = Ok es →
  count_entries c s es = sum_list_with (block_weight c s) ebs.
Proof.
  revert es. induction ebs as [|eb ebs IH]; intros es; simpl.
  - by intros [= <-].
  - destruct (block_entries _ _ _ _) as [es1|] eqn:H1; [|done].
    destruct (persist_entries _ _ _) as [es2|] eqn:H2; [|done].
    intros [= <-]. rewrite count_entries_app, (IH es2 eq_refl).
    by erewrite block_entries_count.
Qed.

(** *** Weights along a successful search *)
Lemma sum_list_with_insert {A} (f : A → nat) (l : list A) i x y :
  l !! i = Some x →
  sum_list_with f (<[i := y]> l) + f x = sum_list_with f l + f y.
Proof.
  revert i. induction l as [|z l IH]; intros [|i]; simpl; try done.
  - intros [= ->]. lia.
  - intros Hi. specialize (IH i Hi). lia.
Qed.

Lemma placed_all_weight db items ebs ebs' c s :
  shaped ebs →
  placed_all db items ebs ebs' →
  sum_list_with (block_weight c s) ebs'
  = sum_list_with (block_weight c s) ebs + sum_list_with (item_weight c s) items.
Proof.
  intros Hsh Hpl. induction Hpl as [ebs|item items ebs ebs' i eb teacher r Hi Hc Hk Hn Ht Hr Hpl IH];
    [simpl; lia|].
  rewrite IH.
  - pose proof (sum_list_with_insert (block_weight c s) ebs i eb
      (set_item eb (Some {| p_subject_id := item_subject_id item; p_teacher_id := teacher;
                            p_room_id := room_id r |})) Hi) as Hsum.
    assert (block_weight c s eb = 0) as Hz by (unfold block_weight; by rewrite Hn).
    assert (block_weight c s (set_item eb (Some {| p_subject_id := item_subject_id item;
              p_teacher_id := teacher; p_room_id := room_id r |})) = item_weight c s item) as Hw.
    { unfold block_weight, item_weight. simpl. rewrite Hc, <- Hk.
      unfold shaped in Hsh. rewrite Forall_forall in Hsh. rewrite (Hsh eb) by (by eapply list_elem_of_lookup_2).
      by repeat case_decide. }
    simpl. lia.
  - unfold shaped in *. rewrite Forall_forall in *. intros eb' Hin.
    apply list_elem_of_lookup_1 in Hin as [j Hj].
    apply list_lookup_insert_Some in Hj as [(-> & <- & _)|(_ & Hj)].
    + simpl. apply Hsh. by eapply list_elem_of_lookup_2.
    + apply Hsh. by eapply list_elem_of_lookup_2.
Qed.

Lemma empty_blocks_weight c s ebs :
  Forall (λ eb, b_item (eb_block eb) = None) ebs →
  sum_list_with (block_weight c s) ebs = 0.
Proof.
  induction 1 as [|eb ebs He _ IH]; [done|]. simpl. rewrite IH.
  unfold block_weight. by rewrite He.
Qed.

(** *** The demand of one subject of one class *)
Lemma sum_list_with_bind {A B} (f : B → nat) (h : A → list B) (l : list A) :
  sum_list_with f (l ≫= h) = sum_list_with (λ x, sum_list_with f (h x)) l.
Proof.
  induction l as [|x l IH]; [done|]. rewrite bind_cons, sum_list_with_app. simpl. by rewrite IH.
Qed.

Lemma sum_list_with_replicate {A} (f : A → nat) n x :
  sum_list_with f (replicate n x) = n * f x.
Proof. induction n as [|n IH]; simpl; [done|]. rewrite IH. lia. Qed.

Lemma sum_list_with_single {A} (key : A → nat) (f : A → nat) (l : list A) x :
  NoDup (key <$> l) → x ∈ l →
  (∀ y, y ∈ l → key y ≠ key x → f y = 0) →
  sum_list_with f l = f x.
Proof.
  induction l as [|z l IH]; [by intros _ ?%elem_of_nil|].
  rewrite fmap_cons, NoDup_cons. intros [Hz Hnd] Hx Hf. simpl.
  apply elem_of_cons in Hx as [->|Hx].
  - assert (sum_list_with f l = 0) as ->; [|lia].
    clear IH. induction l as [|y l IHl]; [done|]. simpl.
    rewrite fmap_cons in Hz, Hnd. apply not_elem_of_cons in Hz as [Hne Hz].
    apply NoDup_cons in Hnd as [_ Hnd].
    rewrite (Hf y) by (try (right; left); congruence).
    rewrite IHl; [done|done|done|].
    intros y' Hy' Hk. apply Hf; [|done].
    apply elem_of_cons in Hy' as [->|Hy']; [left|right; by right].
  - rewrite (Hf z); [|left|].
    + simpl. apply IH; [done|done|]. intros y Hy. apply Hf. by right.
    + intros Heq. apply Hz. rewrite Heq. by apply list_elem_of_fmap_2.
Qed.

Lemma sum_list_with_zero {A} (f : A → nat) (l : list A) :
  (∀ y, y ∈ l → f y = 0) → sum_list_with f l = 0.
Proof.
  induction l as [|z l IH]; [done|]. intros Hf. simpl.
  rewrite (Hf z) by left. rewrite IH; [done|]. intros y Hy. apply Hf. by right.
Qed.

Lemma sum_list_with_filter_single {A} (key : A → nat) (f : A → nat)
    (P : A → Prop) `{∀ x, Decision (P x)} (l : list A) x :
  NoDup (key <$> l) → x ∈ l → P x →
  (∀ y, y ∈ l → key y ≠ key x → f y = 0) →
  sum_list_with f (filter P l) = f x.
Proof.
  induction l as [|z l IH]; [by intros _ ?%elem_of_nil|].
  rewrite fmap_cons, NoDup_cons. intros [Hz Hnd] Hx HP Hf.
  assert (∀ y, y ∈ l → key y = key z → False) as Hfresh.
  { intros y Hy Heq. apply Hz. rewrite <- Heq. by apply list_elem_of_fmap_2. }
  rewrite filter_cons. apply elem_of_cons in Hx as [->|Hx].
  - rewrite decide_True by done. simpl.
    rewrite sum_list_with_zero; [lia|]. intros y [_ Hy]%list_elem_of_filter.
    apply Hf; [by right|]. intros Heq. by eapply Hfresh.
  - assert (f z = 0) as Hfz.
    { apply Hf; [left|]. intros Heq. eapply Hfresh; [exact Hx|done]. }
    assert (sum_list_with f (filter P l) = f x) as Hrec.
    { apply IH; [done|done|done|]. intros y Hy. apply Hf. by right. }
    destruct (decide (P z)); simpl; lia.
Qed.

Lemma subject_weight c (sub : Subject) (cl : ClassGroup) s :
  sum_list_with (item_weight c s) (l_items_of cl sub)
  + sum_list_with (item_weight c s) (t_items_of cl sub)
  = if decide (class_id cl = c ∧ subject_id sub = s)
    then (if is_lab sub then lectures_per_week sub / 2 * 2 else lectures_per_week sub)
    else 0.
Proof.
  unfold l_items_of, t_items_of.
  destruct (is_lab sub); cbn [sum_list_with];
    rewrite sum_list_with_replicate; unfold item_weight;
    cbn [item_class_id item_subject_id item_type width];
    destruct (decide (class_id cl = c ∧ subject_id sub = s)); lia.
Qed.

Lemma expand_class_weight subs cl c s :
  sum_list_with (item_weight c s) (expand_class subs cl)
  = sum_list_with (λ sub, if decide (class_id cl = c ∧ subject_id sub = s)
      then (if is_lab sub then lectures_per_week sub / 2 * 2 else lectures_per_week sub)
      else 0) (c_subs subs cl).
Proof.
  unfold expand_class. rewrite sum_list_with_app, !sum_list_with_bind.
  induction (c_subs subs cl) as [|sub l IH]; [done|].
  cbn [sum_list_with]. rewrite <- (subject_weight c sub cl s). lia.
Qed.

Lemma NoDup_filter_fmap {A} (key : A → nat) (P : A → Prop) `{∀ x, Decision (P x)} (l : list A) :
  NoDup (key <$> l) → NoDup (key <$> filter P l).
Proof.
  induction l as [|z l IH]; [done|].
  rewrite fmap_cons, NoDup_cons. intros [Hz Hnd]. rewrite filter_cons.
  destruct (decide (P z)); [|by apply IH].
  rewrite fmap_cons, NoDup_cons. split; [|by apply IH].
  intros (y & Heq & Hy)%list_elem_of_fmap. apply list_elem_of_filter in Hy as [_ Hy].
  apply Hz. rewrite Heq. by apply list_elem_of_fmap_2.
Qed.

Lemma demand_weight cls subs (c : ClassGroup) (s : Subject) :
  NoDup (class_id <$> cls) → NoDup (subject_id <$> subs) →
  c ∈ cls → s ∈ subs → subject_class_id s = class_id c →
  sum_list_with (item_weight (class_id c) (subject_id s)) (expand_demand cls subs)
  = if is_lab s then lectures_per_week s / 2 * 2 else lectures_per_week s.
Proof.
  intros Hndc Hnds Hc Hs Hsc. unfold expand_demand. rewrite sum_list_with_bind.
  rewrite (sum_list_with_single class_id _ cls c Hndc Hc).
  - rewrite expand_class_weight. unfold c_subs.
    rewrite (sum_list_with_filter_single subject_id _ _ subs s Hnds Hs Hsc).
    + by rewrite decide_True.
    + intros y _ Hne. rewrite decide_False; [done|]. intros [_ ?]. done.
  - intros cl _ Hne. rewrite expand_class_weight. apply sum_list_with_zero.
    intros y _. rewrite decide_False; [done|]. intros [? _]. done.
Qed.

Section coverage.
Context `{Random G}.

(** Coverage of the candidates that are persisted: on an instance whose
    lab subjects have an even number of weekly lectures, a candidate
    persisted from a successful search holds, for every class and every
    subject of the class, exactly [lectures_per_week] entries. *)
Lemma generated_coverage (db : Db) (creator index : nat) (g : G)
    db' v g' st (c : ClassGroup) (s : Subject) :
  NoDup (class_id <$> classes db) →
  NoDup (subject_id <$> subjects db) →
  (∀ sub, sub ∈ subjects db → is_lab sub = true → Nat.Even (lectures_per_week sub)) →
  search db g = (true, st, g') →
  generate_candidate db creator index g = (Ok (db', v), g') →
  c ∈ classes db → s ∈ subjects db → subject_class_id s = class_id c →
  count_entries (class_id c) (subject_id s) (new_entries db db') = lectures_per_week s.
Proof.
  intros Hndc Hnds Heven Hsearch Hgen Hc Hs Hsc.
  apply generate_candidate_inv in Hgen as (ok & st1 & Hsearch1 & _ & Hok).
  rewrite Hsearch in Hsearch1. simplify_eq.
  destruct Hok as (es & Hes & -> & _).
  rewrite (persist_entries_count _ _ _ _ _ _ Hes).
  apply search_placed in Hsearch as (g1 & g2 & Hpl & _ & _).
  erewrite placed_all_weight; [|..|exact Hpl].
  - rewrite empty_blocks_weight.
    + rewrite class_items_perm. rewrite demand_weight by done.
      destruct (is_lab s) eqn:Hlab; [|done].
      destruct (Heven s Hs Hlab) as [k ->].
      rewrite (Nat.mul_comm 2 k), Nat.div_mul by done. lia.
    + apply Forall_forall. intros eb Heb. by apply build_grids_elem in Heb as [? _].
  - apply Forall_forall. intros eb Heb. by apply build_grids_elem in Heb as [_ ?].
Qed.
End coverage.

(** ** Theory items come first *)

(** C5, as amended: in the final item list every theory item precedes
    every lab item: no lab item stands before a theory item. *)
Theorem theory_items_precede_lab_items `{Random G} (db : Db) (g : G)
    (i j : nat) (x y : Item) :
  i < j →
  (class_items db g).1 !! i = Some x →
  (class_items db g).1 !! j = Some y →
  ¬ (item_type x = L ∧ item_type y = T).
Proof.
  rewrite class_items_sorted, sort_type_desc_partition.
  set (s := (shuffle _ g).1). intros Hij Hi Hj [Hx Hy].
  set (lt := filter (λ x, item_type x = T) s) in *.
  set (ll := filter (λ x, item_type x = L) s) in *.
  destruct (decide (i < length lt)) as [Hlt|Hge].
  - rewrite lookup_app_l in Hi by done.
    apply list_elem_of_lookup_2, list_elem_of_filter in Hi as [Hi _]. congruence.
  - rewrite lookup_app_r in Hj by lia.
    apply list_elem_of_lookup_2, list_elem_of_filter in Hj as [Hj _]. congruence.
Qed.

Lemma theory_items_precede_lab_items_witness :
  0 < 15
  ∧ (class_items week_db 0).1 !! 0
    = Some {| item_class_id := 1; item_subject_id := 1; item_type := T |}
  ∧ (class_items week_db 0).1 !! 15
    = Some {| item_class_id := 1; item_subject_id := 4; item_type := L |}
  ∧ ¬ (T = L ∧ L = T).
Proof.
  assert (0 < 15) as H1 by lia.
  assert ((class_items week_db 0).1 !! 0
    = Some {| item_class_id := 1; item_subject_id := 1; item_type := T |}) as H2
    by (vm_compute; reflexivity).
  assert ((class_items week_db 0).1 !! 15
    = Some {| item_class_id := 1; item_subject_id := 4; item_type := L |}) as H3
    by (vm_compute; reflexivity).
  split; [exact H1|]. split; [exact H2|]. split; [exact H3|].
  exact (theory_items_precede_lab_items week_db 0 0 15 _ _ H1 H2 H3).
Defined.

(** C5 fails as stated: in the week [week_db] the first item of the final
    list is a theory item and the sixteenth a lab item. *)
Lemma lab_items_not_first :
  ∃ i j x y, i < j
    ∧ (class_items week_db 0).1 !! i = Some x
    ∧ (class_items week_db 0).1 !! j = Some y
    ∧ item_type x = T ∧ item_type y = L.
Proof.
  exists 0, 15, {| item_class_id := 1; item_subject_id := 1; item_type := T |},
    {| item_class_id := 1; item_subject_id := 4; item_type := L |}.
  split; [lia|]. by vm_compute.
Qed.

(** ** The kinds of the detector *)

Lemma conflict_if_kind b ty msg c :
  ty ∈ detector_kinds → c ∈ conflict_if b ty msg → c_type c ∈ detector_kinds.
Proof.
  intros Hty. unfold conflict_if. destruct b; [|by intros ?%elem_of_nil].
  by intros ->%list_elem_of_singleton.
Qed.

Lemma detect_step_kinds db d e d' :
  Forall (λ c, c_type c ∈ detector_kinds) (d_conflicts d) →
  detect_step db d e = Ok d' →
  Forall (λ c, c_type c ∈ detector_kinds) (d_conflicts d').
Proof.
  intros Hd. unfold detect_step.
  destruct (by_id slot_id _ !! _) as [slot|]; [|done].
  destruct (by_id room_id _ !! _) as [room|]; [|done].
  destruct (by_id class_id _ !! _) as [cls|]; [|done].
  destruct (by_id teacher_id _ !! _) as [teacher|]; [|done].
  intros [= <-]. simpl. rewrite !Forall_app. repeat split; try done;
    apply Forall_forall; intros c Hc; eapply conflict_if_kind; try exact Hc;
    unfold detector_kinds; set_solver.
Qed.

Lemma detect_loop_kinds db es d d' :
  Forall (λ c, c_type c ∈ detector_kinds) (d_conflicts d) →
  detect_loop db d es = Ok d' →
  Forall (λ c, c_type c ∈ detector_kinds) (d_conflicts d').
Proof.
  revert d. induction es as [|e es IH]; intros d Hd; simpl.
  - by intros [= <-].
  - destruct (detect_step db d e) as [d1|] eqn:Hstep; [|done].
    intros Hloop. eapply IH; [|exact Hloop]. by eapply detect_step_kinds.
Qed.

(** X29: every record of a report the detector returns is of
    one of the six kinds [teacher_clash], [room_clash], [class_clash],
    [subject_repeat], [room_capacity_mismatch] and [teacher_overload]. *)
Theorem detector_reports_six_kinds (db : Db) (es : list TimetableEntry)
    (cs : list Conflict) (c : Conflict) :
  detect_entries db es = Ok cs →
  c ∈ cs →
  c_type c ∈ detector_kinds.
Proof.
  unfold detect_entries. destruct (detect_loop db detect_init es) as [d|] eqn:Hloop; [|done].
  intros [= <-] Hc. apply detect_loop_kinds in Hloop; [|by apply Forall_nil].
  rewrite Forall_forall in Hloop. by apply Hloop.
Qed.

Lemma detector_reports_six_kinds_witness :
  detect_entries absent_db [entry_at 1 1; entry_at 1 1]
  = Ok [ {| c_type := "teacher_clash"; c_message := "Teacher clash at slot 1" |};
         {| c_type := "room_clash"; c_message := "Room clash at slot 1" |};
         {| c_type := "class_clash"; c_message := "Class clash at slot 1" |};
         {| c_type := "subject_repeat"; c_message := "Subject repetition for class 1" |} ]
  ∧ "teacher_clash" ∈ detector_kinds.
Proof.
  assert (detect_entries absent_db [entry_at 1 1; entry_at 1 1]
    = Ok [ {| c_type := "teacher_clash"; c_message := "Teacher clash at slot 1" |};
           {| c_type := "room_clash"; c_message := "Room clash at slot 1" |};
           {| c_type := "class_clash"; c_message := "Class clash at slot 1" |};
           {| c_type := "subject_repeat"; c_message := "Subject repetition for class 1" |} ])
    as Hrun by (vm_compute; reflexivity).
  split; [exact Hrun|].
  apply (detector_reports_six_kinds _ _ _
    {| c_type := "teacher_clash"; c_message := "Teacher clash at slot 1" |} Hrun).
  left.
Defined.

(** C7: an entry of the unavailable teacher, and an entry on a break
    slot, draw no record from the detector, where [_validate_entry]
    refuses either slot for an entry of the table. *)
Theorem unavailable_and_break_unreported :
  available absent_db 1 1 = false
  ∧ detect_entries absent_db [entry_at 1 1] = Ok []
  ∧ (is_break <$> by_id slot_id (time_slots absent_db) !! 4) = Some true
  ∧ detect_entries absent_db [entry_at 1 4] = Ok []
  ∧ _validate_entry absent_db week_rows 1 1 1 1 1 1
    = Returned (Some "Teacher is unavailable in the target slot.")
  ∧ _validate_entry absent_db week_rows 1 1 1 1 1 4
    = Returned (Some "Cannot assign timetable entry to a break slot.").
Proof. by vm_compute. Qed.

(** ** The setup check of the handler *)

Lemma class_issues_no_subjects db cls :
  c_subs (subjects db) cls = [] → class_issues db cls = [no_subjects_issue cls].
Proof. unfold class_issues. by intros ->. Qed.

Lemma class_issues_no_teacher db cls sub :
  sub ∈ c_subs (subjects db) cls →
  subject_id sub ∉ subject_ids_with_teachers db →
  no_teacher_issue cls sub ∈ class_issues db cls.
Proof.
  intros Hsub Hno. unfold class_issues.
  destruct (c_subs (subjects db) cls) as [|s0 l] eqn:E; [by apply elem_of_nil in Hsub|].
  apply list_elem_of_fmap_2. by apply list_elem_of_filter.
Qed.

(** C8, as amended: when a class has no subjects or a subject of a class
    has no teacher mapping, the handler answers with the list of issues,
    which names every such class and every such subject, and leaves the
    database (schedules and conflict log included) and the random
    generator as they were. *)
Theorem generate_blocked `{Random G} (db : Db) (creator num_versions max_retries : nat) (g : G) :
  (∃ cls, cls ∈ classes db
     ∧ (c_subs (subjects db) cls = []
        ∨ ∃ sub, sub ∈ c_subs (subjects db) cls
                 ∧ subject_id sub ∉ subject_ids_with_teachers db)) →
  ∃ issues,
    generate db creator num_versions max_retries g = (Blocked issues, db, g)
    ∧ (∀ cls, cls ∈ classes db → c_subs (subjects db) cls = [] →
         no_subjects_issue cls ∈ issues)
    ∧ (∀ cls sub, cls ∈ classes db → sub ∈ c_subs (subjects db) cls →
         subject_id sub ∉ subject_ids_with_teachers db →
         no_teacher_issue cls sub ∈ issues).
Proof.
  intros (cls & Hcls & Hbad). exists (setup_issues db).
  assert (∃ x, x ∈ setup_issues db) as [x Hx].
  { destruct Hbad as [Hnone|(sub & Hsub & Hno)].
    - exists (no_subjects_issue cls). unfold setup_issues.
      apply list_elem_of_bind. exists cls. split; [|done].
      rewrite class_issues_no_subjects by done. left.
    - exists (no_teacher_issue cls sub). unfold setup_issues.
      apply list_elem_of_bind. exists cls. split; [|done].
      by apply class_issues_no_teacher. }
  split; [|split].
  - unfold generate. destruct (setup_issues db); [by apply elem_of_nil in Hx|done].
  - intros c Hc Hnone. unfold setup_issues. apply list_elem_of_bind.
    exists c. split; [|done]. rewrite class_issues_no_subjects by done. left.
  - intros c sub Hc Hsub Hno. unfold setup_issues. apply list_elem_of_bind.
    exists c. split; [|done]. by apply class_issues_no_teacher.
Qed.

(** ** The active version *)

Lemma next_version_id_fresh db : next_version_id db ∉ version_id <$> versions db.
Proof.
  unfold next_version_id. intros Hin. apply max_list_elem_of_le in Hin. lia.
Qed.

Lemma set_active_absent v_id vs :
  v_id ∉ version_id <$> vs →
  filter (λ v, is_active v = true) (set_active v_id (deactivate_all vs)) = [].
Proof.
  induction vs as [|z l IH]; [done|].
  rewrite fmap_cons, not_elem_of_cons. intros [Hne Hl].
  change (set_active v_id (deactivate_all (z :: l)))
    with ((if decide (version_id z = v_id) then with_active true (with_active false z)
           else with_active false z) :: set_active v_id (deactivate_all l)).
  rewrite decide_False by done. rewrite filter_cons.
  destruct (decide (is_active (with_active false z) = true)) as [Hact|_]; [done|]. by apply IH.
Qed.

Lemma set_active_one v_id vs :
  NoDup (version_id <$> vs) → v_id ∈ version_id <$> vs →
  length (filter (λ v, is_active v = true) (set_active v_id (deactivate_all vs))) = 1.
Proof.
  induction vs as [|z l IH]; [by intros _ ?%elem_of_nil|].
  rewrite fmap_cons, NoDup_cons. intros [Hz Hnd] Hin.
  change (set_active v_id (deactivate_all (z :: l)))
    with ((if decide (version_id z = v_id) then with_active true (with_active false z)
           else with_active false z) :: set_active v_id (deactivate_all l)).
  rewrite filter_cons. destruct (decide (version_id z = v_id)) as [Heq|Hne].
  - destruct (decide (is_active (with_active true (with_active false z)) = true)) as [_|Hact];
      [|done].
    simpl. rewrite set_active_absent by (by rewrite <- Heq). done.
  - destruct (decide (is_active (with_active false z) = true)) as [Hact|_]; [done|].
    apply IH; [done|]. apply elem_of_cons in Hin as [?|?]; [congruence|done].
Qed.

Lemma best_version_elem v0 vs : best_version v0 vs ∈ v0 :: vs.
Proof.
  unfold best_version. revert v0. induction vs as [|v vs IH]; intros v0; simpl; [left|].
  destruct (score v0 <? score v)%Z.
  - right. apply IH.
  - specialize (IH v0). apply elem_of_cons in IH as [->|?]; [left|right; by right].
Qed.

Lemma select_best_one db generated :
  NoDup (version_id <$> versions db) →
  generated ≠ [] →
  (∀ v, v ∈ generated → version_id v ∈ version_id <$> versions db) →
  length (active_versions (select_best db generated).2) = 1.
Proof.
  intros Hnd Hne Hin. destruct generated as [|v0 vs]; [done|].
  unfold select_best, active_versions. simpl.
  apply set_active_one; [done|]. apply Hin, best_version_elem.
Qed.

Section loop.
Context `{Random G}.

Lemma generate_candidate_versions (db : Db) (creator index : nat) (g : G) db' v g' :
  generate_candidate db creator index g = (Ok (db', v), g') →
  versions db' = versions db ++ [v] ∧ version_id v = next_version_id db.
Proof.
  unfold generate_candidate. destruct (search db g) as [[ok st] g1]. destruct ok.
  - destruct (persist_entries _ _ _); [|done]. by intros [= <- <- <-].
  - by intros [= <- <- <-].
Qed.

Lemma generate_loop_versions (n : nat) : ∀ (db : Db) (creator index : nat) (g : G) vs db' g',
  generate_loop db creator index n g = (Ok vs, db', g') →
  NoDup (version_id <$> versions db) →
  NoDup (version_id <$> versions db')
  ∧ (∀ v, v ∈ vs → version_id v ∈ version_id <$> versions db')
  ∧ (∀ x, x ∈ version_id <$> versions db → x ∈ version_id <$> versions db')
  ∧ length vs = n.
Proof.
  induction n as [|n IH]; intros db creator index g vs db' g'; simpl.
  - intros [= <- <- <-] Hnd. repeat split; try done. by intros v ?%elem_of_nil.
  - destruct (generate_candidate db creator index g) as [[[db1 v]|e] g1] eqn:Hc; [|done].
    destruct (generate_loop db1 creator (S index) n g1) as [[[vs1|e] db2] g2] eqn:Hl; [|done].
    intros [= <- <- <-] Hnd.
    apply generate_candidate_versions in Hc as [Hvs Hid].
    assert (NoDup (version_id <$> versions db1)) as Hnd1.
    { rewrite Hvs, fmap_app. apply NoDup_app. split; [done|]. split.
      - intros x Hx [->|[]%elem_of_nil]%elem_of_cons.
        rewrite Hid in Hx. by apply next_version_id_fresh in Hx.
      - apply NoDup_singleton. }
    destruct (IH _ _ _ _ _ _ _ Hl Hnd1) as (Hnd2 & Hin & Hmono & Hlen).
    repeat split; try done.
    + intros v' [->|Hv']%elem_of_cons; [|by apply Hin].
      apply Hmono. rewrite Hvs, fmap_app. apply elem_of_app. right. left.
    + intros x Hx. apply Hmono. rewrite Hvs, fmap_app. apply elem_of_app. by left.
    + simpl. by rewrite Hlen.
Qed.
End loop.

(** C9: on a table of versions keyed by id, after [activate] has answered
    for an existing version, and after the generator has run its selector
    on at least one candidate, exactly one version is active; [activate]
    answers whenever the version exists. *)
Theorem exactly_one_active `{Random G} (db : Db) :
  NoDup (version_id <$> versions db) →
  (∀ v_id, v_id ∈ version_id <$> versions db → is_Some (activate db v_id))
  ∧ (∀ v_id db', activate db v_id = Some db' → length (active_versions db') = 1)
  ∧ (∀ generated, generated ≠ [] →
       (∀ v, v ∈ generated → version_id v ∈ version_id <$> versions db) →
       length (active_versions (select_best db generated).2) = 1)
  ∧ (∀ creator num_versions max_retries (g : G) vs db' g',
       num_versions ≠ 0 →
       generate_timetable db creator num_versions max_retries g = (Ok vs, db', g') →
       length (active_versions db') = 1).
Proof.
  intros Hnd. repeat split.
  - intros v_id Hin. unfold activate. rewrite bool_decide_eq_true_2 by done. by eexists.
  - intros v_id db'. unfold activate. case_bool_decide as Hin; [|done].
    intros [= <-]. unfold active_versions. simpl. by apply set_active_one.
  - intros generated Hne Hin. by apply select_best_one.
  - intros creator n mr g vs db' g' Hn. unfold generate_timetable.
    destruct (generate_loop db creator 0 n g) as [[[generated|e] db1] g1] eqn:Hl; [|done].
    apply generate_loop_versions in Hl as (Hnd1 & Hin & _ & Hlen); [|done].
    destruct (select_best db1 generated) as [vs1 db2] eqn:Hs.
    intros [= <- <- <-].
    change db2 with (vs1, db2).2. rewrite <- Hs.
    apply select_best_one; [done| |done].
    intros ->. simpl in Hlen. lia.
Qed.

(** ** What the generator reads *)

Section determinism.
Context `{Random G}.










End determinism.


(** The state of the random generator does matter: two runs on the week
    [week_db] with the same arguments, one from each of two states,
    leave tables of entries that are not equal up to order. *)
Lemma entries_differ_between_runs :
  ¬ (timetable (stored (generate_timetable week_db 1 1 80 0))
     ≡ₚ timetable (stored (generate_timetable week_db 1 1 80 1))).
Proof.
  intros Hp.
  assert (bool_decide ({| e_version_id := 1; e_class_id := 1; e_subject_id := 5;
                          e_teacher_id := 1; e_room_id := 2; e_time_slot_id := 14;
                          is_locked := false |}
                       ∈ timetable (stored (generate_timetable week_db 1 1 80 0))) = true) as H0
    by (vm_compute; reflexivity).
  assert (bool_decide ({| e_version_id := 1; e_class_id := 1; e_subject_id := 5;
                          e_teacher_id := 1; e_room_id := 2; e_time_slot_id := 14;
                          is_locked := false |}
                       ∈ timetable (stored (generate_timetable week_db 1 1 80 1))) = false) as H1
    by (vm_compute; reflexivity).
  apply bool_decide_eq_true_1 in H0. apply bool_decide_eq_false_1 in H1.
  apply H1. by rewrite <- Hp.
Qed.

(** ** Evaluations on the concrete instances *)

(** The persistence loop raises as soon as one block with a slot was left
    at [None], or one slot of a block has no id. *)
Lemma persist_entries_raises sm v_id ebs eb :
  eb ∈ ebs → b_item (eb_block eb) = None → b_slots (eb_block eb) ≠ [] →
  ∃ e, persist_entries sm v_id ebs = Raise e.
Proof.
  intros Hin Hnone Hsl. induction ebs as [|eb0 ebs IH]; [by apply elem_of_nil in Hin|].
  simpl. destruct (block_entries sm v_id eb0 _) as [es|e] eqn:Hes; [|by eexists].
  apply elem_of_cons in Hin as [<-|Hin].
  - apply block_entries_spec in Hes as (_ & Hsome & _).
    destruct (Hsome Hsl) as [p Hp]. congruence.
  - destruct (IH Hin) as [e ->]. by eexists.
Qed.

(** C1: the smallest feasible scenario is a valid instance (it has no lab
    and its subject has a teacher) on which the search succeeds; the
    persistence loop raises and the table holds no entry of the class for
    the subject, whose [lectures_per_week] is 3. *)
Theorem smallest_scenario_not_covered :
  (∀ s, s ∈ subjects smallest_db → is_lab s = false
        ∧ is_Some (t_map smallest_db !! subject_id s))
  ∧ (search smallest_db 0).1.1 = true
  ∧ (generate_candidate smallest_db 1 0 0).1 = Raise TypeError
  ∧ count_entries 1 1 (timetable (stored (generate_timetable smallest_db 1 3 80 0))) = 0
  ∧ lectures_per_week <$> subjects smallest_db = [3].
Proof.
  split; [|by vm_compute].
  intros s [->|[]%elem_of_nil]%elem_of_cons. split; [done|]. exists 1. by vm_compute.
Qed.

(** C10: on the smallest feasible scenario the search succeeds with
    blocks of the grid left at [None]; the persistence loop then reads
    [item["subject_id"]] on [None], the call raises [TypeError] and
    nothing is committed. *)
Theorem smallest_scenario_raises :
  (search smallest_db 0).1.1 = true
  ∧ (∃ eb, eb ∈ empty_blocks (search smallest_db 0).1.2 ∧ b_item (eb_block eb) = None)
  ∧ returned (generate_timetable smallest_db 1 3 80 0) = Raise TypeError
  ∧ stored (generate_timetable smallest_db 1 3 80 0) = smallest_db.
Proof.
  split; [by vm_compute|]. split; [|by vm_compute].
  exists {| eb_class_id := 1; eb_day := "Tuesday"; eb_block := empty_block [1; 2] L |}.
  split; [|done]. vm_compute. left.
Qed.

(** C2: the teacher is marked unavailable on Monday's first slot, and the
    persisted candidate places the teacher on that slot. *)
Theorem unavailable_teacher_scheduled :
  available absent_db 1 1 = false
  ∧ returned (generate_timetable absent_db 1 1 80 0)
    = Ok [with_active true (new_version 1 0 1 10000)]
  ∧ {| e_version_id := 1; e_class_id := 1; e_subject_id := 4; e_teacher_id := 1;
       e_room_id := 2; e_time_slot_id := 1; is_locked := false |}
    ∈ timetable (stored (generate_timetable absent_db 1 1 80 0)).
Proof.
  split; [by vm_compute|]. split; [by vm_compute|].
  apply (bool_decide_unpack _). by vm_compute.
Qed.

(** C3: the version persisted for the week [week_db] has the stored score
    100.0, where the scorer, run on the entries of that version, gives
    18.0; on one morning-priority entry at slot order 3, without
    violation, the scorer gives 99.6. *)
Theorem stored_score_is_not_scored :
  score <$> versions (stored (generate_timetable week_db 1 1 80 0)) = [10000%Z]
  ∧ _score_schedule (stored (generate_timetable week_db 1 1 80 0)) 1 = Ok 1800%Z
  ∧ score_entries week_db [entry_at 1 3] = Ok 9960%Z.
Proof. by vm_compute. Qed.

(** C4: in the week with a classroom of 20 seats for a class of 30, the
    candidate the generator persists, and logs as a success, has an
    entry in that classroom.  The detector, run on that version, reports
    15 records of the kind [room_capacity_mismatch], and
    [_validate_entry] refuses to move an entry of the class into the
    room. *)
Theorem small_room_assigned :
  (∃ e r c, e ∈ new_entries small_room_db (candidate small_room_db 1 0 0).1
     ∧ r ∈ rooms small_room_db ∧ room_id r = e_room_id e
     ∧ c ∈ classes small_room_db ∧ class_id c = e_class_id e
     ∧ capacity r < student_strength c)
  ∧ conflict_type <$> conflicts (candidate small_room_db 1 0 0).1 = ["Success"]
  ∧ (∃ cs, detect_conflicts (candidate small_room_db 1 0 0).1 1 = Ok cs
       ∧ length (filter (λ k, k = "room_capacity_mismatch") (kinds cs)) = 15)
  ∧ capacity_mismatch small_room_db 1 1 = true.
Proof.
  split.
  { exists {| e_version_id := 1; e_class_id := 1; e_subject_id := 2; e_teacher_id := 1;
              e_room_id := 1; e_time_slot_id := 12; is_locked := false |},
      {| room_id := 1; capacity := 20; room_type := "classroom" |}, bsc_cs_1.
    split; [apply (bool_decide_unpack _); by vm_compute|].
    split; [left|]. split; [done|]. split; [left|]. split; [done|]. simpl. lia. }
  split; [by vm_compute|]. split; [|by vm_compute].
  eexists. split; [vm_compute; reflexivity|]. by vm_compute.
Qed.

(** C8 fails as stated: with odd numbers of weekly lectures on both labs
    the handler does not block; a schedule and a conflict log row are
    persisted. *)
Lemma odd_lab_not_blocked :
  (∃ s, s ∈ subjects odd_lab_db ∧ is_lab s = true ∧ Nat.Odd (lectures_per_week s))
  ∧ returned (generate odd_lab_db 1 1 80 0)
    = Created [with_active true (new_version 1 0 1 10000)]
  ∧ length (versions (stored (generate odd_lab_db 1 1 80 0))) = 1
  ∧ conflict_type <$> conflicts (stored (generate odd_lab_db 1 1 80 0)) = ["Success"].
Proof.
  split; [|by vm_compute].
  exists (sub 4 "DBMS Lab" 11 false true). split; [|split; [done|by exists 5]].
  do 3 right. left.
Qed.

(** ** The theorems at concrete inputs *)

Lemma generated_coverage_week :
  search week_db 0 = (true, (search week_db 0).1.2, (search week_db 0).2)
  ∧ count_entries 1 4 (new_entries week_db (candidate week_db 1 0 0).1) = 10.
Proof.
  assert (search week_db 0 = (true, (search week_db 0).1.2, (search week_db 0).2)) as Hs
    by (vm_compute; reflexivity).
  split; [exact Hs|].
  apply (generated_coverage week_db 1 0 0 (candidate week_db 1 0 0).1
           (candidate week_db 1 0 0).2 (search week_db 0).2 (search week_db 0).1.2
           bsc_cs_1 (sub 4 "DBMS Lab" 10 false true)).
  - apply (bool_decide_unpack _). vm_compute. reflexivity.
  - apply (bool_decide_unpack _). vm_compute. reflexivity.
  - intros s Hin Hlab. clear Hs.
    change (subjects week_db) with
      [sub 1 "Mathematics" 5 true false; sub 2 "Physics" 5 false false;
       sub 3 "English" 5 false false; sub 4 "DBMS Lab" 10 false true;
       sub 5 "OS Lab" 6 false true] in Hin.
    repeat (apply elem_of_cons in Hin as [->|Hin]); try discriminate Hlab;
      [by exists 5|by exists 3|by apply elem_of_nil in Hin].
  - exact Hs.
  - vm_compute. reflexivity.
  - left.
  - do 3 right. left.
  - reflexivity.
Defined.

Lemma generated_rooms_match_type_witness :
  entry_at 2 12 ∈ new_entries week_db (candidate week_db 1 0 0).1
  ∧ room_type {| room_id := 1; capacity := 40; room_type := "classroom" |}
    = room_type_of (is_lab (sub 2 "Physics" 5 false false)).
Proof.
  assert (entry_at 2 12 ∈ new_entries week_db (candidate week_db 1 0 0).1) as He
    by (apply (bool_decide_unpack _); vm_compute; reflexivity).
  split; [exact He|].
  apply (generated_rooms_match_type week_db 1 0 0 (candidate week_db 1 0 0).1
           (candidate week_db 1 0 0).2 (search week_db 0).2 (entry_at 2 12)
           (sub 2 "Physics" 5 false false)
           {| room_id := 1; capacity := 40; room_type := "classroom" |}).
  - apply (bool_decide_unpack _). vm_compute. reflexivity.
  - apply (bool_decide_unpack _). vm_compute. reflexivity.
  - vm_compute. reflexivity.
  - exact He.
  - right. left.
  - reflexivity.
  - left.
  - reflexivity.
Defined.

Lemma generate_blocked_witness :
  c_subs (subjects empty_class_db) bsc_cs_1 = []
  ∧ ∃ issues, generate empty_class_db 1 3 80 0 = (Blocked issues, empty_class_db, 0)
              ∧ no_subjects_issue bsc_cs_1 ∈ issues.
Proof.
  assert (c_subs (subjects empty_class_db) bsc_cs_1 = []) as Hnone by reflexivity.
  assert (bsc_cs_1 ∈ classes empty_class_db) as Hin by left.
  split; [exact Hnone|].
  destruct (generate_blocked empty_class_db 1 3 80 0
              (ex_intro _ bsc_cs_1 (conj Hin (or_introl Hnone))))
    as (issues & Hgen & Hcls & _).
  exists issues. split; [exact Hgen|]. exact (Hcls bsc_cs_1 Hin Hnone).
Defined.

Lemma exactly_one_active_witness :
  NoDup (version_id <$> versions week_db)
  ∧ length (active_versions (stored (generate_timetable week_db 1 1 80 0))) = 1.
Proof.
  assert (NoDup (version_id <$> versions week_db)) as Hnd by apply NoDup_nil_2.
  split; [exact Hnd|].
  destruct (exactly_one_active (G := nat) week_db Hnd) as (_ & _ & _ & Hgen).
  apply (Hgen 1 1 80 0 [with_active true (new_version 1 0 1 10000)]
           (stored (generate_timetable week_db 1 1 80 0))
           (generate_timetable week_db 1 1 80 0).2).
  - discriminate.
  - vm_compute. reflexivity.
Defined.

(** * Further properties of the code *)

(** ** The search with its checks *)

Lemma slot_conflict_false sm busy who day sl :
  slot_conflict sm busy who day sl = false →
  ∀ s_idx, s_idx ∈ sl →
    ∃ ts, sm !! (day, s_idx) = Some ts ∧ ts ≠ 0 ∧ (who, ts) ∉ busy.
Proof.
  unfold slot_conflict. intros Hex s_idx Hin.
  induction sl as [|x sl IH]; [by apply elem_of_nil in Hin|].
  simpl in Hex. apply orb_false_iff in Hex as [Hx Hex].
  apply elem_of_cons in Hin as [->|Hin]; [|by apply IH].
  destruct (sm !! (day, x)) as [ts|]; [|done]. exists ts. split; [done|].
  apply orb_false_iff in Hx as [H1 H2].
  apply bool_decide_eq_false in H1, H2. done.
Qed.

Lemma slot_keys_fresh sm busy who day sl :
  slot_conflict sm busy who day sl = false →
  ∀ k, k ∈ slot_keys sm who day sl → k ∉ busy.
Proof.
  intros Hc k Hk. unfold slot_keys in Hk.
  apply list_elem_of_fmap in Hk as (s_idx & -> & Hin).
  destruct (slot_conflict_false _ _ _ _ _ Hc s_idx Hin) as (ts & -> & _ & Hts). done.
Qed.

Lemma undo_assign st i eb p a_t a_r :
  empty_blocks st !! i = Some eb →
  b_item (eb_block eb) = None →
  (∀ k, k ∈ a_t → k ∉ teacher_busy st) →
  (∀ k, k ∈ a_r → k ∉ room_busy st) →
  undo (assign st i eb p a_t a_r) i eb a_t a_r = st.
Proof.
  intros Hi Hn Ht Hr. destruct st as [ebs tb rb]. unfold undo, assign. simpl in *.
  f_equal.
  - rewrite list_insert_insert_eq, set_item_None by done. by apply list_insert_id.
  - apply set_eq. intros k. rewrite elem_of_difference, elem_of_union, elem_of_list_to_set.
    specialize (Ht k). tauto.
  - apply set_eq. intros k. rewrite elem_of_difference, elem_of_union, elem_of_list_to_set.
    specialize (Hr k). tauto.
Qed.

Lemma pick_room_free sm busy day sl rs r_id :
  pick_room sm busy day sl rs = Some r_id →
  ∃ r, r ∈ rs ∧ room_id r = r_id ∧ slot_conflict sm busy (room_id r) day sl = false.
Proof.
  unfold pick_room. destruct (List.find _ rs) as [r|] eqn:E; simpl; [|done].
  intros [= <-]. exists r. apply find_some in E as [Hin Hfree].
  split; [by apply list_elem_of_In|]. split; [done|]. by apply negb_true_iff.
Qed.

Section trace.
Context `{Random G} (db : Db).

Lemma try_blocks_trace rec item items teacher vbs :
  search_trace_spec db items rec →
  t_map db !! item_subject_id item = Some teacher →
  teacher ≠ 0 →
  ∀ st g ok st' g',
    Forall (λ ib, empty_blocks st !! ib.1 = Some ib.2
                  ∧ eb_class_id ib.2 = item_class_id item
                  ∧ b_type (eb_block ib.2) = item_type item
                  ∧ b_item (eb_block ib.2) = None) vbs →
    try_blocks db rec item teacher vbs st g = (ok, st', g') →
    if ok then placed_trace db (item :: items) st st' else st' = st.
Proof.
  intros Hrec Ht Ht0 st. induction vbs as [|[i eb] vbs IH]; intros g ok st' g' Hall Hrun.
  - simpl in Hrun. by simplify_eq.
  - apply Forall_cons in Hall as [(Hi & Hc & Hk & Hn) Hall]. simpl in Hi, Hc, Hk, Hn.
    simpl in Hrun.
    case_bool_decide as Hdaily; [by eapply IH|].
    destruct (slot_conflict _ (teacher_busy st) _ _ _) eqn:Htc; [by eapply IH|].
    destruct (shuffle _ g) as [rs g1] eqn:Hsh.
    destruct (pick_room _ _ _ _ rs) as [room|] eqn:Hpick; [|by eapply IH].
    destruct (decide (room = 0)) as [|Hr0]; [by eapply IH|].
    apply pick_room_free in Hpick as (r & Hr & <- & Hrc).
    assert (r ∈ (if decide (item_type item = T) then classrooms db else lab_rooms db)) as Hr'.
    { pose proof (shuffle_perm _
        (if decide (item_type item = T) then classrooms db else lab_rooms db) g) as Hp.
      rewrite Hsh in Hp. simpl in Hp. by rewrite <- Hp. }
    match type of Hrun with context [rec ?s ?gg] =>
      destruct (rec s gg) as [[ok2 st2] g2] eqn:Hr2 end.
    apply Hrec in Hr2. destruct ok2.
    + simplify_eq. by eapply trace_cons.
    + subst st2. rewrite undo_assign in Hrun; [by eapply IH|done|done|..].
      * by apply slot_keys_fresh.
      * by apply slot_keys_fresh.
Qed.

Lemma place_item_trace items : search_trace_spec db items (place_item db items).
Proof.
  induction items as [|item items IH]; intros st g ok st' g' Hrun; simpl in Hrun.
  - simplify_eq. constructor.
  - destruct (t_map db !! item_subject_id item) as [teacher|] eqn:Ht; [|by simplify_eq].
    destruct (decide (teacher = 0)); [by simplify_eq|].
    destruct (shuffle _ g) as [vbs g1] eqn:Hsh.
    eapply try_blocks_trace; [exact IH|exact Ht|done| |exact Hrun].
    pose proof (shuffle_perm _ (valid_blocks (empty_blocks st) item) g) as Hp.
    rewrite Hsh in Hp. simpl in Hp. rewrite Hp.
    apply Forall_forall. intros [i eb] Hin. by apply valid_blocks_spec.
Qed.

(** X1: a search that fails leaves the blocks and both busy sets exactly as it
    found them: every tentative assignment has been undone. *)
Theorem failed_search_restores_state (items : list Item) (st : Search) (g : G)
    (st' : Search) (g' : G) :
  place_item db items st g = (false, st', g') → st' = st.
Proof. intros Hrun. by apply place_item_trace in Hrun. Qed.
End trace.

(** ** The slot map *)

Lemma foldl_insert_lookup {A K V} `{Countable K} (key : A → K) (val : A → V)
    (l : list A) (m0 : gmap K V) k v :
  foldl (λ m s, <[key s := val s]> m) m0 l !! k = Some v →
  m0 !! k = Some v ∨ ∃ s, s ∈ l ∧ key s = k ∧ val s = v.
Proof.
  revert m0. induction l as [|s l IH]; intros m0; simpl; [by left|].
  intros Hl. apply IH in Hl as [Hl|(s' & Hs' & ?)].
  - destruct (decide (key s = k)) as [<-|Hne].
    + rewrite lookup_insert_eq in Hl. right. exists s. split; [left|]. by simplify_eq.
    + rewrite lookup_insert_ne in Hl by done. by left.
  - right. exists s'. split; [by right|done].
Qed.

Lemma slot_map_lookup db d o ts :
  slot_map db !! (d, o) = Some ts →
  ∃ s, s ∈ time_slots db ∧ is_break s = false
       ∧ day_of_week s = d ∧ slot_order s = o ∧ slot_id s = ts.
Proof.
  unfold slot_map. intros Hl.
  apply (foldl_insert_lookup (λ s, (day_of_week s, slot_order s)) slot_id) in Hl
    as [Hl|(s & Hs & Hk & Hv)]; [by rewrite lookup_empty in Hl|].
  unfold lecture_slots in Hs. apply list_elem_of_filter in Hs as [Hb Hs].
  exists s. by simplify_eq.
Qed.

Lemma slot_map_inj db k1 k2 ts :
  NoDup (slot_id <$> time_slots db) →
  slot_map db !! k1 = Some ts → slot_map db !! k2 = Some ts → k1 = k2.
Proof.
  intros Hnd H1 H2. destruct k1 as [d1 o1], k2 as [d2 o2].
  apply slot_map_lookup in H1 as (s1 & Hs1 & _ & <- & <- & Hid1).
  apply slot_map_lookup in H2 as (s2 & Hs2 & _ & <- & <- & Hid2).
  assert (s1 = s2) as -> by (eapply (NoDup_fmap_eq slot_id); eauto; congruence). done.
Qed.

(** ** The entries of a block *)

Lemma block_entries_eq sm v eb sl es :
  block_entries sm v eb sl = Ok es →
  (∀ s_idx, s_idx ∈ sl → is_Some (sm !! (eb_day eb, s_idx)))
  ∧ match b_item (eb_block eb) with
    | Some p =>
        es = (λ s_idx, entry_of_block v eb p (default 0 (sm !! (eb_day eb, s_idx)))) <$> sl
    | None => sl = [] ∧ es = []
    end.
Proof.
  revert es. induction sl as [|s_idx sl IH]; intros es; simpl.
  - intros [= <-]. split; [by intros ? ?%elem_of_nil|]. by destruct (b_item _).
  - destruct (sm !! (eb_day eb, s_idx)) as [ts|] eqn:Hts; [|done].
    destruct (b_item (eb_block eb)) as [p|] eqn:Hp; [|done].
    destruct (block_entries sm v eb sl) as [es0|] eqn:Hes; [|done].
    intros [= <-]. destruct (IH es0 eq_refl) as [Hsome Hes0].
    subst es0. split.
    + intros x [->|Hx]%elem_of_cons; [by rewrite Hts|by apply Hsome].
    + done.
Qed.

Lemma persist_entries_keys sm v ebs es (who : Placed → nat) (proj : TimetableEntry → nat) :
  (∀ eb p ts, proj (entry_of_block v eb p ts) = who p) →
  persist_entries sm v ebs = Ok es →
  (λ e, (proj e, e_time_slot_id e)) <$> es = busy_keys sm who ebs.
Proof.
  intros Hproj. revert es. induction ebs as [|eb ebs IH]; intros es Hes; simpl in Hes.
  - by simplify_eq.
  - destruct (block_entries _ _ _ _) as [es1|] eqn:H1; [|done].
    destruct (persist_entries _ _ _) as [es2|] eqn:H2; [|done].
    simplify_eq. rewrite fmap_app, (IH es2 eq_refl).
    unfold busy_keys. rewrite bind_cons. f_equal.
    apply block_entries_eq in H1 as [_ H1]. unfold block_keys.
    destruct (b_item (eb_block eb)) as [p|]; [|by destruct H1 as [_ ->]].
    subst es1. unfold slot_keys. rewrite <- list_fmap_compose.
    apply list_fmap_ext. intros i x _. simpl. by rewrite Hproj.
Qed.

Lemma persist_entries_places sm v ebs es :
  persist_entries sm v ebs = Ok es →
  (λ e, (e_class_id e, e_time_slot_id e)) <$> es
  = (λ pl, (pl.1.1, default 0 (sm !! (pl.1.2, pl.2)))) <$> grid_places ebs
  ∧ ∀ pl, pl ∈ grid_places ebs → is_Some (sm !! (pl.1.2, pl.2)).
Proof.
  revert es. induction ebs as [|eb ebs IH]; intros es Hes; simpl in Hes.
  - simplify_eq. split; [done|]. by intros ? ?%elem_of_nil.
  - destruct (block_entries _ _ _ _) as [es1|] eqn:H1; [|done].
    destruct (persist_entries _ _ _) as [es2|] eqn:H2; [|done].
    simplify_eq. destruct (IH es2 eq_refl) as [IH1 IH2].
    apply block_entries_eq in H1 as [Hsome H1].
    unfold grid_places. rewrite bind_cons. split.
    + rewrite !fmap_app, IH1. f_equal. unfold block_places.
      destruct (b_item (eb_block eb)) as [p|].
      * subst es1. rewrite <- !list_fmap_compose. by apply list_fmap_ext.
      * destruct H1 as [-> ->]. done.
    + intros pl [Hpl|Hpl]%elem_of_app; [|by apply IH2].
      unfold block_places in Hpl. apply list_elem_of_fmap in Hpl as (s_idx & -> & Hin).
      simpl. by apply Hsome.
Qed.

(** ** Busy keys along the search *)

Lemma bind_insert_empty {A B} (f : A → list B) (l : list A) i x y :
  l !! i = Some x → f x = [] → <[i := y]> l ≫= f ≡ₚ f y ++ (l ≫= f).
Proof.
  revert i. induction l as [|z l IH]; intros [|i] Hi Hx; simpl in Hi; try done.
  - simplify_eq. change (<[0:=y]> (x :: l)) with (y :: l).
    by rewrite !bind_cons, Hx.
  - change (<[S i:=y]> (z :: l)) with (z :: <[i:=y]> l).
    rewrite !bind_cons, (IH i Hi Hx).
    rewrite !app_assoc. f_equiv. apply Permutation_app_comm.
Qed.

Lemma slot_keys_NoDup db who day sl busy :
  NoDup (slot_id <$> time_slots db) →
  NoDup sl →
  slot_conflict (slot_map db) busy who day sl = false →
  NoDup (slot_keys (slot_map db) who day sl).
Proof.
  intros Hnd Hsl Hc. unfold slot_keys. apply NoDup_fmap_2_strong; [|done].
  intros x y Hx Hy [= Heq].
  destruct (slot_conflict_false _ _ _ _ _ Hc x Hx) as (tx & Htx & _).
  destruct (slot_conflict_false _ _ _ _ _ Hc y Hy) as (ty & Hty & _).
  rewrite Htx, Hty in Heq. simpl in Heq. subst ty.
  by injection (slot_map_inj db _ _ _ Hnd Htx Hty).
Qed.

Lemma keys_inv_assign db who ebs busy i eb p day_keys :
  keys_inv (slot_map db) who ebs busy →
  ebs !! i = Some eb → b_item (eb_block eb) = None →
  day_keys = slot_keys (slot_map db) (who p) (eb_day eb) (b_slots (eb_block eb)) →
  NoDup day_keys →
  (∀ k, k ∈ day_keys → k ∉ busy) →
  keys_inv (slot_map db) who (<[i := set_item eb (Some p)]> ebs)
    (busy ∪ list_to_set day_keys).
Proof.
  intros [Hnd Hsub] Hi Hn -> Hnd' Hfresh.
  assert (busy_keys (slot_map db) who (<[i := set_item eb (Some p)]> ebs)
          ≡ₚ slot_keys (slot_map db) (who p) (eb_day eb) (b_slots (eb_block eb))
             ++ busy_keys (slot_map db) who ebs) as Hperm.
  { unfold busy_keys. rewrite (bind_insert_empty _ ebs i eb); [done|done|].
    unfold block_keys. by rewrite Hn. }
  split.
  - rewrite Hperm. apply NoDup_app. split; [done|]. split; [|done].
    intros k Hk Hold. apply (Hfresh k Hk). by apply Hsub.
  - intros k. rewrite Hperm, elem_of_app, elem_of_union, elem_of_list_to_set.
    intros [?|?]; [by right|left; by apply Hsub].
Qed.

Lemma slots_distinct_insert ebs i eb it :
  slots_distinct ebs → ebs !! i = Some eb →
  slots_distinct (<[i := set_item eb it]> ebs).
Proof.
  unfold slots_distinct. rewrite !Forall_forall. intros Hall Hi eb' Hin.
  apply list_elem_of_lookup_1 in Hin as [j Hj].
  apply list_lookup_insert_Some in Hj as [(-> & <- & _)|(_ & Hj)].
  - simpl. apply Hall. by eapply list_elem_of_lookup_2.
  - apply Hall. by eapply list_elem_of_lookup_2.
Qed.

Lemma placed_trace_keys db items st st' :
  NoDup (slot_id <$> time_slots db) →
  placed_trace db items st st' →
  slots_distinct (empty_blocks st) →
  keys_inv (slot_map db) p_teacher_id (empty_blocks st) (teacher_busy st) →
  keys_inv (slot_map db) p_room_id (empty_blocks st) (room_busy st) →
  keys_inv (slot_map db) p_teacher_id (empty_blocks st') (teacher_busy st')
  ∧ keys_inv (slot_map db) p_room_id (empty_blocks st') (room_busy st').
Proof.
  intros Hnd Htr.
  induction Htr
    as [st|item items st st' i eb teacher r Hi Hc Hk Hn Hd Ht Ht0 Htc Hr Hr0 Hrc Htr IH];
    intros Hsl HT HR; [done|].
  assert (NoDup (b_slots (eb_block eb))) as Hnds.
  { unfold slots_distinct in Hsl. rewrite Forall_forall in Hsl. apply Hsl.
    by eapply list_elem_of_lookup_2. }
  apply IH.
  - by apply slots_distinct_insert.
  - simpl. eapply (keys_inv_assign db p_teacher_id); try done.
    + by eapply slot_keys_NoDup.
    + by apply slot_keys_fresh.
  - simpl. eapply (keys_inv_assign db p_room_id); try done.
    + by eapply slot_keys_NoDup.
    + by apply slot_keys_fresh.
Qed.

(** ** The grid of a class *)

Lemma days_order_NoDup : NoDup days_order.
Proof. apply (bool_decide_unpack _). by vm_compute. Qed.

Lemma day_template_slots i :
  NoDup (day_template i ≫= b_slots)
  ∧ Forall (λ b, NoDup (b_slots b) ∧ b_item b = None
                 ∧ (b_type b = L → b_slots b = [1; 2] ∨ b_slots b = [5; 6])
                 ∧ (b_type b = T → ∃ o, b_slots b = [o])) (day_template i).
Proof.
  unfold day_template. destruct (decide (i < 3)); (split;
    [apply (bool_decide_unpack _); by vm_compute|]);
    unfold heavy_day, light_day, empty_block;
    repeat (apply Forall_cons; split); try (apply Forall_nil; exact I); simpl;
    (split; [apply (bool_decide_unpack _); by vm_compute|]);
    (split; [done|]);
    (split; [intros Hk; try discriminate Hk; (by left) || (by right)
            |intros Hk; try discriminate Hk; by eexists]).
Qed.

Lemma class_blocks_places c (tf : nat → list Block) (days : list string) :
  (∀ i, NoDup (tf i ≫= b_slots)) →
  NoDup days →
  NoDup (grid_places (mjoin (imap (λ i d,
    (λ b, {| eb_class_id := c; eb_day := d; eb_block := b |}) <$> tf i) days)))
  ∧ ∀ pl, pl ∈ grid_places (mjoin (imap (λ i d,
      (λ b, {| eb_class_id := c; eb_day := d; eb_block := b |}) <$> tf i) days)) →
      pl.1.1 = c ∧ pl.1.2 ∈ days.
Proof.
  intros Htf Hnd. revert tf Htf. induction Hnd as [|d days Hd Hnd IH]; intros tf Htf.
  - split; [apply NoDup_nil_2|]. by intros ? ?%elem_of_nil.
  - rewrite imap_cons. simpl. unfold grid_places. rewrite bind_app.
    destruct (IH (tf ∘ S) (λ i, Htf (S i))) as [IH1 IH2].
    assert (∀ pl, pl ∈ ((λ b, {| eb_class_id := c; eb_day := d; eb_block := b |}) <$> tf 0)
                         ≫= block_places → pl.1.1 = c ∧ pl.1.2 = d) as Hhead.
    { intros pl (eb & Hpl & Heb)%list_elem_of_bind.
      apply list_elem_of_fmap in Heb as (b & -> & _).
      unfold block_places in Hpl. by apply list_elem_of_fmap in Hpl as (o & -> & _). }
    split.
    + apply NoDup_app. split; [|split].
      * clear -Htf. specialize (Htf 0). induction (tf 0) as [|b l IHl]; [apply NoDup_nil_2|].
        rewrite bind_cons in Htf. apply NoDup_app in Htf as (Hb & Hdisj & Hl).
        rewrite fmap_cons, bind_cons. apply NoDup_app. split; [|split].
        -- unfold block_places. simpl. apply NoDup_fmap_2_strong; [|done].
           by intros x y _ _ [= ->].
        -- intros pl Hpl (eb & Hpl' & Heb)%list_elem_of_bind.
           apply list_elem_of_fmap in Heb as (b' & -> & Hb').
           unfold block_places in Hpl, Hpl'. simpl in Hpl, Hpl'.
           apply list_elem_of_fmap in Hpl as (o & -> & Ho).
           apply list_elem_of_fmap in Hpl' as (o' & [= <-] & Ho').
           apply (Hdisj o Ho). apply list_elem_of_bind. by exists b'.
        -- by apply IHl.
      * intros pl Hpl Hpl'. apply Hhead in Hpl as [_ Hday].
        apply IH2 in Hpl' as [_ Hin]. apply Hd. by rewrite <- Hday.
      * exact IH1.
    + intros pl [Hpl|Hpl]%elem_of_app.
      * apply Hhead in Hpl as [-> ->]. split; [done|left].
      * apply IH2 in Hpl as [-> Hin]. split; [done|by right].
Qed.

Lemma class_blocks_grid c days :
  NoDup days →
  NoDup (grid_places (class_blocks c days))
  ∧ ∀ pl, pl ∈ grid_places (class_blocks c days) → pl.1.1 = c.
Proof.
  intros Hnd. destruct (class_blocks_places c day_template days) as [H1 H2];
    [intros i; apply day_template_slots|done|].
  split; [exact H1|]. intros pl Hpl. by apply H2 in Hpl as [? _].
Qed.

Lemma class_blocks_shape c days eb :
  eb ∈ class_blocks c days →
  NoDup (b_slots (eb_block eb)) ∧ b_item (eb_block eb) = None
  ∧ (b_type (eb_block eb) = L →
       b_slots (eb_block eb) = [1; 2] ∨ b_slots (eb_block eb) = [5; 6])
  ∧ (b_type (eb_block eb) = T → ∃ o, b_slots (eb_block eb) = [o]).
Proof.
  unfold class_blocks. rewrite list_elem_of_join. intros (l & Heb & Hl).
  apply list_elem_of_lookup_1 in Hl as [i Hl]. rewrite list_lookup_imap in Hl.
  destruct (days !! i) as [d|]; simpl in Hl; [|done]. simplify_eq.
  apply list_elem_of_fmap in Heb as (b & -> & Hb). simpl.
  destruct (day_template_slots i) as [_ Hall]. rewrite Forall_forall in Hall.
  by apply Hall.
Qed.

Section grid.
Context `{Random G}.

Lemma build_grids_shape cls (g : G) eb :
  eb ∈ (build_grids cls g).1 →
  NoDup (b_slots (eb_block eb)) ∧ b_item (eb_block eb) = None
  ∧ (b_type (eb_block eb) = L →
       b_slots (eb_block eb) = [1; 2] ∨ b_slots (eb_block eb) = [5; 6])
  ∧ (b_type (eb_block eb) = T → ∃ o, b_slots (eb_block eb) = [o]).
Proof.
  revert g. induction cls as [|c cls IH]; intros g; simpl.
  - by intros ?%elem_of_nil.
  - destruct (shuffle days_order g) as [days g1].
    specialize (IH g1). destruct (build_grids cls g1) as [rest g2]. simpl in *.
    rewrite elem_of_app. intros [Hin|Hin]; [|by apply IH].
    by eapply class_blocks_shape.
Qed.

Lemma build_grids_places cls (g : G) :
  NoDup (class_id <$> cls) →
  NoDup (grid_places (build_grids cls g).1)
  ∧ ∀ pl, pl ∈ grid_places (build_grids cls g).1 → pl.1.1 ∈ class_id <$> cls.
Proof.
  revert g. induction cls as [|c cls IH]; intros g Hnd; simpl.
  - split; [apply NoDup_nil_2|]. by intros ? ?%elem_of_nil.
  - rewrite fmap_cons in Hnd. apply NoDup_cons in Hnd as [Hc Hnd].
    pose proof (shuffle_perm _ days_order g) as Hperm.
    destruct (shuffle days_order g) as [days g1]. simpl in Hperm.
    specialize (IH g1 Hnd). destruct (build_grids cls g1) as [rest g2]. simpl in *.
    destruct IH as [IH1 IH2].
    destruct (class_blocks_grid (class_id c) days) as [H1 H2].
    { rewrite Hperm. apply days_order_NoDup. }
    unfold grid_places in *. rewrite bind_app. split.
    + apply NoDup_app. split; [done|]. split; [|done].
      intros pl Hpl Hpl'. apply H2 in Hpl. apply IH2 in Hpl'. apply Hc. by rewrite <- Hpl.
    + intros pl [Hpl|Hpl]%elem_of_app.
      * apply H2 in Hpl as ->. left.
      * right. by apply IH2.
Qed.

Lemma search_trace (db : Db) (g : G) st g' :
  search db g = (true, st, g') →
  ∃ g1, placed_trace db (class_items db g).1
          {| empty_blocks := (build_grids (classes db) g1).1;
             teacher_busy := ∅; room_busy := ∅ |} st.
Proof.
  unfold search. destruct (class_items db g) as [items g1].
  destruct (build_grids (classes db) g1) as [ebs g2] eqn:Hb.
  intros Hrun. exists g1. rewrite Hb. simpl. by apply place_item_trace in Hrun.
Qed.
End grid.

Lemma grid_places_insert ebs i eb it :
  ebs !! i = Some eb → grid_places (<[i := set_item eb it]> ebs) = grid_places ebs.
Proof.
  unfold grid_places. revert i. induction ebs as [|z l IH]; intros [|i] Hi; simpl in Hi; try done.
  - by simplify_eq.
  - change (<[S i:=set_item eb it]> (z :: l)) with (z :: <[i:=set_item eb it]> l).
    by rewrite !bind_cons, (IH i Hi).
Qed.

Lemma placed_trace_places db items st st' :
  placed_trace db items st st' →
  grid_places (empty_blocks st') = grid_places (empty_blocks st).
Proof.
  induction 1 as [st|item items st st' i eb teacher r Hi ? ? ? ? ? ? ? ? ? ? Htr IH]; [done|].
  rewrite IH. simpl. by apply grid_places_insert.
Qed.

(** ** No double booking *)

Lemma busy_keys_empty sm who ebs :
  Forall (λ eb, b_item (eb_block eb) = None) ebs → busy_keys sm who ebs = [].
Proof.
  unfold busy_keys. induction 1 as [|eb ebs He _ IH]; [done|].
  rewrite bind_cons, IH. unfold block_keys. by rewrite He.
Qed.

Section booking.
Context `{Random G}.

Lemma initial_grid (db : Db) (g1 : G) who :
  slots_distinct (build_grids (classes db) g1).1
  ∧ keys_inv (slot_map db) who (build_grids (classes db) g1).1 ∅.
Proof.
  split.
  - apply Forall_forall. intros eb Heb. by apply build_grids_shape in Heb as [? _].
  - unfold keys_inv. rewrite busy_keys_empty.
    + split; [apply NoDup_nil_2|]. by intros ? ?%elem_of_nil.
    + apply Forall_forall. intros eb Heb. by apply build_grids_shape in Heb as (_ & ? & _).
Qed.

Lemma persisted_keys_NoDup (db : Db) (g : G) st g' v_id es :
  NoDup (slot_id <$> time_slots db) →
  search db g = (true, st, g') →
  persist_entries (slot_map db) v_id (empty_blocks st) = Ok es →
  NoDup (key_teacher <$> es) ∧ NoDup (key_room <$> es).
Proof.
  intros Hnd Hsearch Hes.
  apply search_trace in Hsearch as (g1 & Htr).
  destruct (initial_grid db g1 p_teacher_id) as [Hsl HT].
  destruct (initial_grid db g1 p_room_id) as [_ HR].
  destruct (placed_trace_keys db _ _ _ Hnd Htr Hsl HT HR) as [[HT' _] [HR' _]].
  split.
  - unfold key_teacher.
    by rewrite (persist_entries_keys _ _ _ _ p_teacher_id e_teacher_id (λ _ _ _, eq_refl) Hes).
  - unfold key_room.
    by rewrite (persist_entries_keys _ _ _ _ p_room_id e_room_id (λ _ _ _, eq_refl) Hes).
Qed.

Lemma persisted_places_NoDup (db : Db) (g : G) st g' v_id es :
  NoDup (slot_id <$> time_slots db) →
  NoDup (class_id <$> classes db) →
  search db g = (true, st, g') →
  persist_entries (slot_map db) v_id (empty_blocks st) = Ok es →
  NoDup (key_class <$> es).
Proof.
  intros Hnd Hndc Hsearch Hes.
  apply search_trace in Hsearch as (g1 & Htr).
  change key_class with (λ e, (e_class_id e, e_time_slot_id e)).
  apply persist_entries_places in Hes as [-> Hsome].
  apply placed_trace_places in Htr. simpl in Htr. rewrite Htr in *.
  apply NoDup_fmap_2_strong; [|by apply build_grids_places].
  intros [[c1 d1] o1] [[c2 d2] o2] H1 H2 [= -> Heq].
  destruct (Hsome _ H1) as [t1 Ht1]. destruct (Hsome _ H2) as [t2 Ht2].
  simpl in *. rewrite Ht1, Ht2 in Heq. simpl in Heq. subst t2.
  by injection (slot_map_inj db _ _ _ Hnd Ht1 Ht2) as -> ->.
Qed.

(** X2: in a candidate the generator persists, no teacher is on two entries of
    one slot, and no room either. *)
Theorem no_teacher_or_room_clash (db : Db) (creator index : nat) (g : G) db' v g' :
  NoDup (slot_id <$> time_slots db) →
  generate_candidate db creator index g = (Ok (db', v), g') →
  NoDup (key_teacher <$> new_entries db db')
  ∧ NoDup (key_room <$> new_entries db db').
Proof.
  intros Hnd Hgen.
  apply generate_candidate_inv in Hgen as (ok & st & Hsearch & _ & Hok).
  destruct ok; [|destruct Hok as [-> _]; split; apply NoDup_nil_2].
  destruct Hok as (es & Hes & -> & _).
  exact (persisted_keys_NoDup db g st g' _ es Hnd Hsearch Hes).
Qed.

(** X3: in a candidate the generator persists, no class has two entries on one
    slot. *)
Theorem no_class_clash (db : Db) (creator index : nat) (g : G) db' v g' :
  NoDup (slot_id <$> time_slots db) →
  NoDup (class_id <$> classes db) →
  generate_candidate db creator index g = (Ok (db', v), g') →
  NoDup (key_class <$> new_entries db db').
Proof.
  intros Hnd Hndc Hgen.
  apply generate_candidate_inv in Hgen as (ok & st & Hsearch & _ & Hok).
  destruct ok; [|destruct Hok as [-> _]; apply NoDup_nil_2].
  destruct Hok as (es & Hes & -> & _).
  exact (persisted_places_NoDup db g st g' _ es Hnd Hndc Hsearch Hes).
Qed.
End booking.

(** ** What every persisted entry is *)

Lemma placed_trace_all db items st st' :
  placed_trace db items st st' →
  placed_all db items (empty_blocks st) (empty_blocks st').
Proof.
  induction 1 as [st|item items st st' i eb teacher r ? ? ? ? ? ? ? ? ? ? ? Htr IH];
    [constructor|]. by eapply placed_cons.
Qed.

Lemma placed_trace_filled db items st st' eb' p :
  placed_trace db items st st' → eb' ∈ empty_blocks st' →
  b_item (eb_block eb') = Some p →
  eb' ∈ empty_blocks st ∨ (p_teacher_id p ≠ 0 ∧ p_room_id p ≠ 0).
Proof.
  intros Htr. revert eb' p.
  induction Htr as [st|item items st st' i eb teacher r Hi ? ? ? ? ? ? ? ? ? ? Htr IH];
    intros eb' p Hin Hp; [by left|].
  destruct (IH eb' p Hin Hp) as [Hold|?]; [|by right]. simpl in Hold.
  apply list_elem_of_lookup_1 in Hold as [j Hj].
  apply list_lookup_insert_Some in Hj as [(-> & <- & _)|(_ & Hj)].
  - right. simpl in Hp. by simplify_eq.
  - left. by eapply list_elem_of_lookup_2.
Qed.

Lemma persist_entries_block sm v ebs es e :
  persist_entries sm v ebs = Ok es → e ∈ es →
  ∃ eb p ts, eb ∈ ebs ∧ b_item (eb_block eb) = Some p
    ∧ e = entry_of_block v eb p ts
    ∧ (∃ s_idx, s_idx ∈ b_slots (eb_block eb) ∧ sm !! (eb_day eb, s_idx) = Some ts)
    ∧ ∀ s_idx, s_idx ∈ b_slots (eb_block eb) →
        ∃ ts', sm !! (eb_day eb, s_idx) = Some ts' ∧ entry_of_block v eb p ts' ∈ es.
Proof.
  revert es. induction ebs as [|eb ebs IH]; intros es Hes He; simpl in Hes.
  - simplify_eq. by apply elem_of_nil in He.
  - destruct (block_entries _ _ _ _) as [es1|] eqn:H1; [|done].
    destruct (persist_entries _ _ _) as [es2|] eqn:H2; [|done].
    simplify_eq. apply elem_of_app in He as [He|He].
    + apply block_entries_eq in H1 as [Hsome H1].
      destruct (b_item (eb_block eb)) as [p|] eqn:Hp;
        [|destruct H1 as [_ ->]; by apply elem_of_nil in He].
      subst es1. apply list_elem_of_fmap in He as (s_idx & -> & Hin).
      destruct (Hsome s_idx Hin) as [ts Hts].
      exists eb, p, ts. split; [left|]. split; [done|]. rewrite Hts. simpl.
      split; [done|]. split; [by exists s_idx|].
      intros s' Hs'. destruct (Hsome s' Hs') as [ts' Hts']. exists ts'. split; [done|].
      apply elem_of_app. left. apply list_elem_of_fmap. exists s'. by rewrite Hts'.
    + destruct (IH es2 eq_refl He) as (eb' & p & ts & Hin & Hp & -> & Hs & Hall).
      exists eb', p, ts. split; [by right|]. split; [done|]. split; [done|].
      split; [done|]. intros s' Hs'. destruct (Hall s' Hs') as (ts' & ? & ?).
      exists ts'. split; [done|]. apply elem_of_app. by right.
Qed.

Section entries.
Context `{Random G}.

(** X4: every entry of a persisted candidate belongs to the new version, is
    unlocked, carries the teacher mapped to its subject, a teacher id and
    a room id that are not 0, and a subject that belongs to its class. *)
Theorem persisted_entry_wellformed (db : Db) (creator index : nat) (g : G)
    db' v g' (e : TimetableEntry) :
  generate_candidate db creator index g = (Ok (db', v), g') →
  e ∈ new_entries db db' →
  e_version_id e = version_id v ∧ is_locked e = false
  ∧ t_map db !! e_subject_id e = Some (e_teacher_id e)
  ∧ e_teacher_id e ≠ 0 ∧ e_room_id e ≠ 0
  ∧ ∃ c s, c ∈ classes db ∧ s ∈ subjects db
      ∧ class_id c = e_class_id e ∧ subject_id s = e_subject_id e
      ∧ subject_class_id s = class_id c.
Proof.
  intros Hgen He.
  apply generate_candidate_inv in Hgen as (ok & st & Hsearch & Hv & Hok).
  destruct ok; [|destruct Hok as [Hnil _]; rewrite Hnil in He; by apply elem_of_nil in He].
  destruct Hok as (es & Hes & <- & _).
  destruct (persist_entries_block _ _ _ _ _ Hes He) as (eb & p & ts & Heb & Hp & -> & _).
  apply search_trace in Hsearch as (g1 & Htr). simpl.
  split; [done|]. split; [done|].
  destruct (placed_trace_filled _ _ _ _ _ _ Htr Heb Hp) as [Hold|[Ht0 Hr0]].
  { simpl in Hold. apply build_grids_elem in Hold as [Hnone _]. congruence. }
  apply placed_trace_all in Htr. simpl in Htr.
  destruct (placed_all_filled _ _ _ _ _ _ Htr Heb Hp)
    as [Hold|(item & r0 & Hitem & _ & Hc & _ & Hps & Htm & _)].
  { apply build_grids_elem in Hold as [Hnone _]. congruence. }
  rewrite class_items_perm in Hitem.
  apply expand_demand_elem in Hitem as (c & s & Hcin & Hsin & Hsc & Hic & His & _).
  rewrite Hps. split; [done|]. split; [done|]. split; [done|].
  exists c, s. repeat split; try done; congruence.
Qed.

(** X5: every entry of a persisted candidate is on a slot that is not a
    break. *)
Theorem persisted_entry_not_on_break (db : Db) (creator index : nat) (g : G)
    db' v g' (e : TimetableEntry) (s : TimeSlot) :
  NoDup (slot_id <$> time_slots db) →
  generate_candidate db creator index g = (Ok (db', v), g') →
  e ∈ new_entries db db' →
  s ∈ time_slots db → slot_id s = e_time_slot_id e →
  is_break s = false.
Proof.
  intros Hnd Hgen He Hs Hid.
  apply generate_candidate_inv in Hgen as (ok & st & Hsearch & Hv & Hok).
  destruct ok; [|destruct Hok as [Hnil _]; rewrite Hnil in He; by apply elem_of_nil in He].
  destruct Hok as (es & Hes & <- & _).
  destruct (persist_entries_block _ _ _ _ _ Hes He)
    as (eb & p & ts & _ & _ & -> & (s_idx & _ & Hts) & _).
  apply slot_map_lookup in Hts as (s' & Hs' & Hb & _ & _ & Hid').
  simpl in Hid. assert (s' = s) as -> by (eapply (NoDup_fmap_eq slot_id); eauto; congruence).
  done.
Qed.
End entries.

(** ** A persisted candidate fills the grid *)

Lemma class_blocks_length c days :
  length days = 5 →
  length (class_blocks c days) = 23 ∧ length (grid_places (class_blocks c days)) = 31.
Proof.
  intros Hlen. do 5 (destruct days as [|? days]; [done|]).
  destruct days; [|done]. done.
Qed.

Lemma placed_all_length db items ebs ebs' :
  placed_all db items ebs ebs' → length ebs' = length ebs.
Proof.
  induction 1 as [|item items ebs ebs' i eb teacher r ? ? ? ? ? ? ? IH]; [done|].
  by rewrite IH, length_insert.
Qed.

Lemma placed_all_shaped db items ebs ebs' (P : list nat → kind → Prop) :
  placed_all db items ebs ebs' →
  Forall (λ eb, P (b_slots (eb_block eb)) (b_type (eb_block eb))) ebs →
  Forall (λ eb, P (b_slots (eb_block eb)) (b_type (eb_block eb))) ebs'.
Proof.
  induction 1 as [|item items ebs ebs' i eb teacher r Hi ? ? ? ? ? ? IH]; [done|].
  intros Hall. apply IH. rewrite Forall_forall in *. intros eb' Hin.
  apply list_elem_of_lookup_1 in Hin as [j Hj].
  apply list_lookup_insert_Some in Hj as [(-> & <- & _)|(_ & Hj)].
  - simpl. apply Hall. by eapply list_elem_of_lookup_2.
  - apply Hall. by eapply list_elem_of_lookup_2.
Qed.

Lemma placed_all_places db items ebs ebs' :
  placed_all db items ebs ebs' → grid_places ebs' = grid_places ebs.
Proof.
  induction 1 as [|item items ebs ebs' i eb teacher r Hi ? ? ? ? ? ? IH]; [done|].
  rewrite IH. by apply grid_places_insert.
Qed.

Lemma placed_all_filled_count db items ebs ebs' :
  placed_all db items ebs ebs' →
  sum_list_with filled ebs' = sum_list_with filled ebs + length items.
Proof.
  induction 1 as [|item items ebs ebs' i eb teacher r Hi ? ? Hn ? ? ? IH]; [simpl; lia|].
  rewrite IH.
  pose proof (sum_list_with_insert filled ebs i eb
    (set_item eb (Some {| p_subject_id := item_subject_id item; p_teacher_id := teacher;
                          p_room_id := room_id r |})) Hi) as Hsum.
  assert (filled eb = 0) as Hz by (unfold filled; by rewrite Hn).
  rewrite Hz in Hsum.
  change (filled (set_item eb _)) with 1 in Hsum. simpl length. lia.
Qed.

Lemma persist_entries_all_filled sm v ebs es :
  persist_entries sm v ebs = Ok es →
  Forall (λ eb, b_slots (eb_block eb) ≠ []) ebs →
  sum_list_with filled ebs = length ebs ∧ length es = length (grid_places ebs).
Proof.
  revert es. induction ebs as [|eb ebs IH]; intros es Hes Hall; simpl in Hes.
  - by simplify_eq.
  - destruct (block_entries _ _ _ _) as [es1|] eqn:H1; [|done].
    destruct (persist_entries _ _ _) as [es2|] eqn:H2; [|done].
    simplify_eq. apply Forall_cons in Hall as [Hne Hall].
    destruct (IH es2 eq_refl Hall) as [IH1 IH2].
    apply block_entries_spec in H1 as (Hlen & Hsome & _).
    destruct (Hsome Hne) as [p Hp]. split.
    + simpl. rewrite IH1. unfold filled. by rewrite Hp.
    + unfold grid_places in *. rewrite bind_cons, !length_app, IH2, Hlen.
      unfold block_places. by rewrite length_fmap.
Qed.

Lemma filter_none {A} (P : A → Prop) `{∀ x, Decision (P x)} (l : list A) :
  Forall (λ x, ¬ P x) l → filter P l = [].
Proof.
  induction 1 as [|x l Hx _ IH]; [done|]. by rewrite filter_cons, decide_False.
Qed.

Lemma filter_all {A} (P : A → Prop) `{∀ x, Decision (P x)} (l : list A) :
  Forall P l → filter P l = l.
Proof.
  induction 1 as [|x l Hx _ IH]; [done|]. by rewrite filter_cons, decide_True, IH.
Qed.

(** *** Counting per class *)

Lemma sum_list_with_null {A} (f : A → nat) (l : list A) :
  Forall (λ x, f x = 0) l → sum_list_with f l = 0.
Proof. induction 1 as [|x l Hx _ IH]; [done|]. simpl. by rewrite Hx, IH. Qed.

Lemma sum_list_with_eq {A} (f f' : A → nat) (l : list A) :
  Forall (λ x, f x = f' x) l → sum_list_with f l = sum_list_with f' l.
Proof. induction 1 as [|x l Hx _ IH]; [done|]. simpl. by rewrite Hx, IH. Qed.

(** What a placement leaves alone adds up to the same sum. *)
Lemma placed_all_sum db items ebs ebs' (W : nat → list nat → kind → nat) :
  placed_all db items ebs ebs' →
  sum_list_with (λ eb, W (eb_class_id eb) (b_slots (eb_block eb)) (b_type (eb_block eb))) ebs'
  = sum_list_with (λ eb, W (eb_class_id eb) (b_slots (eb_block eb)) (b_type (eb_block eb))) ebs.
Proof.
  induction 1 as [|item items ebs ebs' i eb teacher r Hi ? ? Hn ? ? ? IH]; [done|].
  rewrite IH.
  pose proof (sum_list_with_insert
    (λ eb, W (eb_class_id eb) (b_slots (eb_block eb)) (b_type (eb_block eb))) ebs i eb
    (set_item eb (Some {| p_subject_id := item_subject_id item; p_teacher_id := teacher;
                          p_room_id := room_id r |})) Hi) as Hsum.
  simpl in Hsum. lia.
Qed.

(** The filled blocks of a class and a kind grow by the items of that
    class and kind. *)
Lemma placed_all_filled_of db items ebs ebs' (c : nat) (k : kind) :
  placed_all db items ebs ebs' →
  sum_list_with (λ eb, if decide (eb_class_id eb = c ∧ b_type (eb_block eb) = k)
                       then filled eb else 0) ebs'
  = sum_list_with (λ eb, if decide (eb_class_id eb = c ∧ b_type (eb_block eb) = k)
                         then filled eb else 0) ebs
    + length (filter (λ it, item_class_id it = c ∧ item_type it = k) items).
Proof.
  induction 1 as [|item items ebs ebs' i eb teacher r Hi Hc Hk Hn ? ? ? IH]; [simpl; lia|].
  rewrite IH.
  pose proof (sum_list_with_insert
    (λ eb, if decide (eb_class_id eb = c ∧ b_type (eb_block eb) = k) then filled eb else 0)
    ebs i eb
    (set_item eb (Some {| p_subject_id := item_subject_id item; p_teacher_id := teacher;
                          p_room_id := room_id r |})) Hi) as Hsum.
  simpl in Hsum. rewrite Hc, Hk in Hsum.
  assert (filled eb = 0) as Hz by (unfold filled; by rewrite Hn).
  rewrite Hz in Hsum. change (filled (set_item eb _)) with 1 in Hsum.
  rewrite filter_cons.
  destruct (decide (item_class_id item = c ∧ item_type item = k)); simpl length; lia.
Qed.

Lemma persist_entries_filled sm v ebs es :
  persist_entries sm v ebs = Ok es →
  Forall (λ eb, b_slots (eb_block eb) ≠ []) ebs →
  Forall (λ eb, filled eb = 1) ebs.
Proof.
  revert es. induction ebs as [|eb ebs IH]; intros es Hes Hall; simpl in Hes; [done|].
  destruct (block_entries _ _ _ _) as [es1|] eqn:H1; [|done].
  destruct (persist_entries _ _ _) as [es2|] eqn:H2; [|done].
  apply Forall_cons in Hall as [Hne Hall]. apply Forall_cons. split; [|by eapply IH].
  apply block_entries_spec in H1 as (_ & Hsome & _).
  destruct (Hsome Hne) as [p Hp]. unfold filled. by rewrite Hp.
Qed.

(** The entries of a class are the slots of its blocks. *)
Lemma persist_entries_of_class sm v ebs es (c : nat) :
  persist_entries sm v ebs = Ok es →
  length (filter (λ e, e_class_id e = c) es)
  = sum_list_with (λ eb, if decide (eb_class_id eb = c)
                         then length (b_slots (eb_block eb)) else 0) ebs.
Proof.
  revert es. induction ebs as [|eb ebs IH]; intros es Hes; simpl in Hes.
  - by simplify_eq.
  - destruct (block_entries _ _ _ _) as [es1|] eqn:H1; [|done].
    destruct (persist_entries _ _ _) as [es2|] eqn:H2; [|done].
    simplify_eq. rewrite filter_app, length_app, (IH es2 eq_refl). simpl. f_equal.
    apply block_entries_spec in H1 as (Hlen & _ & Hall).
    destruct (decide (eb_class_id eb = c)) as [Hc|Hc].
    + rewrite filter_all; [done|]. apply Forall_forall. intros e He.
      destruct (Hall e He) as (p & _ & -> & _). done.
    + rewrite filter_none; [done|]. apply Forall_forall. intros e He.
      destruct (Hall e He) as (p & _ & -> & _). done.
Qed.

(** The week of one class: 8 lab blocks, 15 theory blocks, 31 slots. *)
Lemma class_blocks_count (c0 c : nat) (k : kind) days :
  length days = 5 →
  sum_list_with (λ eb, if decide (eb_class_id eb = c ∧ b_type (eb_block eb) = k)
                       then 1 else 0) (class_blocks c0 days)
  = (if decide (c0 = c) then match k with L => 8 | T => 15 end else 0)
  ∧ sum_list_with (λ eb, if decide (eb_class_id eb = c)
                         then length (b_slots (eb_block eb)) else 0) (class_blocks c0 days)
    = (if decide (c0 = c) then 31 else 0).
Proof.
  intros Hlen. do 5 (destruct days as [|? days]; [done|]).
  destruct days; [|done]. clear Hlen.
  match goal with |- context [class_blocks c0 ?l] =>
    let bs := eval vm_compute in (class_blocks c0 l) in
    change (class_blocks c0 l) with bs
  end.
  cbn -[decide].
  assert (c0 = c ∨ c0 ≠ c) as [->|Hne] by (destruct (decide (c0 = c)); auto).
  - rewrite !(decide_True (P := c = c)) by done. split; [|done].
    destruct k.
    + rewrite !(decide_True (P := c = c ∧ L = L)) by done.
      by rewrite !(decide_False (P := c = c ∧ T = L)) by (by intros [_ ?]).
    + rewrite !(decide_True (P := c = c ∧ T = T)) by done.
      by rewrite !(decide_False (P := c = c ∧ L = T)) by (by intros [_ ?]).
  - rewrite !(decide_False (P := c0 = c)) by done. split; [|done].
    rewrite !(decide_False (P := c0 = c ∧ L = k)) by (by intros [? _]).
    by rewrite !(decide_False (P := c0 = c ∧ T = k)) by (by intros [? _]).
Qed.

Section fill.
Context `{Random G}.

Lemma build_grids_length cls (g : G) :
  length (build_grids cls g).1 = 23 * length cls
  ∧ length (grid_places (build_grids cls g).1) = 31 * length cls.
Proof.
  revert g. induction cls as [|c cls IH]; intros g; simpl; [done|].
  pose proof (shuffle_perm _ days_order g) as Hperm.
  destruct (shuffle days_order g) as [days g1]. simpl in Hperm.
  specialize (IH g1). destruct (build_grids cls g1) as [rest g2]. simpl in *.
  destruct IH as [IH1 IH2].
  destruct (class_blocks_length (class_id c) days) as [H1 H2].
  { by rewrite Hperm. }
  unfold grid_places in *. rewrite bind_app, !length_app, H1, H2, IH1, IH2. lia.
Qed.

Lemma build_grids_count_other cls (g : G) (c : nat) (k : kind) :
  c ∉ class_id <$> cls →
  sum_list_with (λ eb, if decide (eb_class_id eb = c ∧ b_type (eb_block eb) = k)
                       then 1 else 0) (build_grids cls g).1 = 0
  ∧ sum_list_with (λ eb, if decide (eb_class_id eb = c)
                         then length (b_slots (eb_block eb)) else 0) (build_grids cls g).1
    = 0.
Proof.
  revert g. induction cls as [|c0 cls IH]; intros g Hc; simpl; [done|].
  rewrite fmap_cons, not_elem_of_cons in Hc. destruct Hc as [Hne Hc].
  pose proof (shuffle_perm _ days_order g) as Hperm.
  destruct (shuffle days_order g) as [days g1]. simpl in Hperm.
  specialize (IH g1 Hc). destruct (build_grids cls g1) as [rest g2]. simpl in *.
  destruct IH as [IH1 IH2].
  destruct (class_blocks_count (class_id c0) c k days) as [H1 H2]; [by rewrite Hperm|].
  rewrite decide_False in H1, H2 by done.
  by rewrite !sum_list_with_app, H1, H2, IH1, IH2.
Qed.

Lemma build_grids_count cls (g : G) (c : ClassGroup) (k : kind) :
  NoDup (class_id <$> cls) → c ∈ cls →
  sum_list_with (λ eb, if decide (eb_class_id eb = class_id c ∧ b_type (eb_block eb) = k)
                       then 1 else 0) (build_grids cls g).1
  = match k with L => 8 | T => 15 end
  ∧ sum_list_with (λ eb, if decide (eb_class_id eb = class_id c)
                         then length (b_slots (eb_block eb)) else 0) (build_grids cls g).1
    = 31.
Proof.
  revert g. induction cls as [|c0 cls IH]; intros g Hnd Hc; [by apply elem_of_nil in Hc|].
  simpl. rewrite fmap_cons in Hnd. apply NoDup_cons in Hnd as [Hc0 Hnd].
  pose proof (shuffle_perm _ days_order g) as Hperm.
  destruct (shuffle days_order g) as [days g1]. simpl in Hperm.
  destruct (class_blocks_count (class_id c0) (class_id c) k days) as [H1 H2];
    [by rewrite Hperm|].
  apply elem_of_cons in Hc as [->|Hc].
  - destruct (build_grids_count_other cls g1 (class_id c0) k Hc0) as [H3 H4].
    destruct (build_grids cls g1) as [rest g2]. simpl in H3, H4. simpl.
    rewrite !sum_list_with_app, H1, H2, H3, H4.
    rewrite !decide_True by done. by destruct k.
  - specialize (IH g1 Hnd Hc). destruct (build_grids cls g1) as [rest g2].
    simpl in IH. simpl. destruct IH as [IH1 IH2].
    assert (class_id c0 ≠ class_id c) as Hne.
    { intros Heq. apply Hc0. rewrite Heq. by apply list_elem_of_fmap_2. }
    rewrite !sum_list_with_app, H1, H2, IH1, IH2.
    by rewrite !decide_False by done.
Qed.

(** X6: the generator persists a successful candidate only when the demand
    fills the grid: the instance has 23 times as many items as classes,
    and the candidate 31 times as many entries.  With class ids as
    primary key, every class has exactly 8 lab items and 15 theory
    items, and 31 entries in the candidate. *)
Theorem persisted_candidate_fills_grid (db : Db) (creator index : nat) (g : G) db' v g' :
  generate_candidate db creator index g = (Ok (db', v), g') →
  score v = 10000%Z →
  length (expand_demand (classes db) (subjects db)) = 23 * length (classes db)
  ∧ length (new_entries db db') = 31 * length (classes db)
  ∧ (NoDup (class_id <$> classes db) →
     ∀ c, c ∈ classes db →
       length (filter (λ it, item_class_id it = class_id c ∧ item_type it = L)
                 (expand_demand (classes db) (subjects db))) = 8
       ∧ length (filter (λ it, item_class_id it = class_id c ∧ item_type it = T)
                   (expand_demand (classes db) (subjects db))) = 15
       ∧ length (filter (λ e, e_class_id e = class_id c) (new_entries db db')) = 31).
Proof.
  intros Hgen Hscore.
  apply generate_candidate_inv in Hgen as (ok & st & Hsearch & _ & Hok).
  destruct ok; [|destruct Hok as [_ Hz]; rewrite Hz in Hscore; done].
  destruct Hok as (es & Hes & -> & _).
  apply search_placed in Hsearch as (g1 & g2 & Hpl & -> & _).
  assert (Forall (λ eb, length (b_slots (eb_block eb)) = width (b_type (eb_block eb)))
            (empty_blocks st)) as Hsh.
  { apply (placed_all_shaped _ _ _ _ (λ sl k, length sl = width k) Hpl).
    apply Forall_forall. intros eb Heb. by apply build_grids_elem in Heb as [_ ?]. }
  assert (Forall (λ eb, b_slots (eb_block eb) ≠ []) (empty_blocks st)) as Hne.
  { eapply Forall_impl; [exact Hsh|]. simpl. intros eb Hw Hnil.
    rewrite Hnil in Hw. by destruct (b_type (eb_block eb)). }
  destruct (persist_entries_all_filled _ _ _ _ Hes Hne) as [Hfill Hlen].
  pose proof (placed_all_filled_count _ _ _ _ Hpl) as Hcount.
  pose proof (placed_all_length _ _ _ _ Hpl) as Hl.
  destruct (build_grids_length (classes db) (class_items db g).2) as [Hb1 Hb2].
  assert (Forall (λ eb, filled eb = 0) (build_grids (classes db) (class_items db g).2).1)
    as Hempty.
  { apply Forall_forall. intros eb Heb. apply build_grids_elem in Heb as [Hnone _].
    unfold filled. by rewrite Hnone. }
  assert (sum_list_with filled (build_grids (classes db) (class_items db g).2).1 = 0) as Hz.
  { by apply sum_list_with_null. }
  split; [rewrite <- (Permutation_length (class_items_perm db g)); lia|].
  split; [rewrite Hlen, (placed_all_places _ _ _ _ Hpl); exact Hb2|].
  intros Hnd c Hc.
  pose proof (persist_entries_filled _ _ _ _ Hes Hne) as Hfull.
  assert (∀ k, length (filter (λ it, item_class_id it = class_id c ∧ item_type it = k)
                         (expand_demand (classes db) (subjects db)))
               = match k with L => 8 | T => 15 end) as Hitems.
  { intros k.
    rewrite <- (Permutation_length
                  (filter_Permutation _ _ _ (class_items_perm db g))).
    pose proof (placed_all_filled_of _ _ _ _ (class_id c) k Hpl) as Hof.
    pose proof (placed_all_sum _ _ _ _
      (λ c' _ k', if decide (c' = class_id c ∧ k' = k) then 1 else 0) Hpl) as Hsum.
    simpl in Hsum.
    rewrite (proj1 (build_grids_count _ _ c k Hnd Hc)) in Hsum.
    assert (sum_list_with (λ eb, if decide (eb_class_id eb = class_id c
                                            ∧ b_type (eb_block eb) = k)
                                 then filled eb else 0)
              (build_grids (classes db) (class_items db g).2).1 = 0) as Hz0.
    { apply sum_list_with_null. eapply Forall_impl; [exact Hempty|].
      simpl. intros eb ->. by destruct (decide _). }
    assert (sum_list_with (λ eb, if decide (eb_class_id eb = class_id c
                                            ∧ b_type (eb_block eb) = k)
                                 then filled eb else 0) (empty_blocks st)
            = sum_list_with (λ eb, if decide (eb_class_id eb = class_id c
                                              ∧ b_type (eb_block eb) = k)
                                   then 1 else 0) (empty_blocks st)) as Heq.
    { apply sum_list_with_eq. eapply Forall_impl; [exact Hfull|].
      simpl. by intros eb ->. }
    lia. }
  split; [exact (Hitems L)|]. split; [exact (Hitems T)|].
  rewrite (persist_entries_of_class _ _ _ _ (class_id c) Hes).
  pose proof (placed_all_sum _ _ _ _
    (λ c' sl _, if decide (c' = class_id c) then length sl else 0) Hpl) as Hsum.
  simpl in Hsum. rewrite Hsum.
  exact (proj2 (build_grids_count _ _ c L Hnd Hc)).
Qed.
End fill.

(** ** Lab pairs *)

Section labs.
Context `{Random G}.

(** X7: in a persisted candidate every entry of a lab subject is one of a
    pair: two slots of one day, of orders 1 and 2 or 5 and 6, neither a
    break, hold two entries of the same class, subject, teacher and room. *)
Theorem lab_entries_come_in_pairs (db : Db) (creator index : nat) (g : G)
    db' v g' (e : TimetableEntry) (sub : Subject) :
  NoDup (subject_id <$> subjects db) →
  generate_candidate db creator index g = (Ok (db', v), g') →
  e ∈ new_entries db db' →
  sub ∈ subjects db → subject_id sub = e_subject_id e → is_lab sub = true →
  ∃ s1 s2, s1 ∈ time_slots db ∧ s2 ∈ time_slots db
    ∧ is_break s1 = false ∧ is_break s2 = false
    ∧ day_of_week s1 = day_of_week s2
    ∧ (slot_order s1 = 1 ∨ slot_order s1 = 5)
    ∧ slot_order s2 = S (slot_order s1)
    ∧ (e_time_slot_id e = slot_id s1 ∨ e_time_slot_id e = slot_id s2)
    ∧ with_slot e (slot_id s1) ∈ new_entries db db'
    ∧ with_slot e (slot_id s2) ∈ new_entries db db'.
Proof.
  intros Hnds Hgen He Hsub Hsid Hlab.
  apply generate_candidate_inv in Hgen as (ok & st & Hsearch & Hv & Hok).
  destruct ok; [|destruct Hok as [Hnil _]; rewrite Hnil in He; by apply elem_of_nil in He].
  destruct Hok as (es & Hes & <- & _).
  destruct (persist_entries_block _ _ _ _ _ Hes He)
    as (eb & p & ts & Heb & Hp & -> & (s_idx & Hidx & Hts) & Hall).
  apply search_placed in Hsearch as (g1 & g2 & Hpl & -> & _).
  assert (b_type (eb_block eb) = L) as HL.
  { destruct (placed_all_filled _ _ _ _ _ _ Hpl Heb Hp)
      as [Hold|(item & r0 & Hitem & _ & _ & Hty & Hps & _)].
    { apply build_grids_elem in Hold as [Hnone _]. congruence. }
    rewrite class_items_perm in Hitem.
    apply expand_demand_elem in Hitem as (c & s & _ & Hs' & _ & _ & Hsid' & Hty').
    assert (s = sub) as ->.
    { eapply (NoDup_fmap_eq subject_id); eauto. simpl in Hsid. congruence. }
    rewrite Hlab in Hty'. congruence. }
  assert (b_slots (eb_block eb) = [1; 2] ∨ b_slots (eb_block eb) = [5; 6]) as Hsl.
  { pose proof (placed_all_shaped _ _ _ _
      (λ sl k, k = L → sl = [1; 2] ∨ sl = [5; 6]) Hpl) as Hsh.
    rewrite !Forall_forall in Hsh. apply (Hsh (λ eb' Heb', proj1 (proj2 (proj2
      (build_grids_shape _ _ _ Heb')))) eb Heb HL). }
  assert (∃ o, (o = 1 ∨ o = 5) ∧ b_slots (eb_block eb) = [o; S o]) as (o & Ho & Hslo).
  { destruct Hsl as [->| ->]; [exists 1|exists 5]; auto. }
  rewrite Hslo in Hall, Hidx.
  destruct (Hall o) as (t1 & Ht1 & Hin1); [left|].
  destruct (Hall (S o)) as (t2 & Ht2 & Hin2); [right; left|].
  destruct (slot_map_lookup _ _ _ _ Ht1) as (s1 & Hs1 & Hb1 & Hd1 & Ho1 & Hi1).
  destruct (slot_map_lookup _ _ _ _ Ht2) as (s2 & Hs2 & Hb2 & Hd2 & Ho2 & Hi2).
  exists s1, s2. repeat split; try done.
  - congruence.
  - by rewrite Ho1.
  - by rewrite Ho1, Ho2.
  - simpl. apply elem_of_cons in Hidx as [->|Hidx].
    + left. congruence.
    + apply list_elem_of_singleton in Hidx as ->. right. congruence.
  - by rewrite Hi1.
  - by rewrite Hi2.
Qed.
End labs.

(** ** One theory lecture of a subject a day *)

Lemma day_key_daily_subs ebs c d s :
  (c, d, s) ∈ ebs ≫= day_key → s ∈ daily_subs ebs c d.
Proof.
  intros (eb & Hk & Heb)%list_elem_of_bind. unfold day_key in Hk.
  destruct (b_item (eb_block eb)) as [p|] eqn:Hp; [|by apply elem_of_nil in Hk].
  apply list_elem_of_singleton in Hk. simplify_eq.
  unfold daily_subs, grid_day. apply list_elem_of_fmap. exists p. split; [done|].
  apply list_elem_of_omap. exists (eb_block eb). split; [|done].
  apply list_elem_of_fmap. exists eb. split; [done|]. by apply list_elem_of_filter.
Qed.

Lemma placed_trace_day_keys db items st st' :
  placed_trace db items st st' →
  NoDup (empty_blocks st ≫= day_key) → NoDup (empty_blocks st' ≫= day_key).
Proof.
  induction 1 as [st|item items st st' i eb teacher r Hi Hc ? Hn Hd ? ? ? ? ? ? Htr IH];
    [done|].
  intros Hnd. apply IH. simpl.
  rewrite (bind_insert_empty day_key _ i eb); [|done|unfold day_key; by rewrite Hn].
  unfold day_key at 1. simpl. apply NoDup_cons. split; [|done].
  intros Hin. apply Hd. rewrite <- Hc. by apply day_key_daily_subs.
Qed.

Lemma NoDup_bind_eq {A B} (f : A → list B) (l : list A) x y k :
  NoDup (l ≫= f) → x ∈ l → y ∈ l → k ∈ f x → k ∈ f y → x = y.
Proof.
  induction l as [|z l IH]; [by intros _ ?%elem_of_nil|].
  rewrite bind_cons. intros (Hz & Hdisj & Hl)%NoDup_app Hx Hy Hkx Hky.
  apply elem_of_cons in Hx as [->|Hx]; apply elem_of_cons in Hy as [->|Hy]; try done.
  - exfalso. apply (Hdisj k Hkx). apply list_elem_of_bind. by exists y.
  - exfalso. apply (Hdisj k Hky). apply list_elem_of_bind. by exists x.
  - by apply IH.
Qed.

Section theory.
Context `{Random G}.

(** X8: in a persisted candidate a theory subject has at most one entry a day
    in its class: two entries of the class and the subject whose slots are
    on the same day are the same entry. *)
Theorem theory_subject_once_a_day (db : Db) (creator index : nat) (g : G)
    db' v g' (e1 e2 : TimetableEntry) (sub : Subject) (s1 s2 : TimeSlot) :
  NoDup (subject_id <$> subjects db) →
  NoDup (slot_id <$> time_slots db) →
  generate_candidate db creator index g = (Ok (db', v), g') →
  e1 ∈ new_entries db db' → e2 ∈ new_entries db db' →
  e_class_id e1 = e_class_id e2 → e_subject_id e1 = e_subject_id e2 →
  sub ∈ subjects db → subject_id sub = e_subject_id e1 → is_lab sub = false →
  s1 ∈ time_slots db → slot_id s1 = e_time_slot_id e1 →
  s2 ∈ time_slots db → slot_id s2 = e_time_slot_id e2 →
  day_of_week s1 = day_of_week s2 →
  e1 = e2.
Proof.
  intros Hnds Hndt Hgen He1 He2 Hcls Hsubj Hsub Hsid Hlab Hs1 Hid1 Hs2 Hid2 Hday.
  apply generate_candidate_inv in Hgen as (ok & st & Hsearch & Hv & Hok).
  destruct ok; [|destruct Hok as [Hnil _]; rewrite Hnil in He1; by apply elem_of_nil in He1].
  destruct Hok as (es & Hes & <- & _).
  destruct (persist_entries_block _ _ _ _ _ Hes He1)
    as (eb1 & p1 & t1 & Heb1 & Hp1 & -> & (o1 & Ho1 & Ht1) & _).
  destruct (persist_entries_block _ _ _ _ _ Hes He2)
    as (eb2 & p2 & t2 & Heb2 & Hp2 & -> & (o2 & Ho2 & Ht2) & _).
  simpl in *.
  pose proof Hsearch as Hsearch'.
  apply search_placed in Hsearch as (g1 & g2 & Hpl & -> & _).
  apply search_trace in Hsearch' as (g3 & Htr).
  assert (∀ eb p, eb ∈ empty_blocks st → b_item (eb_block eb) = Some p →
            p_subject_id p = subject_id sub → ∃ o, b_slots (eb_block eb) = [o]) as Hone.
  { intros eb p Heb Hp Hps.
    destruct (placed_all_filled _ _ _ _ _ _ Hpl Heb Hp)
      as [Hold|(item & r0 & Hitem & _ & _ & Hty & Hps' & _)].
    { apply build_grids_elem in Hold as [Hnone _]. congruence. }
    rewrite class_items_perm in Hitem.
    apply expand_demand_elem in Hitem as (c & s & _ & Hs' & _ & _ & Hsid' & Hty').
    assert (s = sub) as -> by (eapply (NoDup_fmap_eq subject_id); eauto; congruence).
    rewrite Hlab in Hty'.
    pose proof (placed_all_shaped _ _ _ _ (λ sl k, k = T → ∃ o, sl = [o]) Hpl) as Hsh.
    rewrite !Forall_forall in Hsh. apply (Hsh (λ eb' Heb', proj2 (proj2 (proj2
      (build_grids_shape _ _ _ Heb')))) eb Heb). congruence. }
  assert (eb_day eb1 = eb_day eb2) as Hd.
  { destruct (slot_map_lookup _ _ _ _ Ht1) as (r1 & Hr1 & _ & Hd1 & _ & Hi1).
    destruct (slot_map_lookup _ _ _ _ Ht2) as (r2 & Hr2 & _ & Hd2 & _ & Hi2).
    assert (r1 = s1) as -> by (eapply (NoDup_fmap_eq slot_id); eauto; congruence).
    assert (r2 = s2) as -> by (eapply (NoDup_fmap_eq slot_id); eauto; congruence).
    congruence. }
  assert (eb1 = eb2) as <-.
  { eapply (NoDup_bind_eq day_key (empty_blocks st) eb1 eb2
              (eb_class_id eb1, eb_day eb1, p_subject_id p1)); try done.
    - apply (placed_trace_day_keys _ _ _ _ Htr). simpl.
      clear. generalize (build_grids_elem (classes db) g3).
      induction (build_grids (classes db) g3).1 as [|eb l IH]; [intros; apply NoDup_nil_2|].
      intros Hall. rewrite bind_cons. unfold day_key at 1.
      destruct (Hall eb) as [-> _]; [left|]. simpl. apply IH. intros eb' ?. apply Hall. by right.
    - unfold day_key. rewrite Hp1. left.
    - unfold day_key. rewrite Hp2, Hcls, Hd, Hsubj. left. }
  simplify_eq.
  destruct (Hone eb1 p1 Heb1 Hp1) as [o Ho]; [congruence|].
  rewrite Ho in Ho1, Ho2.
  apply list_elem_of_singleton in Ho1, Ho2. subst. congruence.
Qed.
End theory.

(** ** The search theorems at concrete inputs *)

Lemma week_slots_NoDup : NoDup (slot_id <$> time_slots week_db).
Proof. apply (bool_decide_unpack _). vm_compute. reflexivity. Defined.

Lemma week_candidate :
  generate_candidate week_db 1 0 0
  = (Ok ((candidate week_db 1 0 0).1, (candidate week_db 1 0 0).2), (search week_db 0).2).
Proof. vm_compute. reflexivity. Defined.

Lemma failed_search_restores_state_witness :
  (place_item monday_only_db (class_items monday_only_db 0).1
     (initial_search monday_only_db 1) 2).1.1 = false
  ∧ (place_item monday_only_db (class_items monday_only_db 0).1
       (initial_search monday_only_db 1) 2).1.2 = initial_search monday_only_db 1.
Proof.
  split; [vm_compute; reflexivity|].
  apply (failed_search_restores_state monday_only_db (class_items monday_only_db 0).1
           (initial_search monday_only_db 1) 2 _
           (place_item monday_only_db (class_items monday_only_db 0).1
              (initial_search monday_only_db 1) 2).2).
  vm_compute. reflexivity.
Defined.

Lemma no_teacher_or_room_clash_witness :
  NoDup (slot_id <$> time_slots week_db)
  ∧ NoDup (key_teacher <$> new_entries week_db (candidate week_db 1 0 0).1)
  ∧ NoDup (key_room <$> new_entries week_db (candidate week_db 1 0 0).1).
Proof.
  split; [exact week_slots_NoDup|].
  exact (no_teacher_or_room_clash week_db 1 0 0 _ _ _ week_slots_NoDup week_candidate).
Defined.

Lemma no_class_clash_witness :
  NoDup (class_id <$> classes week_db)
  ∧ NoDup (key_class <$> new_entries week_db (candidate week_db 1 0 0).1).
Proof.
  assert (NoDup (class_id <$> classes week_db)) as Hc
    by (apply (bool_decide_unpack _); vm_compute; reflexivity).
  split; [exact Hc|].
  exact (no_class_clash week_db 1 0 0 _ _ _ week_slots_NoDup Hc week_candidate).
Defined.

Lemma week_entry : entry_at 2 12 ∈ new_entries week_db (candidate week_db 1 0 0).1.
Proof. apply (bool_decide_unpack _). vm_compute. reflexivity. Defined.

Lemma persisted_entry_wellformed_witness :
  entry_at 2 12 ∈ new_entries week_db (candidate week_db 1 0 0).1
  ∧ t_map week_db !! 2 = Some 1.
Proof.
  split; [exact week_entry|].
  exact (proj1 (proj2 (proj2
    (persisted_entry_wellformed week_db 1 0 0 _ _ _ (entry_at 2 12) week_candidate week_entry)))).
Defined.

Lemma persisted_entry_not_on_break_witness :
  entry_at 2 12 ∈ new_entries week_db (candidate week_db 1 0 0).1
  ∧ is_break {| slot_id := 12; day_of_week := "Tuesday"; is_break := false; slot_order := 3 |}
    = false.
Proof.
  split; [exact week_entry|].
  apply (persisted_entry_not_on_break week_db 1 0 0 _ _ _ (entry_at 2 12) _
           week_slots_NoDup week_candidate week_entry).
  - apply (list_elem_of_lookup_2 _ 11). reflexivity.
  - reflexivity.
Defined.

Lemma persisted_candidate_fills_grid_witness :
  score (candidate week_db 1 0 0).2 = 10000%Z
  ∧ NoDup (class_id <$> classes week_db)
  ∧ length (filter (λ it, item_class_id it = class_id bsc_cs_1 ∧ item_type it = L)
              (expand_demand (classes week_db) (subjects week_db))) = 8
  ∧ length (filter (λ it, item_class_id it = class_id bsc_cs_1 ∧ item_type it = T)
              (expand_demand (classes week_db) (subjects week_db))) = 15
  ∧ length (filter (λ e, e_class_id e = class_id bsc_cs_1)
              (new_entries week_db (candidate week_db 1 0 0).1)) = 31.
Proof.
  assert (score (candidate week_db 1 0 0).2 = 10000%Z) as Hs by (vm_compute; reflexivity).
  assert (NoDup (class_id <$> classes week_db)) as Hnd
    by (apply (bool_decide_unpack _); vm_compute; reflexivity).
  assert (bsc_cs_1 ∈ classes week_db) as Hc by left.
  split; [exact Hs|]. split; [exact Hnd|].
  exact (proj2 (proj2 (persisted_candidate_fills_grid week_db 1 0 0 _ _ _ week_candidate Hs))
           Hnd bsc_cs_1 Hc).
Defined.

Lemma week_lab_entry :
  {| e_version_id := 1; e_class_id := 1; e_subject_id := 4; e_teacher_id := 1;
     e_room_id := 2; e_time_slot_id := 10; is_locked := false |}
  ∈ new_entries week_db (candidate week_db 1 0 0).1.
Proof. apply (bool_decide_unpack _). vm_compute. reflexivity. Defined.

Lemma lab_entries_come_in_pairs_witness :
  NoDup (subject_id <$> subjects week_db)
  ∧ ∃ s1 s2, s1 ∈ time_slots week_db ∧ s2 ∈ time_slots week_db
      ∧ is_break s1 = false ∧ is_break s2 = false
      ∧ day_of_week s1 = day_of_week s2
      ∧ (slot_order s1 = 1 ∨ slot_order s1 = 5)
      ∧ slot_order s2 = S (slot_order s1)
      ∧ (10 = slot_id s1 ∨ 10 = slot_id s2)
      ∧ entry_at_lab (slot_id s1) ∈ new_entries week_db (candidate week_db 1 0 0).1
      ∧ entry_at_lab (slot_id s2) ∈ new_entries week_db (candidate week_db 1 0 0).1.
Proof.
  assert (NoDup (subject_id <$> subjects week_db)) as Hs
    by (apply (bool_decide_unpack _); vm_compute; reflexivity).
  split; [exact Hs|].
  apply (lab_entries_come_in_pairs week_db 1 0 0 _ _ _ _ (sub 4 "DBMS Lab" 10 false true)
           Hs week_candidate week_lab_entry).
  - do 3 right. left.
  - reflexivity.
  - reflexivity.
Defined.

Lemma theory_subject_once_a_day_witness :
  entry_at 2 12 ∈ new_entries week_db (candidate week_db 1 0 0).1
  ∧ entry_at 2 12 = entry_at 2 12.
Proof.
  assert (NoDup (subject_id <$> subjects week_db)) as Hs
    by (apply (bool_decide_unpack _); vm_compute; reflexivity).
  assert ({| slot_id := 12; day_of_week := "Tuesday"; is_break := false; slot_order := 3 |}
          ∈ time_slots week_db) as Hslot
    by (apply (list_elem_of_lookup_2 _ 11); reflexivity).
  split; [exact week_entry|].
  apply (theory_subject_once_a_day week_db 1 0 0 _ _ _ (entry_at 2 12) (entry_at 2 12)
           (sub 2 "Physics" 5 false false)
           {| slot_id := 12; day_of_week := "Tuesday"; is_break := false; slot_order := 3 |}
           {| slot_id := 12; day_of_week := "Tuesday"; is_break := false; slot_order := 3 |}
           Hs week_slots_NoDup week_candidate
           week_entry week_entry eq_refl eq_refl).
  - right. left.
  - reflexivity.
  - reflexivity.
  - exact Hslot.
  - reflexivity.
  - exact Hslot.
  - reflexivity.
  - reflexivity.
Defined.

(** ** What a run of the generator adds *)

Lemma max_list_snoc (l : list nat) (n : nat) :
  max_list (l ++ [n]) = max_list l `max` n.
Proof. induction l as [|x l IH]; simpl; [lia|]. rewrite IH. lia. Qed.

Lemma next_version_id_snoc db db' v :
  versions db' = versions db ++ [v] → version_id v = next_version_id db →
  next_version_id db' = S (next_version_id db).
Proof.
  intros Hv Hid. unfold next_version_id in *.
  rewrite Hv, fmap_app. simpl. rewrite max_list_snoc, Hid. lia.
Qed.

Section appends.
Context `{Random G}.

Lemma generate_candidate_appends (db : Db) (creator index : nat) (g : G) db' v g' :
  generate_candidate db creator index g = (Ok (db', v), g') →
  same_entities db db'
  ∧ versions db' = versions db ++ [v]
  ∧ version_id v = next_version_id db
  ∧ is_active v = false
  ∧ (score v = 10000%Z ∨ score v = 0%Z)
  ∧ (∃ es, timetable db' = timetable db ++ es)
  ∧ ∃ log, conflicts db' = conflicts db ++ [log] ∧ cl_version_id log = version_id v.
Proof.
  unfold generate_candidate. destruct (search db g) as [[ok st] g1]. destruct ok.
  - destruct (persist_entries _ _ _) as [es|]; [|done]. intros [= <- <- <-]. simpl.
    do 4 (split; [done|]). split; [by left|]. split; eauto.
  - intros [= <- <- <-]. simpl.
    do 4 (split; [done|]). split; [by right|]. split; [|eauto].
    exists []. by rewrite app_nil_r.
Qed.

Lemma generate_loop_appends (n : nat) : ∀ (db : Db) (creator index : nat) (g : G) vs db' g',
  generate_loop db creator index n g = (Ok vs, db', g') →
  same_entities db db'
  ∧ versions db' = versions db ++ vs
  ∧ version_id <$> vs = seq (next_version_id db) n
  ∧ Forall (λ v, is_active v = false ∧ (score v = 10000%Z ∨ score v = 0%Z)) vs
  ∧ (∃ es, timetable db' = timetable db ++ es)
  ∧ ∃ logs, conflicts db' = conflicts db ++ logs
            ∧ cl_version_id <$> logs = version_id <$> vs.
Proof.
  induction n as [|n IH]; intros db creator index g vs db' g'; simpl.
  - intros [= <- <- <-]. rewrite !app_nil_r.
    split; [done|]. split; [done|]. split; [done|]. split; [done|].
    split; exists []; by rewrite app_nil_r.
  - destruct (generate_candidate db creator index g) as [[[db1 v]|e] g1] eqn:Hc; [|done].
    destruct (generate_loop db1 creator (S index) n g1) as [[[vs1|e] db2] g2] eqn:Hl; [|done].
    intros [= <- <- <-].
    apply generate_candidate_appends in Hc
      as (He & Hv & Hid & Hact & Hsc & (es & Hes) & (log & Hlog & Hlid)).
    destruct (IH _ _ _ _ _ _ _ Hl)
      as (He' & Hv' & Hids & Hall & (es' & Hes') & (logs & Hlogs & Hlids)).
    rewrite (next_version_id_snoc db db1 v Hv Hid) in Hids.
    split; [unfold same_entities in *; intuition congruence|].
    split; [by rewrite Hv', Hv, <- app_assoc|].
    split; [by rewrite fmap_cons, Hid, Hids|].
    split; [by apply Forall_cons|].
    split; [exists (es ++ es'); by rewrite Hes', Hes, <- app_assoc|].
    exists (log :: logs). split.
    + by rewrite Hlogs, Hlog, <- app_assoc.
    + by rewrite !fmap_cons, Hlid, Hlids.
Qed.
End appends.

Lemma set_active_forget v_id vs :
  with_active false <$> set_active v_id (deactivate_all vs) = with_active false <$> vs.
Proof.
  unfold set_active, deactivate_all. rewrite <- !list_fmap_compose.
  apply list_fmap_ext. intros i v _. simpl. by destruct (decide _).
Qed.

Lemma set_active_ids v_id vs :
  version_id <$> set_active v_id (deactivate_all vs) = version_id <$> vs.
Proof.
  unfold set_active, deactivate_all. rewrite <- !list_fmap_compose.
  apply list_fmap_ext. intros i v _. simpl. by destruct (decide _).
Qed.

Lemma select_best_spec db generated :
  version_id <$> (select_best db generated).1 = version_id <$> generated
  ∧ with_active false <$> (select_best db generated).1 = with_active false <$> generated
  ∧ with_active false <$> versions (select_best db generated).2
    = with_active false <$> versions db
  ∧ timetable (select_best db generated).2 = timetable db
  ∧ conflicts (select_best db generated).2 = conflicts db
  ∧ same_entities db (select_best db generated).2.
Proof.
  destruct generated as [|v0 vs0]; [done|].
  unfold select_best. cbn [fst snd versions timetable conflicts with_versions].
  rewrite set_active_ids, !set_active_forget. done.
Qed.

Lemma generate_timetable_length `{Random G} (db : Db)
    (creator num_versions max_retries : nat) (g : G) vs db' g' :
  generate_timetable db creator num_versions max_retries g = (Ok vs, db', g') →
  length vs = num_versions.
Proof.
  unfold generate_timetable.
  destruct (generate_loop db creator 0 num_versions g) as [[[generated|e] db1] g1] eqn:Hl;
    [|done].
  apply generate_loop_appends in Hl as (_ & _ & Hids & _).
  destruct (select_best_spec db1 generated) as (Hsid & _).
  destruct (select_best db1 generated) as [vs1 db2]. simpl in *.
  intros [= <- <- <-].
  rewrite <- (length_fmap version_id), Hsid, Hids. apply length_seq.
Qed.

Lemma generate_timetable_spec `{Random G} (db : Db)
    (creator num_versions max_retries : nat) (g : G) vs db' g' :
  generate_timetable db creator num_versions max_retries g = (Ok vs, db', g') →
  length vs = num_versions
  ∧ version_id <$> vs = seq (next_version_id db) num_versions
  ∧ with_active false <$> versions db'
    = (with_active false <$> versions db) ++ (with_active false <$> vs)
  ∧ (∃ es, timetable db' = timetable db ++ es)
  ∧ (∃ logs, conflicts db' = conflicts db ++ logs
             ∧ cl_version_id <$> logs = version_id <$> vs)
  ∧ same_entities db db'.
Proof.
  unfold generate_timetable.
  destruct (generate_loop db creator 0 num_versions g) as [[[generated|e] db1] g1] eqn:Hl;
    [|done].
  apply generate_loop_appends in Hl as (He & Hv & Hids & _ & Hes & Hlogs).
  destruct (select_best_spec db1 generated) as (Hsid & Hsf & Hsv & Hst & Hsc & Hse).
  destruct (select_best db1 generated) as [vs1 db2]. simpl in *.
  intros [= <- <- <-].
  assert (length vs1 = num_versions) as Hlen.
  { rewrite <- (length_fmap version_id), Hsid, Hids. apply length_seq. }
  split; [done|]. split; [by rewrite Hsid|].
  split; [by rewrite Hsv, Hsf, Hv, fmap_app|].
  split; [by rewrite Hst|]. split; [by rewrite Hsc, Hsid|].
  unfold same_entities in *. intuition congruence.
Qed.

(** X9: a run of the generator that returns, for an integer [num_versions]
    of either sign, yields one version per turn of
    [range(num_versions)], none when the number is negative, with the
    next ids of the table in order.  It appends them to the table of
    versions, whose rows change in nothing but [is_active], one conflict
    log row per version, and entries after the entries already there;
    the entity tables are left as they were. *)
Theorem generate_timetable_appends `{Random G} (db : Db) (creator : nat)
    (num_versions max_retries : Z) (g : G) vs db' g' :
  generate_timetable_int db creator num_versions max_retries g = (Ok vs, db', g') →
  length vs = Z.to_nat num_versions
  ∧ ((num_versions ≤ 0)%Z → vs = [] ∧ db' = db ∧ g' = g)
  ∧ version_id <$> vs = seq (next_version_id db) (Z.to_nat num_versions)
  ∧ with_active false <$> versions db'
    = (with_active false <$> versions db) ++ (with_active false <$> vs)
  ∧ (∃ es, timetable db' = timetable db ++ es)
  ∧ (∃ logs, conflicts db' = conflicts db ++ logs
             ∧ cl_version_id <$> logs = version_id <$> vs)
  ∧ same_entities db db'.
Proof.
  unfold generate_timetable_int. intros Hrun.
  pose proof (generate_timetable_spec _ _ _ _ _ _ _ _ Hrun) as (Hlen & Hrest).
  split; [done|]. split; [|done].
  intros Hneg. rewrite Z2Nat.nonpos in Hrun by done.
  unfold generate_timetable in Hrun. simpl in Hrun. by simplify_eq.
Qed.

(** ** The version the selector picks *)

Lemma best_version_cons v0 v vs :
  best_version v0 (v :: vs) = best_version (if (score v0 <? score v)%Z then v else v0) vs.
Proof. done. Qed.

Lemma best_version_max v0 vs x :
  x ∈ v0 :: vs → (score x ≤ score (best_version v0 vs))%Z.
Proof.
  revert v0 x. induction vs as [|v vs IH]; intros v0 x Hx.
  - apply list_elem_of_singleton in Hx as ->. done.
  - rewrite best_version_cons.
    destruct (score v0 <? score v)%Z eqn:Hlt.
    + apply Z.ltb_lt in Hlt.
      apply elem_of_cons in Hx as [->|Hx]; [|by apply IH].
      pose proof (IH v v (list_elem_of_here _ _)). lia.
    + apply Z.ltb_ge in Hlt.
      apply elem_of_cons in Hx as [->|[->|Hx]%elem_of_cons].
      * apply IH. left.
      * pose proof (IH v0 v0 (list_elem_of_here _ _)). lia.
      * apply IH. by right.
Qed.

Lemma best_version_first v0 vs :
  ∃ l1 l2, v0 :: vs = l1 ++ best_version v0 vs :: l2
    ∧ (∀ v, v ∈ l1 → (score v < score (best_version v0 vs))%Z)
    ∧ (∀ v, v ∈ l2 → (score v ≤ score (best_version v0 vs))%Z).
Proof.
  revert v0. induction vs as [|v vs IH]; intros v0.
  - exists [], []. split; [done|]. split; by intros ? ?%elem_of_nil.
  - rewrite best_version_cons.
    destruct (score v0 <? score v)%Z eqn:Hlt.
    + apply Z.ltb_lt in Hlt. destruct (IH v) as (l1 & l2 & Heq & H1 & H2).
      pose proof (best_version_max v vs v (list_elem_of_here _ _)) as Hmax.
      remember (best_version v vs) as b eqn:Hb.
      exists (v0 :: l1), l2. split; [by rewrite Heq|]. split; [|done].
      intros x [->|Hx]%elem_of_cons; [lia|by apply H1].
    + apply Z.ltb_ge in Hlt. destruct (IH v0) as (l1 & l2 & Heq & H1 & H2).
      remember (best_version v0 vs) as b eqn:Hb.
      destruct l1 as [|y l1].
      * injection Heq as Hhd Htl. exists [], (v :: vs).
        split; [by rewrite <- Hhd|]. split; [by intros ? ?%elem_of_nil|].
        intros x [->|Hx]%elem_of_cons; [by rewrite <- Hhd|]. apply H2. by rewrite <- Htl.
      * injection Heq as Hhd Htl. exists (y :: v :: l1), l2.
        split; [by rewrite Hhd, Htl|]. split; [|done].
        pose proof (H1 y (list_elem_of_here _ _)) as Hy.
        intros x [->|[->|Hx]%elem_of_cons]%elem_of_cons.
        -- done.
        -- rewrite <- Hhd in Hy. lia.
        -- apply H1. by right.
Qed.

Lemma set_active_deactivate v_id l :
  set_active v_id (deactivate_all l)
  = (λ x, if decide (version_id x = v_id) then with_active true x else with_active false x)
      <$> l.
Proof.
  unfold set_active, deactivate_all. rewrite <- list_fmap_compose.
  apply list_fmap_ext. intros i x _. simpl. by destruct (decide _).
Qed.

Lemma set_active_others v_id l :
  v_id ∉ version_id <$> l →
  set_active v_id (deactivate_all l) = with_active false <$> l.
Proof.
  rewrite set_active_deactivate. induction l as [|x l IH]; [done|].
  rewrite fmap_cons, not_elem_of_cons. intros [Hx Hl].
  rewrite !fmap_cons, decide_False by done. by rewrite IH.
Qed.

Lemma set_active_split v_id l1 b l2 :
  version_id b = v_id →
  v_id ∉ version_id <$> l1 → v_id ∉ version_id <$> l2 →
  set_active v_id (deactivate_all (l1 ++ b :: l2))
  = (with_active false <$> l1) ++ with_active true b :: (with_active false <$> l2).
Proof.
  intros Hb H1 H2.
  rewrite <- (set_active_others v_id l1 H1), <- (set_active_others v_id l2 H2).
  rewrite !set_active_deactivate, fmap_app, fmap_cons.
  by rewrite decide_True.
Qed.

Lemma filter_active_false (l : list TimetableVersion) :
  filter (λ v, is_active v = true) (with_active false <$> l) = [].
Proof. induction l as [|x l IH]; [done|]. by rewrite fmap_cons, filter_cons, decide_False. Qed.

(** X10: after a run of the generator that returns at least one version, the
    active version is a version of the run of the highest score, the
    first of them in the order of generation; every other version of the
    table and of the returned list is inactive. *)
Theorem generated_best_is_active `{Random G} (db : Db)
    (creator num_versions max_retries : nat) (g : G) vs db' g' :
  NoDup (version_id <$> versions db) →
  num_versions ≠ 0 →
  generate_timetable db creator num_versions max_retries g = (Ok vs, db', g') →
  ∃ l1 best l2,
    vs = (with_active false <$> l1) ++ with_active true best :: (with_active false <$> l2)
    ∧ (∀ v, v ∈ l1 → (score v < score best)%Z)
    ∧ (∀ v, v ∈ l2 → (score v ≤ score best)%Z)
    ∧ active_versions db' = [with_active true best].
Proof.
  intros Hnd Hn. unfold generate_timetable.
  destruct (generate_loop db creator 0 num_versions g) as [[[generated|e] db1] g1] eqn:Hl;
    [|done].
  pose proof Hl as Hl'.
  apply generate_loop_versions in Hl' as (Hnd1 & _ & _ & Hlen); [|done].
  apply generate_loop_appends in Hl as (_ & Hv & _ & Hall & _).
  destruct generated as [|v0 vs0]; [simpl in Hlen; lia|].
  destruct (best_version_first v0 vs0) as (l1 & l2 & Heq & H1 & H2).
  change (select_best db1 (v0 :: vs0))
    with (set_active (version_id (best_version v0 vs0)) (deactivate_all (v0 :: vs0)),
          with_versions db1 (set_active (version_id (best_version v0 vs0))
                               (deactivate_all (versions db1)))).
  remember (best_version v0 vs0) as best eqn:Hbest.
  remember (v0 :: vs0) as gen eqn:Hgen.
  intros Hrun. injection Hrun as <- <- <-.
  rewrite Hv, Heq, fmap_app, fmap_app, fmap_cons in Hnd1.
  apply NoDup_app in Hnd1 as (_ & Hdisj & Hnd1).
  apply NoDup_app in Hnd1 as (_ & Hd1 & Hnd2).
  apply NoDup_cons in Hnd2 as [Hb2 _].
  assert (version_id best ∉ version_id <$> l1) as Hb1.
  { intros Hin. apply (Hd1 _ Hin). left. }
  assert (version_id best ∉ version_id <$> versions db) as Hb0.
  { intros Hin. apply (Hdisj _ Hin). apply elem_of_app. right. left. }
  exists l1, best, l2. split.
  - rewrite Heq. by apply set_active_split.
  - split; [done|]. split; [done|].
    unfold active_versions. cbn [versions with_versions].
    rewrite Hv, Heq, app_assoc.
    rewrite (set_active_split (version_id best) (versions db ++ l1) best l2); try done.
    + rewrite filter_app, filter_cons, !filter_active_false.
      by destruct (decide (is_active (with_active true best) = true)).
    + rewrite fmap_app. intros [?|?]%elem_of_app; done.
Qed.

(** ** The answers of the handler *)

Lemma generate_spec `{Random G} (db : Db)
    (creator num_versions max_retries : nat) (g : G) resp db' g' :
  generate db creator num_versions max_retries g = (resp, db', g') →
  match resp with
  | Blocked issues => issues = setup_issues db ∧ issues ≠ [] ∧ db' = db ∧ g' = g
  | GenerationFailed => setup_issues db = [] ∧ num_versions = 0 ∧ db' = db ∧ g' = g
  | Created vs => setup_issues db = [] ∧ num_versions ≠ 0 ∧ length vs = num_versions
  | ServerError _ => setup_issues db = [] ∧ num_versions ≠ 0
  end.
Proof.
  unfold generate. destruct (setup_issues db) as [|issue issues] eqn:Hsetup.
  - destruct (generate_timetable db creator num_versions max_retries g)
      as [[[vs|e] db1] g1] eqn:Hgen.
    + pose proof (generate_timetable_length _ _ _ _ _ _ _ _ Hgen) as Hlen.
      destruct vs as [|v vs].
      * intros [= <- <- <-]. simpl in Hlen. subst num_versions.
        unfold generate_timetable in Hgen. simpl in Hgen. by simplify_eq.
      * intros [= <- <- <-]. split; [done|]. split; [|done]. simpl in Hlen. lia.
    + intros [= <- <- <-]. split; [done|]. intros ->.
      unfold generate_timetable in Hgen. simpl in Hgen. done.
  - by intros [= <- <- <-].
Qed.

(** X11: the handler of [generate], for integers [num_versions] and
    [max_retries] of either sign, answers with the issues exactly when
    the setup has some, and then changes nothing; it answers "Generation
    failed" exactly when the setup has none and [num_versions] is 0 or
    negative, also changing nothing; in every other run that raises
    nothing it answers with [num_versions] versions, also when every
    candidate failed. *)
Theorem generate_answers `{Random G} (db : Db) (creator : nat)
    (num_versions max_retries : Z) (g : G) resp db' g' :
  generate_int db creator num_versions max_retries g = (resp, db', g') →
  match resp with
  | Blocked issues => issues = setup_issues db ∧ issues ≠ [] ∧ db' = db ∧ g' = g
  | GenerationFailed =>
      setup_issues db = [] ∧ (num_versions ≤ 0)%Z ∧ db' = db ∧ g' = g
  | Created vs =>
      setup_issues db = [] ∧ (0 < num_versions)%Z ∧ length vs = Z.to_nat num_versions
  | ServerError _ => setup_issues db = [] ∧ (0 < num_versions)%Z
  end
  ∧ (setup_issues db = [] → (num_versions ≤ 0)%Z → resp = GenerationFailed).
Proof.
  unfold generate_int. intros Hrun. split.
  - apply generate_spec in Hrun. destruct resp.
    + done.
    + destruct Hrun as (? & ? & ? & ?). repeat split; try done. lia.
    + destruct Hrun as (? & ? & ?). repeat split; try done. lia.
    + destruct Hrun as (? & ?). split; [done|]. lia.
  - intros Hsetup Hneg. rewrite Z2Nat.nonpos in Hrun by done.
    unfold generate, generate_timetable in Hrun. rewrite Hsetup in Hrun.
    simpl in Hrun. by simplify_eq.
Qed.

(** ** Dictionaries by id *)

Lemma by_id_lookup_Some {A} (key : A → nat) (rows : list A) k x :
  by_id key rows !! k = Some x → x ∈ rows ∧ key x = k.
Proof.
  unfold by_id. intros Hl.
  apply (foldl_insert_lookup key id) in Hl as [Hl|(s & Hs & Hk & Hv)].
  - by rewrite lookup_empty in Hl.
  - simpl in Hv. by subst.
Qed.

Lemma foldl_insert_is_Some {A K V} `{Countable K} (key : A → K) (val : A → V)
    (l : list A) (m0 : gmap K V) k :
  is_Some (foldl (λ m s, <[key s := val s]> m) m0 l !! k)
  ↔ is_Some (m0 !! k) ∨ k ∈ key <$> l.
Proof.
  revert m0. induction l as [|s l IH]; intros m0.
  - simpl. rewrite elem_of_nil. tauto.
  - cbn [foldl]. rewrite IH, fmap_cons, elem_of_cons.
    destruct (decide (key s = k)) as [<-|Hne].
    + rewrite lookup_insert_eq. split; [intros _; right; by left|intros _; left; by eexists].
    + rewrite lookup_insert_ne by done.
      split; [intros [?|?]; [by left|right; by right]|].
      intros [?|[?|?]]; [by left|done|by right].
Qed.

Lemma by_id_is_Some {A} (key : A → nat) (rows : list A) k :
  is_Some (by_id key rows !! k) ↔ k ∈ key <$> rows.
Proof.
  unfold by_id. rewrite (foldl_insert_is_Some key id), lookup_empty.
  split; [intros [[? ?]|?]; done|by right].
Qed.

Lemma by_id_lookup_NoDup {A} (key : A → nat) (rows : list A) x :
  NoDup (key <$> rows) → x ∈ rows → by_id key rows !! key x = Some x.
Proof.
  intros Hnd Hx. destruct (by_id key rows !! key x) as [y|] eqn:Hy.
  - apply by_id_lookup_Some in Hy as [Hy Hk]. f_equal.
    by eapply (NoDup_fmap_eq key).
  - assert (is_Some (by_id key rows !! key x)) as [? ?]; [|congruence].
    apply by_id_is_Some. by apply list_elem_of_fmap_2.
Qed.

(** ** When the detector raises *)

Lemma detect_step_Ok db d e :
  is_Some (match detect_step db d e with Ok d' => Some d' | Raise _ => None end)
  ↔ resolved db e.
Proof.
  unfold detect_step, resolved. rewrite <- !by_id_is_Some.
  destruct (by_id slot_id _ !! _) as [slot|]; [|split; [by intros [? ?]|by intros [[? ?] _]]].
  destruct (by_id room_id _ !! _) as [room|];
    [|split; [by intros [? ?]|by intros (_ & [? ?] & _)]].
  destruct (by_id class_id _ !! _) as [cls|];
    [|split; [by intros [? ?]|by intros (_ & _ & [? ?] & _)]].
  destruct (by_id teacher_id _ !! _) as [teacher|];
    [|split; [by intros [? ?]|by intros (_ & _ & _ & [? ?])]].
  split; [intros _; by repeat split|intros _; by eexists].
Qed.

Lemma detect_step_Raise db d e x : detect_step db d e = Raise x → x = KeyError.
Proof.
  unfold detect_step.
  destruct (by_id slot_id _ !! _) as [slot|]; [|by intros [= <-]].
  destruct (by_id room_id _ !! _) as [room|]; [|by intros [= <-]].
  destruct (by_id class_id _ !! _) as [cls|]; [|by intros [= <-]].
  destruct (by_id teacher_id _ !! _) as [teacher|]; [|by intros [= <-]].
  done.
Qed.

Lemma detect_loop_result db es d :
  (Forall (resolved db) es ∧ ∃ d', detect_loop db d es = Ok d')
  ∨ (¬ Forall (resolved db) es ∧ detect_loop db d es = Raise KeyError).
Proof.
  revert d. induction es as [|e es IH]; intros d; simpl.
  - left. split; [done|]. by eexists.
  - pose proof (detect_step_Ok db d e) as Hok.
    destruct (detect_step db d e) as [d1|x] eqn:Hstep.
    + assert (resolved db e) as He by (apply Hok; by eexists).
      destruct (IH d1) as [[Hall Hd']|[Hnot Hr]].
      * left. split; [by apply Forall_cons|done].
      * right. split; [|done]. intros [_ ?]%Forall_cons. done.
    + right. split.
      * intros [He _]%Forall_cons. apply Hok in He as [? ?]. done.
      * by rewrite (detect_step_Raise _ _ _ _ Hstep).
Qed.

(** X12: a report is returned only when every entry refers to rows that
    exist (its slot, room, class and teacher): with a dangling
    reference the detector raises instead. *)
Theorem detector_report_needs_references (db : Db) (es : list TimetableEntry)
    (cs : list Conflict) :
  detect_entries db es = Ok cs → Forall (resolved db) es.
Proof.
  unfold detect_entries.
  destruct (detect_loop_result db es detect_init) as [[Hall _]|[_ ->]]; [done|].
  discriminate.
Qed.

(** ** What each kind of record means *)

Lemma kinds_conflict_if b ty msg : kinds (conflict_if b ty msg) = if b then [ty] else [].
Proof. by destruct b. Qed.

Lemma NoDup_snoc {A} (l : list A) x : NoDup (l ++ [x]) ↔ NoDup l ∧ x ∉ l.
Proof.
  rewrite NoDup_app. split.
  - intros (Hl & Hd & _). split; [done|]. intros Hx. apply (Hd x Hx). left.
  - intros [Hl Hx]. split; [done|]. split; [|apply NoDup_singleton].
    intros y Hy ->%list_elem_of_singleton. done.
Qed.

Lemma day_load_snoc db pre e e' :
  day_load db (pre ++ [e]) e'
  = day_load db pre e' + (if decide (teacher_day db e = teacher_day db e') then 1 else 0).
Proof.
  unfold day_load. rewrite filter_app, length_app. f_equal.
  rewrite filter_cons, filter_nil. by destruct (decide _).
Qed.

Lemma clash_step {K} `{Countable K} (key : TimetableEntry → K) (seen : gset K)
    (old new : list string) ty pre e :
  seen = list_to_set (key <$> pre) →
  (ty ∈ old ↔ ¬ NoDup (key <$> pre)) →
  (ty ∈ new ↔ key e ∈ seen) →
  (ty ∈ old ++ new ↔ ¬ NoDup (key <$> (pre ++ [e]))).
Proof.
  intros -> Hold Hnew. rewrite elem_of_app, Hold, Hnew, elem_of_list_to_set.
  rewrite fmap_app. change (key <$> [e]) with [key e]. rewrite NoDup_snoc.
  destruct (decide (NoDup (key <$> pre))); destruct (decide (key e ∈ key <$> pre)); tauto.
Qed.

Lemma list_to_set_snoc {K} `{Countable K} (l : list K) (x : K) :
  (list_to_set (l ++ [x]) : gset K) = list_to_set l ∪ {[x]}.
Proof. rewrite list_to_set_app_L. simpl. by rewrite (right_id_L ∅ (∪)). Qed.

Lemma list_to_set_fmap_snoc {A K} `{Countable K} (f : A → K) (l : list A) (x : A) :
  (list_to_set (f <$> l ++ [x]) : gset K) = list_to_set (f <$> l) ∪ {[f x]}.
Proof. rewrite fmap_app. apply list_to_set_snoc. Qed.

Lemma new_kinds (b1 b2 b3 b4 b5 b6 : bool) :
  let new := (if b1 then ["teacher_clash"] else [])
             ++ (if b2 then ["room_clash"] else [])
             ++ (if b3 then ["class_clash"] else [])
             ++ (if b4 then ["subject_repeat"] else [])
             ++ (if b5 then ["room_capacity_mismatch"] else [])
             ++ (if b6 then ["teacher_overload"] else []) in
  ("teacher_clash" ∈ new ↔ b1 = true) ∧ ("room_clash" ∈ new ↔ b2 = true)
  ∧ ("class_clash" ∈ new ↔ b3 = true) ∧ ("subject_repeat" ∈ new ↔ b4 = true)
  ∧ ("room_capacity_mismatch" ∈ new ↔ b5 = true)
  ∧ ("teacher_overload" ∈ new ↔ b6 = true).
Proof.
  destruct b1, b2, b3, b4, b5, b6; simpl;
    repeat split; intros Hx; try done;
    repeat (apply elem_of_cons in Hx as [Hx|Hx]; [discriminate Hx|]);
    try (by apply elem_of_nil in Hx);
    repeat (first [by left | right]).
Qed.

Lemma day_load_same db l e e' :
  teacher_day db e = teacher_day db e' → day_load db l e = day_load db l e'.
Proof. unfold day_load. by intros ->. Qed.

Lemma detect_step_inv db d e d' pre :
  detect_step db d e = Ok d' →
  detect_inv db d pre → detect_inv db d' (pre ++ [e]).
Proof.
  unfold detect_step.
  destruct (by_id slot_id _ !! _) as [slot|] eqn:Hslot; [|done].
  destruct (by_id room_id _ !! _) as [room|] eqn:Hroom; [|done].
  destruct (by_id class_id _ !! _) as [cls|] eqn:Hcls; [|done].
  destruct (by_id teacher_id _ !! _) as [teacher|] eqn:Hteacher; [|done].
  intros [= <-] (Hst & Hsr & Hsc & Hds & Hcount & Htc & Hrc & Hcc & Hrep & Hcap & Hov).
  assert ((e_class_id e, day_of_week slot, e_subject_id e) = day_key_of db e) as Hdk
    by (unfold day_key_of, entry_day; by rewrite Hslot).
  assert ((e_teacher_id e, day_of_week slot) = teacher_day db e) as Htd
    by (unfold teacher_day, entry_day; by rewrite Hslot).
  rewrite Hdk, Htd. clear Hdk Htd.
  change (e_teacher_id e, e_time_slot_id e) with (key_teacher e).
  change (e_room_id e, e_time_slot_id e) with (key_room e).
  change (e_class_id e, e_time_slot_id e) with (key_class e).
  unfold detect_inv. cbn [seen_teacher seen_room seen_class daily_subject
                          teacher_daily_count d_conflicts].
  split; [by rewrite Hst, list_to_set_fmap_snoc|].
  split; [by rewrite Hsr, list_to_set_fmap_snoc|].
  split; [by rewrite Hsc, list_to_set_fmap_snoc|].
  split; [by rewrite Hds, list_to_set_fmap_snoc|].
  unfold kinds in *. rewrite !(fmap_app c_type).
  repeat match goal with |- context [c_type <$> conflict_if ?b ?ty ?msg] =>
    change (c_type <$> conflict_if b ty msg) with (kinds (conflict_if b ty msg)) end.
  rewrite !kinds_conflict_if.
  match goal with |- context [(if ?b1 then ["teacher_clash"] else []) ++
      (if ?b2 then _ else []) ++ (if ?b3 then _ else []) ++ (if ?b4 then _ else []) ++
      (if ?b5 then _ else []) ++ (if ?b6 then _ else [])] =>
    destruct (new_kinds b1 b2 b3 b4 b5 b6) as (N1 & N2 & N3 & N4 & N5 & N6) end.
  rewrite (Hcount e) in *.
  split.
  { intros e'. rewrite day_load_snoc.
    destruct (decide (teacher_day db e = teacher_day db e')) as [Heq|Hne].
    - rewrite <- Heq, lookup_insert_eq. simpl.
      rewrite (day_load_same db pre e e' Heq). lia.
    - rewrite lookup_insert_ne by done. rewrite (Hcount e'). lia. }
  split; [apply (clash_step key_teacher (seen_teacher d)); [done|done|];
          by rewrite N1, bool_decide_eq_true|].
  split; [apply (clash_step key_room (seen_room d)); [done|done|];
          by rewrite N2, bool_decide_eq_true|].
  split; [apply (clash_step key_class (seen_class d)); [done|done|];
          by rewrite N3, bool_decide_eq_true|].
  split; [apply (clash_step (day_key_of db) (daily_subject d)); [done|done|];
          by rewrite N4, bool_decide_eq_true|].
  split.
  - rewrite elem_of_app, Hcap, N5, bool_decide_eq_true. split.
    + intros [(e' & r' & c' & He' & ?)|Hlt].
      * exists e', r', c'. split; [apply elem_of_app; by left|done].
      * exists e, room, cls. split; [apply elem_of_app; right; left|done].
    + intros (e' & r' & c' & [He'|He']%elem_of_app & Hr' & Hc' & Hlt).
      * left. by exists e', r', c'.
      * apply list_elem_of_singleton in He' as ->. right. by simplify_eq.
  - rewrite elem_of_app, Hov, N6, bool_decide_eq_true. split.
    + intros [(e' & t' & He' & Ht' & Hlt)|Hlt].
      * exists e', t'. split; [apply elem_of_app; by left|]. split; [done|].
        rewrite day_load_snoc. lia.
      * exists e, teacher. split; [apply elem_of_app; right; left|]. split; [done|].
        rewrite day_load_snoc, decide_True by done. lia.
    + intros (e' & t' & He' & Ht' & Hlt). rewrite day_load_snoc in Hlt.
      destruct (decide (teacher_day db e = teacher_day db e')) as [Heq|Hne].
      * right. rewrite (day_load_same db pre e e' Heq).
        assert (t' = teacher) as ->; [|lia].
        injection Heq as Hid _. rewrite <- Hid in Ht'. congruence.
      * left. exists e', t'. split; [|split; [done|lia]].
        apply elem_of_app in He' as [?|He']; [done|].
        apply list_elem_of_singleton in He' as ->. done.
Qed.

Lemma detect_loop_inv db es d d' pre :
  detect_loop db d es = Ok d' →
  detect_inv db d pre → detect_inv db d' (pre ++ es).
Proof.
  revert d pre. induction es as [|e es IH]; intros d pre; simpl.
  - intros [= <-]. by rewrite app_nil_r.
  - destruct (detect_step db d e) as [d1|] eqn:Hstep; [|done].
    intros Hloop Hinv. rewrite (cons_middle e pre es), app_assoc.
    eapply IH; [exact Hloop|]. by eapply detect_step_inv.
Qed.

Lemma detect_init_inv db : detect_inv db detect_init [].
Proof.
  unfold detect_inv, detect_init, kinds. simpl.
  repeat split; try done; try (by intros ?%elem_of_nil);
    try (intros Hnd; exfalso; apply Hnd; apply NoDup_nil_2).
  - by intros (e & ? & ? & ?%elem_of_nil & _).
  - by intros (e & ? & ?%elem_of_nil & _).
Qed.

(** X13: a report of the detector has a [teacher_clash] exactly when two
    entries share teacher and slot, a [room_clash] when two share room and
    slot, a [class_clash] when two share class and slot, and a
    [subject_repeat] when two share class, subject and the day of their
    slots. *)
Theorem detector_clash_kinds (db : Db) (es : list TimetableEntry) (cs : list Conflict) :
  detect_entries db es = Ok cs →
  ("teacher_clash" ∈ kinds cs ↔ ¬ NoDup (key_teacher <$> es))
  ∧ ("room_clash" ∈ kinds cs ↔ ¬ NoDup (key_room <$> es))
  ∧ ("class_clash" ∈ kinds cs ↔ ¬ NoDup (key_class <$> es))
  ∧ ("subject_repeat" ∈ kinds cs ↔ ¬ NoDup (day_key_of db <$> es)).
Proof.
  unfold detect_entries. destruct (detect_loop db detect_init es) as [d|] eqn:Hloop; [|done].
  intros [= <-].
  destruct (detect_loop_inv _ _ _ _ [] Hloop (detect_init_inv db))
    as (_ & _ & _ & _ & _ & ? & ? & ? & ? & _). done.
Qed.

(** X14: a report of the detector has a [room_capacity_mismatch] exactly when
    the room of some entry is smaller than its class, and a
    [teacher_overload] exactly when some teacher has more entries on one
    day than [max_lectures_per_day]. *)
Theorem detector_capacity_and_overload (db : Db) (es : list TimetableEntry)
    (cs : list Conflict) :
  detect_entries db es = Ok cs →
  ("room_capacity_mismatch" ∈ kinds cs
   ↔ ∃ e room cls, e ∈ es
       ∧ by_id room_id (rooms db) !! e_room_id e = Some room
       ∧ by_id class_id (classes db) !! e_class_id e = Some cls
       ∧ capacity room < student_strength cls)
  ∧ ("teacher_overload" ∈ kinds cs
     ↔ ∃ e teacher, e ∈ es
         ∧ by_id teacher_id (teachers db) !! e_teacher_id e = Some teacher
         ∧ max_lectures_per_day teacher < day_load db es e).
Proof.
  unfold detect_entries. destruct (detect_loop db detect_init es) as [d|] eqn:Hloop; [|done].
  intros [= <-].
  destruct (detect_loop_inv _ _ _ _ [] Hloop (detect_init_inv db))
    as (_ & _ & _ & _ & _ & _ & _ & _ & _ & ? & ?). done.
Qed.

(** ** What the detector does not read *)

Lemma by_id_fmap {A} (key : A → nat) (f : A → A) (rows : list A) :
  (∀ x, key (f x) = key x) →
  by_id key (f <$> rows) = f <$> by_id key rows.
Proof.
  intros Hkey. unfold by_id.
  assert (∀ m0 : gmap nat A,
            foldl (λ m row, <[key row := row]> m) (f <$> m0) (f <$> rows)
            = f <$> foldl (λ m row, <[key row := row]> m) m0 rows) as Hgen.
  { induction rows as [|x rows IH]; intros m0; [done|].
    simpl. rewrite <- IH, fmap_insert, Hkey. done. }
  rewrite <- (Hgen ∅). by rewrite fmap_empty.
Qed.

Lemma detect_step_ignores db rows f d e :
  detect_step (with_availability (with_breaks f db) rows) d e = detect_step db d e.
Proof.
  unfold detect_step. cbn [time_slots rooms classes teachers with_availability with_breaks].
  rewrite (by_id_fmap slot_id (with_break f)) by done.
  rewrite lookup_fmap.
  by destruct (by_id slot_id (time_slots db) !! e_time_slot_id e) as [slot|].
Qed.

Lemma detect_loop_ignores db rows f es : ∀ d,
  detect_loop (with_availability (with_breaks f db) rows) d es = detect_loop db d es.
Proof.
  induction es as [|e es IH]; intros d; [done|].
  simpl. rewrite detect_step_ignores.
  destruct (detect_step db d e) as [d'|x]; [apply IH|done].
Qed.

(** X30: the detector reads neither the availability table nor the break
    flag of a slot: with any other availability rows and any other
    break flags it returns the same report, or raises the same
    exception, on a list of entries and on a stored version. *)
Theorem detector_ignores_availability_and_breaks (db : Db)
    (rows : list TeacherAvailability) (f : TimeSlot → bool)
    (es : list TimetableEntry) (v_id : nat) :
  detect_entries (with_availability (with_breaks f db) rows) es = detect_entries db es
  ∧ detect_conflicts (with_availability (with_breaks f db) rows) v_id
    = detect_conflicts db v_id.
Proof.
  assert (∀ es', detect_entries (with_availability (with_breaks f db) rows) es'
                 = detect_entries db es') as Hes.
  { intros es'. unfold detect_entries. by rewrite detect_loop_ignores. }
  split; [apply Hes|]. unfold detect_conflicts. rewrite Hes. done.
Qed.

(** ** The score *)

Lemma morning_penalties_nonneg db es pen :
  morning_penalties db es = Ok pen → (0 ≤ pen)%Z.
Proof.
  revert pen. induction es as [|e es IH]; intros pen; simpl.
  - intros [= <-]. lia.
  - unfold morning_penalty.
    destruct (by_id subject_id _ !! _) as [sub|]; [|done].
    destruct (by_id slot_id _ !! _) as [slot|]; [|done].
    destruct (morning_penalties db es) as [q|]; [|done].
    intros [= <-]. specialize (IH q eq_refl).
    destruct (priority_morning sub && bool_decide (2 < slot_order slot)); lia.
Qed.

(** X15: the score the scorer gives is between 0 and 100.0, and at most 90.0
    as soon as the detector reports one violation. *)
Theorem score_bounds (db : Db) (es : list TimetableEntry) (sc : Z) :
  score_entries db es = Ok sc →
  (0 ≤ sc ≤ 10000)%Z
  ∧ ∀ cs, detect_entries db es = Ok cs → cs ≠ [] → (sc ≤ 9000)%Z.
Proof.
  unfold score_entries.
  destruct (morning_penalties db es) as [pen|] eqn:Hpen; [|done].
  apply morning_penalties_nonneg in Hpen.
  destruct (detect_entries db es) as [cs|]; [|done].
  intros [= <-]. split; [lia|].
  intros cs' [= <-] Hne. destruct cs as [|c cs]; [done|]. simpl length. lia.
Qed.

(** ** The generator's candidates under the detector *)

Lemma persist_entries_of_block sm v ebs es eb p :
  persist_entries sm v ebs = Ok es → eb ∈ ebs → b_item (eb_block eb) = Some p →
  ∀ s_idx, s_idx ∈ b_slots (eb_block eb) →
    ∃ ts, sm !! (eb_day eb, s_idx) = Some ts ∧ entry_of_block v eb p ts ∈ es.
Proof.
  revert es. induction ebs as [|eb0 ebs IH]; intros es Hes Hin Hp s_idx Hs; simpl in Hes.
  - by apply elem_of_nil in Hin.
  - destruct (block_entries _ _ _ _) as [es1|] eqn:H1; [|done].
    destruct (persist_entries _ _ _) as [es2|] eqn:H2; [|done].
    simplify_eq. apply elem_of_cons in Hin as [<-|Hin].
    + apply block_entries_eq in H1 as [Hsome H1]. rewrite Hp in H1. subst es1.
      destruct (Hsome s_idx Hs) as [ts Hts]. exists ts. split; [done|].
      apply elem_of_app. left. apply list_elem_of_fmap. exists s_idx. by rewrite Hts.
    + destruct (IH es2 eq_refl Hin Hp s_idx Hs) as (ts & ? & ?).
      exists ts. split; [done|]. apply elem_of_app. by right.
Qed.

Lemma placed_all_skeleton db items ebs ebs' :
  placed_all db items ebs ebs' → skeleton <$> ebs' = skeleton <$> ebs.
Proof.
  induction 1 as [|item items ebs ebs' i eb teacher r Hi ? ? ? ? ? ? IH]; [done|].
  rewrite IH, list_fmap_insert. apply list_insert_id.
  rewrite list_lookup_fmap, Hi. done.
Qed.

Lemma NoDup_fmap_eq' {A B} (f : A → B) (l : list A) x y :
  NoDup (f <$> l) → x ∈ l → y ∈ l → f x = f y → x = y.
Proof.
  induction l as [|z l IH]; [by intros _ ?%elem_of_nil|].
  rewrite fmap_cons, NoDup_cons. intros [Hz Hnd] Hx Hy Hf.
  apply elem_of_cons in Hx as [->|Hx]; apply elem_of_cons in Hy as [->|Hy]; try done.
  - exfalso. apply Hz. rewrite Hf. by apply list_elem_of_fmap_2.
  - exfalso. apply Hz. rewrite <- Hf. by apply list_elem_of_fmap_2.
  - by apply IH.
Qed.

Section report.
Context `{Random G}.

Lemma first_lab_block (cls : list ClassGroup) (g : G) :
  cls ≠ [] →
  ∃ c d, (c, d, [1; 2]) ∈ skeleton <$> (build_grids cls g).1.
Proof.
  destruct cls as [|c cls]; [done|]. intros _. simpl.
  pose proof (shuffle_perm _ days_order g) as Hperm.
  destruct (shuffle days_order g) as [days g1]. simpl in Hperm.
  destruct (build_grids cls g1) as [rest g2]. simpl.
  apply Permutation_length in Hperm.
  destruct days as [|d days]; [done|]. exists (class_id c), d.
  rewrite fmap_app. apply elem_of_app. left.
  unfold class_blocks. rewrite imap_cons. simpl. left.
Qed.

Lemma version_entries_fresh (db db' : Db) (v_id : nat) (es : list TimetableEntry) :
  timetable db' = timetable db ++ es →
  (∀ e, e ∈ timetable db → e_version_id e ≠ v_id) →
  (∀ e, e ∈ es → e_version_id e = v_id) →
  version_entries db' v_id = es.
Proof.
  intros Htt Hold Hnew. unfold version_entries. rewrite Htt, filter_app.
  rewrite filter_none, filter_all; [done| |]; apply Forall_forall; done.
Qed.

Lemma lab_pair_repeats (db db' : Db) (g : G) st g' es :
  NoDup (slot_id <$> time_slots db) →
  time_slots db' = time_slots db →
  classes db ≠ [] →
  search db g = (true, st, g') →
  persist_entries (slot_map db) (next_version_id db) (empty_blocks st) = Ok es →
  ¬ NoDup (day_key_of db' <$> es).
Proof.
  intros Hnds Hslots Hcls Hsearch Hes Hnd.
  apply search_placed in Hsearch as (g1 & g2 & Hpl & -> & _).
  destruct (first_lab_block (classes db) (class_items db g).2 Hcls) as (c & d & Hsk).
  rewrite <- (placed_all_skeleton _ _ _ _ Hpl) in Hsk.
  apply list_elem_of_fmap in Hsk as (eb & Hskel & Heb).
  unfold skeleton in Hskel. injection Hskel as Hc Hd Hsl.
  assert (is_Some (b_item (eb_block eb))) as [p Hp].
  { destruct (b_item (eb_block eb)) as [p|] eqn:Hp; [by eexists|].
    destruct (persist_entries_raises (slot_map db) (next_version_id db) _ eb Heb Hp)
      as [x Hx]; [by rewrite <- Hsl|congruence]. }
  destruct (persist_entries_of_block _ _ _ _ _ _ Hes Heb Hp 1) as (t1 & Ht1 & He1);
    [rewrite <- Hsl; left|].
  destruct (persist_entries_of_block _ _ _ _ _ _ Hes Heb Hp 2) as (t2 & Ht2 & He2);
    [rewrite <- Hsl; right; left|].
  assert (t1 ≠ t2) as Hne.
  { intros ->. by pose proof (slot_map_inj db _ _ _ Hnds Ht1 Ht2). }
  assert (∀ o t, slot_map db !! (eb_day eb, o) = Some t →
            ∀ e, e_time_slot_id e = t → entry_day db' e = eb_day eb) as Hday.
  { intros o t Ht e He. unfold entry_day. rewrite Hslots.
    apply slot_map_lookup in Ht as (s & Hs & _ & Hds & _ & Hid).
    rewrite He, <- Hid, (by_id_lookup_NoDup slot_id _ s Hnds Hs). done. }
  apply Hne.
  assert (entry_of_block (next_version_id db) eb p t1
          = entry_of_block (next_version_id db) eb p t2) as Heq; [|by injection Heq].
  apply (NoDup_fmap_eq' (day_key_of db') es _ _ Hnd He1 He2).
  unfold day_key_of. simpl.
  by rewrite (Hday 1 t1 Ht1 (entry_of_block _ eb p t1) eq_refl),
    (Hday 2 t2 Ht2 (entry_of_block _ eb p t2) eq_refl).
Qed.

(** X16: a successful candidate the generator persisted, seen by the detector:
    the report has no [teacher_clash], no [room_clash] and no
    [class_clash], but it always has a [subject_repeat], for the two
    entries of a lab, so that the scorer gives the version at most 90.0
    where the generator stored 100.0. *)
Theorem persisted_candidate_report (db : Db) (creator index : nat) (g : G) db' v g' :
  NoDup (slot_id <$> time_slots db) →
  NoDup (class_id <$> classes db) →
  (∀ e, e ∈ timetable db → e_version_id e ∈ version_id <$> versions db) →
  classes db ≠ [] →
  generate_candidate db creator index g = (Ok (db', v), g') →
  score v = 10000%Z →
  (∀ cs, detect_conflicts db' (version_id v) = Ok cs →
     ("teacher_clash" ∉ kinds cs) ∧ ("room_clash" ∉ kinds cs)
     ∧ ("class_clash" ∉ kinds cs) ∧ "subject_repeat" ∈ kinds cs)
  ∧ ∀ sc, _score_schedule db' (version_id v) = Ok sc → (sc ≤ 9000)%Z.
Proof.
  intros Hnds Hndc Hfk Hcls Hgen Hscore.
  pose proof Hgen as Hgen'.
  apply generate_candidate_appends in Hgen' as (Hsame & _ & Hvid & _ & _ & (es0 & Hes0) & _).
  apply generate_candidate_inv in Hgen as (ok & st & Hsearch & _ & Hok).
  destruct ok; [|destruct Hok as [_ Hz]; rewrite Hz in Hscore; done].
  destruct Hok as (es & Hes & Hnew & _).
  destruct (persisted_keys_NoDup db g st g' _ es Hnds Hsearch Hes) as [HT HR].
  pose proof (persisted_places_NoDup db g st g' _ es Hnds Hndc Hsearch Hes) as HC.
  assert (time_slots db' = time_slots db) as Hslots.
  { by destruct Hsame as (_ & _ & _ & _ & _ & <- & _). }
  pose proof (lab_pair_repeats db db' g st g' es Hnds Hslots Hcls Hsearch Hes) as Hrep.
  assert (version_entries db' (version_id v) = es) as Hve.
  { unfold new_entries in Hnew. rewrite Hes0, drop_app_length in Hnew. subst es0.
    apply (version_entries_fresh db); [done| |].
    - intros e He Heq. specialize (Hfk e He).
      rewrite Heq, Hvid in Hfk. by apply next_version_id_fresh in Hfk.
    - intros e He. rewrite Hvid.
      by destruct (persist_entries_block _ _ _ _ _ Hes He) as (? & ? & ? & _ & _ & -> & _). }
  assert (∀ cs, detect_entries db' es = Ok cs →
            ("teacher_clash" ∉ kinds cs) ∧ ("room_clash" ∉ kinds cs)
            ∧ ("class_clash" ∉ kinds cs) ∧ "subject_repeat" ∈ kinds cs) as Hreport.
  { intros cs. unfold detect_entries.
    destruct (detect_loop db' detect_init es) as [d|] eqn:Hloop; [|done].
    intros [= <-].
    destruct (detect_loop_inv _ _ _ _ [] Hloop (detect_init_inv db'))
      as (_ & _ & _ & _ & _ & Ktc & Krc & Kcc & Krep & _).
    simpl in Ktc, Krc, Kcc, Krep.
    split; [rewrite Ktc; tauto|]. split; [rewrite Krc; tauto|].
    split; [rewrite Kcc; tauto|]. by apply Krep. }
  split.
  - intros cs Hcs. unfold detect_conflicts in Hcs. rewrite Hve in Hcs. by apply Hreport.
  - intros sc. unfold _score_schedule, score_entries. rewrite Hve.
    destruct (morning_penalties db' es) as [pen|] eqn:Hpen; [|done].
    apply morning_penalties_nonneg in Hpen.
    destruct (detect_entries db' es) as [cs|] eqn:Hcs; [|done].
    destruct (Hreport cs eq_refl) as (_ & _ & _ & Hin).
    intros [= <-]. destruct cs as [|c cs]; [by apply elem_of_nil in Hin|].
    simpl length. lia.
Qed.
End report.

(** ** The run and detector theorems at concrete inputs *)

Lemma week_run :
  generate_timetable_int week_db 1 1 80 0
  = (Ok [with_active true (new_version 1 0 1 10000)],
     stored (generate_timetable_int week_db 1 1 80 0),
     (generate_timetable_int week_db 1 1 80 0).2).
Proof. vm_compute. reflexivity. Defined.

Lemma generate_timetable_appends_witness :
  returned (generate_timetable_int week_db 1 1 80 0)
  = Ok [with_active true (new_version 1 0 1 10000)]
  ∧ length [with_active true (new_version 1 0 1 10000)] = Z.to_nat 1
  ∧ same_entities week_db (stored (generate_timetable_int week_db 1 1 80 0)).
Proof.
  split; [vm_compute; reflexivity|].
  pose proof (generate_timetable_appends week_db 1 1 80 0 _ _ _ week_run) as Happ.
  split; [exact (proj1 Happ)|].
  exact (proj2 (proj2 (proj2 (proj2 (proj2 (proj2 Happ)))))).
Defined.

(** Two candidates on a table that already has an active version. *)
Lemma absence_run :
  generate_timetable absence_db 1 2 80 0
  = (Ok [with_active true (new_version 2 0 1 10000);
         with_active false (new_version 3 1 1 10000)],
     stored (generate_timetable absence_db 1 2 80 0),
     (generate_timetable absence_db 1 2 80 0).2).
Proof. vm_compute. reflexivity. Defined.

Lemma generated_best_is_active_witness :
  NoDup (version_id <$> versions absence_db)
  ∧ active_versions absence_db = [with_active true (new_version 1 0 1 10000)]
  ∧ (version_id <$> versions (stored (generate_timetable absence_db 1 2 80 0)) = [1; 2; 3])
  ∧ ∃ l1 best l2,
      [with_active true (new_version 2 0 1 10000);
       with_active false (new_version 3 1 1 10000)]
      = (with_active false <$> l1) ++ with_active true best :: (with_active false <$> l2)
      ∧ (∀ v, v ∈ l1 → (score v < score best)%Z)
      ∧ (∀ v, v ∈ l2 → (score v ≤ score best)%Z)
      ∧ active_versions (stored (generate_timetable absence_db 1 2 80 0))
        = [with_active true best].
Proof.
  assert (NoDup (version_id <$> versions absence_db)) as Hnd
    by (apply (bool_decide_unpack _); vm_compute; reflexivity).
  assert (2 ≠ 0) as Hn by discriminate.
  split; [exact Hnd|]. split; [vm_compute; reflexivity|].
  split; [vm_compute; reflexivity|].
  exact (generated_best_is_active absence_db 1 2 80 0 _ _ _ Hnd Hn absence_run).
Defined.

Lemma week_request :
  generate_int week_db 1 1 80 0
  = (Created [with_active true (new_version 1 0 1 10000)],
     stored (generate_int week_db 1 1 80 0), (generate_int week_db 1 1 80 0).2).
Proof. vm_compute. reflexivity. Defined.

Lemma generate_answers_witness :
  returned (generate_int week_db 1 1 80 0)
  = Created [with_active true (new_version 1 0 1 10000)]
  ∧ setup_issues week_db = [] ∧ (0 < 1)%Z
  ∧ length [with_active true (new_version 1 0 1 10000)] = Z.to_nat 1.
Proof.
  split; [vm_compute; reflexivity|].
  exact (proj1 (generate_answers week_db 1 1 80 0 _ _ _ week_request)).
Defined.

Lemma single_report : detect_entries absent_db [entry_at 1 1] = Ok [].
Proof. vm_compute. reflexivity. Defined.

Lemma detector_report_needs_references_witness :
  detect_entries absent_db [entry_at 1 1] = Ok []
  ∧ Forall (resolved absent_db) [entry_at 1 1].
Proof.
  split; [exact single_report|].
  exact (detector_report_needs_references absent_db _ _ single_report).
Defined.

Lemma clash_report :
  detect_entries absent_db [entry_at 1 1; entry_at 1 1]
  = Ok [ {| c_type := "teacher_clash"; c_message := "Teacher clash at slot 1" |};
         {| c_type := "room_clash"; c_message := "Room clash at slot 1" |};
         {| c_type := "class_clash"; c_message := "Class clash at slot 1" |};
         {| c_type := "subject_repeat"; c_message := "Subject repetition for class 1" |} ].
Proof. vm_compute. reflexivity. Defined.

Lemma detector_clash_kinds_witness :
  detect_entries absent_db [entry_at 1 1; entry_at 1 1]
  = Ok [ {| c_type := "teacher_clash"; c_message := "Teacher clash at slot 1" |};
         {| c_type := "room_clash"; c_message := "Room clash at slot 1" |};
         {| c_type := "class_clash"; c_message := "Class clash at slot 1" |};
         {| c_type := "subject_repeat"; c_message := "Subject repetition for class 1" |} ]
  ∧ ((NoDup (key_teacher <$> [entry_at 1 1; entry_at 1 1]) → False)
     ∧ (NoDup (key_room <$> [entry_at 1 1; entry_at 1 1]) → False)).
Proof.
  split; [exact clash_report|].
  destruct (detector_clash_kinds absent_db _ _ clash_report) as (HT & HR & _).
  split.
  - apply HT. left.
  - apply HR. right. left.
Defined.

Lemma capacity_report :
  detect_entries small_room_db [entry_at 1 1]
  = Ok [ {| c_type := "room_capacity_mismatch";
            c_message := "Room 1 capacity is less than class 1 strength" |} ].
Proof. vm_compute. reflexivity. Defined.

Lemma detector_capacity_and_overload_witness :
  detect_entries small_room_db [entry_at 1 1]
  = Ok [ {| c_type := "room_capacity_mismatch";
            c_message := "Room 1 capacity is less than class 1 strength" |} ]
  ∧ ∃ e room cls, e ∈ [entry_at 1 1]
      ∧ by_id room_id (rooms small_room_db) !! e_room_id e = Some room
      ∧ by_id class_id (classes small_room_db) !! e_class_id e = Some cls
      ∧ capacity room < student_strength cls.
Proof.
  split; [exact capacity_report|].
  apply (proj1 (detector_capacity_and_overload small_room_db _ _ capacity_report)).
  left.
Defined.

Lemma score_bounds_witness :
  score_entries week_db [entry_at 1 3] = Ok 9960%Z ∧ (0 ≤ 9960 ≤ 10000)%Z.
Proof.
  assert (score_entries week_db [entry_at 1 3] = Ok 9960%Z) as Hs by (vm_compute; reflexivity).
  split; [exact Hs|].
  exact (proj1 (score_bounds week_db _ _ Hs)).
Defined.

Lemma week_score : _score_schedule (candidate week_db 1 0 0).1 1 = Ok 1800%Z.
Proof. vm_compute. reflexivity. Defined.

Lemma persisted_candidate_report_witness :
  NoDup (class_id <$> classes week_db)
  ∧ score (candidate week_db 1 0 0).2 = 10000%Z
  ∧ _score_schedule (candidate week_db 1 0 0).1 1 = Ok 1800%Z
  ∧ (1800 ≤ 9000)%Z.
Proof.
  assert (NoDup (class_id <$> classes week_db)) as Hc
    by (apply (bool_decide_unpack _); vm_compute; reflexivity).
  assert (∀ e, e ∈ timetable week_db → e_version_id e ∈ version_id <$> versions week_db)
    as Hfk by (intros e He; apply elem_of_nil in He; destruct He).
  assert (classes week_db ≠ []) as Hne by discriminate.
  assert (score (candidate week_db 1 0 0).2 = 10000%Z) as Hs by (vm_compute; reflexivity).
  split; [exact Hc|]. split; [exact Hs|]. split; [exact week_score|].
  exact (proj2 (persisted_candidate_report week_db 1 0 0 _ _ _
                  week_slots_NoDup Hc Hfk Hne week_candidate Hs) _ week_score).
Defined.

(** ** The validation of a move *)

Lemma head_None {A} (l : list A) : head l = None ↔ l = [].
Proof. by destruct l. Qed.

Lemma query_get_Some {A} (key : A → nat) (table : list A) (id : nat) (x : A) :
  query_get key table id = Some x → x ∈ table ∧ key x = id.
Proof.
  unfold query_get. intros Hx. apply head_Some_elem_of in Hx.
  by apply list_elem_of_filter in Hx as [? ?].
Qed.

Lemma query_get_None {A} (key : A → nat) (table : list A) (id : nat) :
  query_get key table id = None ↔ id ∉ key <$> table.
Proof.
  unfold query_get. rewrite head_None. split.
  - intros Hnil (x & -> & Hx)%list_elem_of_fmap.
    assert (x ∈ filter (λ row, key row = key x) table) as Hin
      by (by apply list_elem_of_filter).
    rewrite Hnil in Hin. by apply elem_of_nil in Hin.
  - intros Hnot. destruct (filter _ table) as [|x l] eqn:Hf; [done|].
    exfalso. apply Hnot.
    assert (x ∈ filter (λ row, key row = id) table) as Hin by (rewrite Hf; left).
    apply list_elem_of_filter in Hin as [<- Hin]. by apply list_elem_of_fmap_2.
Qed.

Lemma query_get_NoDup {A} (key : A → nat) (table : list A) (x : A) :
  NoDup (key <$> table) → x ∈ table → query_get key table (key x) = Some x.
Proof.
  unfold query_get. induction table as [|y l IH]; [by intros _ ?%elem_of_nil|].
  rewrite fmap_cons, NoDup_cons. intros [Hy Hnd] Hx. rewrite filter_cons.
  apply elem_of_cons in Hx as [->|Hx].
  - by rewrite decide_True.
  - rewrite decide_False; [by apply IH|].
    intros Heq. apply Hy. rewrite Heq. by apply list_elem_of_fmap_2.
Qed.

Lemma same_slot_issue_None e_id c_id t_id r_id entries :
  same_slot_issue e_id c_id t_id r_id entries = None
  ↔ ∀ row, row ∈ entries → row_id row ≠ e_id →
      e_teacher_id (row_entry row) ≠ t_id
      ∧ e_room_id (row_entry row) ≠ r_id
      ∧ e_class_id (row_entry row) ≠ c_id.
Proof.
  induction entries as [|row rest IH]; simpl.
  - split; [|done]. by intros _ row ?%elem_of_nil.
  - destruct (decide (row_id row = e_id)) as [Hid|Hid].
    { rewrite IH. split.
      - intros Hrest x [->|Hx]%elem_of_cons; [done|by apply Hrest].
      - intros Hall x Hx. apply Hall. by right. }
    destruct (decide (e_teacher_id (row_entry row) = t_id)) as [Ht|Ht].
    { split; [done|]. intros Hall. by destruct (Hall row (list_elem_of_here _ _) Hid). }
    destruct (decide (e_room_id (row_entry row) = r_id)) as [Hr|Hr].
    { split; [done|]. intros Hall.
      by destruct (Hall row (list_elem_of_here _ _) Hid) as (_ & ? & _). }
    destruct (decide (e_class_id (row_entry row) = c_id)) as [Hc|Hc].
    { split; [done|]. intros Hall.
      by destruct (Hall row (list_elem_of_here _ _) Hid) as (_ & _ & ?). }
    rewrite IH. split.
    + intros Hrest x [->|Hx]%elem_of_cons; [done|by apply Hrest].
    + intros Hall x Hx. apply Hall. by right.
Qed.

Lemma same_slot_clear rows v_id e_id c_id t_id r_id s_id :
  same_slot_issue e_id c_id t_id r_id (same_slot_entries rows v_id s_id) = None
  ↔ ∀ row, row ∈ others rows v_id e_id → e_time_slot_id (row_entry row) = s_id →
      e_teacher_id (row_entry row) ≠ t_id
      ∧ e_room_id (row_entry row) ≠ r_id
      ∧ e_class_id (row_entry row) ≠ c_id.
Proof.
  rewrite same_slot_issue_None. unfold same_slot_entries, others. split.
  - intros Hall row [[Hv Hid] Hrow]%list_elem_of_filter Hs.
    apply Hall; [|done]. by apply list_elem_of_filter.
  - intros Hall row [[Hv Hs] Hrow]%list_elem_of_filter Hid.
    apply Hall; [|done]. by apply list_elem_of_filter.
Qed.

Lemma subject_day_dup_None db rows v_id e_id c_id sub_id day :
  subject_day_dup db rows v_id e_id c_id sub_id day = None
  ↔ ∀ row s, row ∈ others rows v_id e_id → s ∈ time_slots db →
      slot_id s = e_time_slot_id (row_entry row) →
      e_class_id (row_entry row) = c_id →
      e_subject_id (row_entry row) = sub_id →
      day_of_week s ≠ day.
Proof.
  unfold subject_day_dup, others. rewrite head_None. split.
  - intros Hnil row s [[Hv Hid] Hrow]%list_elem_of_filter Hs Hslot Hc Hsub Hday.
    assert (row ∈ (row0 ← rows; s0 ← time_slots db;
              if decide (e_time_slot_id (row_entry row0) = slot_id s0
                         ∧ e_version_id (row_entry row0) = v_id
                         ∧ row_id row0 ≠ e_id
                         ∧ e_class_id (row_entry row0) = c_id
                         ∧ e_subject_id (row_entry row0) = sub_id
                         ∧ day_of_week s0 = day)
              then [row0] else [])) as Hin.
    { apply list_elem_of_bind. exists row. split; [|done].
      apply list_elem_of_bind. exists s. split; [|done].
      rewrite decide_True by done. left. }
    rewrite Hnil in Hin. by apply elem_of_nil in Hin.
  - intros Hall. destruct (_ ≫= _) as [|x l] eqn:Hb; [done|]. exfalso.
    assert (x ∈ x :: l) as Hin by left. rewrite <- Hb in Hin.
    apply list_elem_of_bind in Hin as (row & Hin & Hrow).
    apply list_elem_of_bind in Hin as (s & Hin & Hs).
    destruct (decide _) as [(Hslot & Hv & Hid & Hc & Hsub & Hday)|];
      [|by apply elem_of_nil in Hin].
    apply (Hall row s); try done. by apply list_elem_of_filter.
Qed.

Lemma validate_entry_sound db rows v_id e_id c_id t_id r_id s_id :
  _validate_entry db rows v_id e_id c_id t_id r_id s_id = Returned None →
  acceptable db rows v_id e_id c_id t_id r_id s_id.
Proof.
  unfold _validate_entry, acceptable.
  destruct (query_get slot_id (time_slots db) s_id) as [target_slot|]; [|done].
  destruct (is_break target_slot) eqn:Hbreak; [done|].
  destruct (_is_teacher_available db t_id s_id) eqn:Hav; [|done]. simpl.
  destruct (capacity_mismatch db c_id r_id) eqn:Hcap; [done|].
  destruct (same_slot_issue _ _ _ _ _) as [issue|] eqn:Hsame; [done|].
  destruct (query_get row_id rows e_id) as [this|]; [|done].
  destruct (subject_day_dup _ _ _ _ _ _ _) eqn:Hdup; [done|]. intros _.
  exists target_slot, this. do 4 (split; [done|]).
  split; [by apply same_slot_clear|]. split; [done|].
  by apply subject_day_dup_None.
Qed.

Lemma validate_entry_complete db rows v_id e_id c_id t_id r_id s_id :
  acceptable db rows v_id e_id c_id t_id r_id s_id →
  _validate_entry db rows v_id e_id c_id t_id r_id s_id = Returned None.
Proof.
  unfold _validate_entry, acceptable.
  intros (target_slot & this & -> & -> & -> & -> & Hsame & -> & Hdup). simpl.
  apply same_slot_clear in Hsame. rewrite Hsame.
  apply subject_day_dup_None in Hdup. by rewrite Hdup.
Qed.

(** X19: [_validate_entry] returns [None] exactly for the moves that are
    acceptable: a lecture slot that exists, a teacher the first
    availability row of the pair does not mark absent, a room that holds
    the class, no other entry of the version in the slot with the teacher,
    the room or the class, and no other entry of the version with the
    class and the subject on the day.  It raises only for an entry that
    is not in the table. *)
Theorem validate_entry_accepts (db : Db) (rows : list EntryRow)
    (v_id e_id c_id t_id r_id s_id : nat) :
  (_validate_entry db rows v_id e_id c_id t_id r_id s_id = Returned None
   ↔ acceptable db rows v_id e_id c_id t_id r_id s_id)
  ∧ (_validate_entry db rows v_id e_id c_id t_id r_id s_id = AttributeError →
     e_id ∉ row_id <$> rows).
Proof.
  split; [split; [apply validate_entry_sound|apply validate_entry_complete]|].
  unfold _validate_entry.
  destruct (query_get slot_id (time_slots db) s_id) as [target_slot|]; [|done].
  destruct (is_break target_slot); [done|].
  destruct (negb _); [done|].
  destruct (capacity_mismatch db c_id r_id); [done|].
  destruct (same_slot_issue _ _ _ _ _) as [issue|]; [done|].
  destruct (query_get row_id rows e_id) as [this|] eqn:Hget.
  { by destruct (subject_day_dup _ _ _ _ _ _ _). }
  intros _. by apply query_get_None in Hget.
Qed.

(** ** Suggested slots *)

Lemma insert_slot_elem s x l : x ∈ insert_slot s l ↔ x = s ∨ x ∈ l.
Proof.
  induction l as [|y l IH]; simpl.
  - rewrite list_elem_of_singleton. split; [by left|]. intros [?|?%elem_of_nil]; done.
  - destruct (slot_before s y).
    + by rewrite elem_of_cons.
    + rewrite !elem_of_cons, IH. tauto.
Qed.

Lemma all_slots_elem db s :
  s ∈ all_slots db ↔ s ∈ time_slots db ∧ is_break s = false.
Proof.
  assert (s ∈ all_slots db ↔ s ∈ lecture_slots db) as ->.
  { unfold all_slots. induction (lecture_slots db) as [|x l IH]; simpl; [done|].
    by rewrite insert_slot_elem, IH, elem_of_cons. }
  unfold lecture_slots. rewrite list_elem_of_filter. tauto.
Qed.

Lemma suggest_loop_spec validate limit slots : ∀ acc sgs,
  suggest_loop validate limit slots acc = Returned sgs →
  (length sgs ≤ (length acc + 1) `max` limit)%nat
  ∧ ∃ new, sgs = acc ++ new
      ∧ sublist new (suggestion_of <$> slots)
      ∧ ∀ sg, sg ∈ new → ∃ slot, slot ∈ slots ∧ sg = suggestion_of slot
                           ∧ validate (slot_id slot) = Returned None.
Proof.
  induction slots as [|slot rest IH]; intros acc sgs; simpl.
  - intros [= <-]. split; [lia|]. exists []. rewrite app_nil_r.
    split; [done|]. split; [done|]. by intros sg ?%elem_of_nil.
  - destruct (validate (slot_id slot)) as [err|] eqn:Hv; [|done].
    destruct err as [issue|].
    + destruct (decide (limit ≤ length acc)%nat) as [Hle|Hgt].
      * intros [= <-]. split; [lia|]. exists []. rewrite app_nil_r.
        split; [done|]. split; [apply sublist_nil_l|]. by intros sg ?%elem_of_nil.
      * intros Hrun. destruct (IH _ _ Hrun) as (Hlen & new & -> & Hsub & Hnew).
        split; [done|]. exists new. split; [done|].
        split; [by apply sublist_cons|].
        intros sg Hsg. destruct (Hnew sg Hsg) as (s & ? & ? & ?).
        exists s. split; [by right|done].
    + destruct (decide (limit ≤ length (acc ++ [suggestion_of slot]))%nat) as [Hle|Hgt].
      * intros [= <-]. rewrite length_app. simpl. split; [lia|].
        exists [suggestion_of slot]. split; [done|].
        split; [apply sublist_skip, sublist_nil_l|].
        intros sg ->%list_elem_of_singleton. exists slot. split; [left|done].
      * intros Hrun. destruct (IH _ _ Hrun) as (Hlen & new & -> & Hsub & Hnew).
        rewrite length_app in Hgt, Hlen. simpl in Hgt, Hlen.
        split; [rewrite !length_app in *; simpl in *; lia|].
        exists (suggestion_of slot :: new). split; [by rewrite <- app_assoc|].
        split; [by apply sublist_skip|].
        intros sg [->|Hsg]%elem_of_cons.
        -- exists slot. split; [left|done].
        -- destruct (Hnew sg Hsg) as (s & ? & ? & ?). exists s. split; [by right|done].
Qed.

(** X20: the slots [_suggest_alternate_slots] returns are lecture slots of the
    table that [_validate_entry] accepts for the entry, in the order of
    the query; there are at most [limit] of them, and at most one when
    [limit] is 0. *)
Theorem suggested_slots_are_valid (db : Db) (rows : list EntryRow) (v_id : nat)
    (row : EntryRow) (limit : nat) (sgs : list Suggestion) :
  _suggest_alternate_slots db rows v_id row limit = Returned sgs →
  (length sgs ≤ limit `max` 1)%nat
  ∧ sublist sgs (suggestion_of <$> all_slots db)
  ∧ ∀ sg, sg ∈ sgs →
      ∃ slot, slot ∈ time_slots db ∧ is_break slot = false ∧ sg = suggestion_of slot
        ∧ acceptable db rows v_id (row_id row) (e_class_id (row_entry row))
            (e_teacher_id (row_entry row)) (e_room_id (row_entry row)) (slot_id slot).
Proof.
  unfold _suggest_alternate_slots. intros Hrun.
  apply suggest_loop_spec in Hrun as (Hlen & new & -> & Hsub & Hnew). simpl in *.
  split; [lia|]. split; [done|].
  intros sg Hsg. destruct (Hnew sg Hsg) as (slot & Hslot & -> & Hv).
  apply all_slots_elem in Hslot as [Hin Hbreak].
  exists slot. do 3 (split; [done|]). by apply validate_entry_sound.
Qed.

(** ** Moving an entry *)

Lemma validate_entry_returns db rows e_id row v_id c_id t_id r_id s_id :
  query_get row_id rows e_id = Some row →
  ∃ err, _validate_entry db rows v_id (row_id row) c_id t_id r_id s_id = Returned err.
Proof.
  intros Hget. pose proof (query_get_Some _ _ _ _ Hget) as [_ Hid].
  unfold _validate_entry. rewrite Hid, Hget.
  destruct (query_get slot_id _ _) as [target_slot|]; [|by eexists].
  destruct (is_break target_slot); [by eexists|].
  destruct (negb _); [by eexists|].
  destruct (capacity_mismatch _ _ _); [by eexists|].
  destruct (same_slot_issue _ _ _ _ _); [by eexists|].
  destruct (subject_day_dup _ _ _ _ _ _ _); by eexists.
Qed.

Lemma suggest_loop_returns validate limit slots : ∀ acc,
  (∀ s_id, ∃ err, validate s_id = Returned err) →
  ∃ sgs, suggest_loop validate limit slots acc = Returned sgs.
Proof.
  induction slots as [|slot rest IH]; intros acc Hv; simpl; [by eexists|].
  destruct (Hv (slot_id slot)) as [err ->].
  destruct (decide _); [by eexists|]. by apply IH.
Qed.

Lemma update_row_length e_id f rows : length (update_row e_id f rows) = length rows.
Proof. unfold update_row. by rewrite length_fmap. Qed.

Lemma move_entry_returns (db : Db) (rows : list EntryRow) (e_id : nat)
    (new_slot : option nat) :
  ∃ resp rows', move_entry db rows e_id new_slot = Returned (resp, rows')
    ∧ match resp with
      | NotFound => rows' = rows ∧ e_id ∉ row_id <$> rows
      | LockedEntry =>
          rows' = rows
          ∧ ∃ row, query_get row_id rows e_id = Some row ∧ is_locked (row_entry row) = true
      | SlotRequired => rows' = rows ∧ (new_slot = None ∨ new_slot = Some 0)
      | Rejected issue alternates => rows' = rows ∧ (length alternates ≤ 5)%nat
      | Moved row' =>
          ∃ row s_id,
            query_get row_id rows e_id = Some row
            ∧ is_locked (row_entry row) = false
            ∧ new_slot = Some s_id ∧ s_id ≠ 0
            ∧ acceptable db rows (e_version_id (row_entry row)) e_id
                (e_class_id (row_entry row)) (e_teacher_id (row_entry row))
                (e_room_id (row_entry row)) s_id
            ∧ row' = moved s_id row
            ∧ rows' = update_row e_id (moved s_id) rows
      end.
Proof.
  unfold move_entry.
  destruct (query_get row_id rows e_id) as [row|] eqn:Hget.
  2: { exists NotFound, rows. split; [done|]. split; [done|]. by apply query_get_None. }
  pose proof (query_get_Some _ _ _ _ Hget) as [_ Hid].
  destruct (is_locked (row_entry row)) eqn:Hlock.
  { exists LockedEntry, rows. split; [done|]. split; [done|]. by exists row. }
  destruct new_slot as [[|s_id]|].
  { exists SlotRequired, rows. split; [done|]. split; [done|]. by right. }
  2: { exists SlotRequired, rows. split; [done|]. split; [done|]. by left. }
  destruct (validate_entry_returns db rows e_id row (e_version_id (row_entry row))
              (e_class_id (row_entry row)) (e_teacher_id (row_entry row))
              (e_room_id (row_entry row)) (S s_id) Hget) as [err Herr].
  rewrite Herr. destruct err as [issue|].
  - destruct (suggest_loop_returns
                (_validate_entry db rows (e_version_id (row_entry row)) (row_id row)
                   (e_class_id (row_entry row)) (e_teacher_id (row_entry row))
                   (e_room_id (row_entry row))) 5 (all_slots db) []) as [sgs Hsgs].
    { intros s. by eapply validate_entry_returns. }
    unfold _suggest_alternate_slots at 1. rewrite Hsgs.
    exists (Rejected issue sgs), rows. split; [done|]. split; [done|].
    apply suggest_loop_spec in Hsgs as [Hlen _]. simpl in Hlen. lia.
  - exists (Moved (moved (S s_id) row)), (update_row e_id (moved (S s_id)) rows).
    split; [done|]. exists row, (S s_id). do 3 (split; [done|]). split; [done|].
    split; [|done]. apply validate_entry_sound. by rewrite <- Hid.
Qed.

(** X21: [move_entry] never raises the [AttributeError] of [_validate_entry]:
    the entry it validates is one it has just read.  Whenever it answers,
    it has left the table as it was unless the answer is that the entry
    was moved, and it moves only an entry of the table that is not
    locked, to a slot of an id other than 0 that [_validate_entry]
    accepts; the rows other than the entry stay as they are and the
    entry changes in its slot only. *)
Theorem move_entry_answers (db : Db) (rows : list EntryRow) (e_id : nat)
    (new_slot : option nat) :
  move_entry db rows e_id new_slot ≠ AttributeError
  ∧ ∀ resp rows', move_entry db rows e_id new_slot = Returned (resp, rows') →
      match resp with
      | NotFound => rows' = rows ∧ e_id ∉ row_id <$> rows
      | LockedEntry =>
          rows' = rows
          ∧ ∃ row, query_get row_id rows e_id = Some row ∧ is_locked (row_entry row) = true
      | SlotRequired => rows' = rows ∧ (new_slot = None ∨ new_slot = Some 0)
      | Rejected issue alternates => rows' = rows ∧ (length alternates ≤ 5)%nat
      | Moved row' =>
          ∃ row s_id,
            query_get row_id rows e_id = Some row
            ∧ is_locked (row_entry row) = false
            ∧ new_slot = Some s_id ∧ s_id ≠ 0
            ∧ acceptable db rows (e_version_id (row_entry row)) e_id
                (e_class_id (row_entry row)) (e_teacher_id (row_entry row))
                (e_room_id (row_entry row)) s_id
            ∧ row' = moved s_id row
            ∧ rows' = update_row e_id (moved s_id) rows
      end.
Proof.
  destruct (move_entry_returns db rows e_id new_slot) as (resp0 & rows0 & Hrun & Hspec).
  rewrite Hrun. split; [done|]. by intros resp rows' [= <- <-].
Qed.

Lemma next_row_id_fresh rows : next_row_id rows ∉ row_id <$> rows.
Proof.
  unfold next_row_id. intros Hin. apply max_list_elem_of_le in Hin. lia.
Qed.

Lemma query_get_snoc {A} (key : A → nat) (table : list A) (x : A) :
  key x ∉ key <$> table → query_get key (table ++ [x]) (key x) = Some x.
Proof.
  intros Hnot. apply query_get_None in Hnot. unfold query_get in *.
  apply head_None in Hnot. rewrite filter_app, Hnot. simpl.
  by rewrite filter_cons, decide_True.
Qed.

(** X22: an entry stored through [lock_period] cannot be moved: whatever slot
    is asked for, [move_entry] answers that the entry is locked and leaves
    the table as [lock_period] left it. *)
Theorem locked_period_cannot_move (db : Db) (rows : list EntryRow) (v_id : option nat)
    (c_id sub_id t_id r_id s_id : nat) (new_slot : option nat) :
  move_entry db (lock_period rows v_id c_id sub_id t_id r_id s_id).2
    (row_id (lock_period rows v_id c_id sub_id t_id r_id s_id).1) new_slot
  = Returned (LockedEntry, (lock_period rows v_id c_id sub_id t_id r_id s_id).2).
Proof.
  unfold lock_period, move_entry. cbn [fst snd].
  set (row := {| row_id := next_row_id rows; row_entry := _ |}).
  change (row_id row) with (next_row_id rows).
  pose proof (query_get_snoc row_id rows row (next_row_id_fresh rows)) as Hget.
  change (row_id row) with (next_row_id rows) in Hget. by rewrite Hget.
Qed.

(** X23: a slot [_suggest_alternate_slots] returned for an entry that is not
    locked can be taken: [move_entry] to it answers that the entry was
    moved, unless the id of the slot is 0. *)
Theorem suggested_slot_can_be_taken (db : Db) (rows : list EntryRow) (e_id : nat)
    (row : EntryRow) (limit : nat) (sgs : list Suggestion) (sg : Suggestion) :
  query_get row_id rows e_id = Some row →
  is_locked (row_entry row) = false →
  _suggest_alternate_slots db rows (e_version_id (row_entry row)) row limit = Returned sgs →
  sg ∈ sgs →
  sg_time_slot_id sg ≠ 0 →
  move_entry db rows e_id (Some (sg_time_slot_id sg))
  = Returned (Moved (moved (sg_time_slot_id sg) row),
              update_row e_id (moved (sg_time_slot_id sg)) rows).
Proof.
  intros Hget Hlock Hsgs Hsg Hnz.
  apply suggest_loop_spec in Hsgs as (_ & new & -> & _ & Hvalid). simpl in Hsg.
  destruct (Hvalid sg Hsg) as (slot & _ & -> & Hacc). simpl in *.
  unfold move_entry. rewrite Hget, Hlock.
  destruct (slot_id slot) as [|n] eqn:Hs; [done|]. by rewrite Hacc.
Qed.

(** ** A move under the detector *)

Lemma detect_entries_report db es :
  match detect_entries db es with
  | Ok cs =>
      Forall (resolved db) es
      ∧ ("teacher_clash" ∈ kinds cs ↔ ¬ NoDup (key_teacher <$> es))
      ∧ ("room_clash" ∈ kinds cs ↔ ¬ NoDup (key_room <$> es))
      ∧ ("class_clash" ∈ kinds cs ↔ ¬ NoDup (key_class <$> es))
      ∧ ("subject_repeat" ∈ kinds cs ↔ ¬ NoDup (day_key_of db <$> es))
  | Raise _ => ¬ Forall (resolved db) es
  end.
Proof.
  unfold detect_entries.
  destruct (detect_loop_result db es detect_init) as [[Hall [d' Hloop]]|[Hnot ->]]; [|done].
  rewrite Hloop. split; [done|].
  destruct (detect_loop_inv _ _ _ _ [] Hloop (detect_init_inv db))
    as (_ & _ & _ & _ & _ & ? & ? & ? & ? & _). done.
Qed.

Lemma version_entries_rows db rows v_id :
  version_entries (with_rows db rows) v_id = version_rows rows v_id.
Proof.
  unfold version_entries, version_rows. simpl.
  induction rows as [|row rows IH]; [done|].
  rewrite fmap_cons, !filter_cons. simpl.
  destruct (decide (e_version_id (row_entry row) = v_id)); by rewrite IH.
Qed.

Lemma NoDup_fmap_replace {A B} (f : A → B) (l1 l2 : list A) (x x' : A) :
  NoDup (f <$> (l1 ++ x :: l2)) →
  (∀ y, y ∈ l1 ++ l2 → f y ≠ f x') →
  NoDup (f <$> (l1 ++ x' :: l2)).
Proof.
  rewrite !fmap_app, !fmap_cons, !NoDup_app, !NoDup_cons.
  intros (H1 & Hd & _ & H2) Hnew. split; [done|]. split.
  - intros b Hb [->|Hb2]%elem_of_cons.
    + apply list_elem_of_fmap in Hb as (y & Hy & Hin).
      apply (Hnew y); [apply elem_of_app; by left|done].
    + apply (Hd b Hb). by right.
  - split; [|done]. intros (y & Hy & Hin)%list_elem_of_fmap.
    apply (Hnew y); [apply elem_of_app; by right|done].
Qed.

Lemma rows_split rows e_id row :
  NoDup (row_id <$> rows) → query_get row_id rows e_id = Some row →
  ∃ l1 l2, rows = l1 ++ row :: l2
    ∧ ∀ r, r ∈ l1 ++ l2 → row_id r ≠ e_id.
Proof.
  intros Hnd Hget. apply query_get_Some in Hget as [Hin Hid].
  apply list_elem_of_split in Hin as (l1 & l2 & ->). exists l1, l2. split; [done|].
  rewrite fmap_app, fmap_cons in Hnd.
  apply NoDup_app in Hnd as (_ & Hd & Hnd). apply NoDup_cons in Hnd as [Hn2 _].
  intros r [Hr|Hr]%elem_of_app Heq.
  - apply (Hd (row_id r)); [by apply list_elem_of_fmap_2|]. rewrite Heq, <- Hid. left.
  - apply Hn2. rewrite Hid, <- Heq. by apply list_elem_of_fmap_2.
Qed.

Lemma update_row_split e_id f l1 row l2 :
  row_id row = e_id → (∀ r, r ∈ l1 ++ l2 → row_id r ≠ e_id) →
  update_row e_id f (l1 ++ row :: l2) = l1 ++ f row :: l2.
Proof.
  intros Hid Hne. unfold update_row. rewrite fmap_app, fmap_cons, decide_True by done.
  assert (∀ l : list EntryRow, (∀ r, r ∈ l → row_id r ≠ e_id) →
            (λ r, if decide (row_id r = e_id) then f r else r) <$> l = l) as Hsame.
  { induction l as [|r l IH]; [done|]. intros Hl.
    rewrite fmap_cons, decide_False by (apply Hl; left).
    f_equal. apply IH. intros r' ?. apply Hl. by right. }
  rewrite !Hsame; [done| |]; intros r Hr; apply Hne, elem_of_app; auto.
Qed.

Lemma version_rows_split v_id l1 row l2 :
  e_version_id (row_entry row) = v_id →
  version_rows (l1 ++ row :: l2) v_id
  = version_rows l1 v_id ++ row_entry row :: version_rows l2 v_id.
Proof.
  intros Hv. unfold version_rows.
  by rewrite filter_app, filter_cons, decide_True, fmap_app, fmap_cons.
Qed.

Lemma version_rows_others l1 l2 row v_id e_id y :
  (∀ r, r ∈ l1 ++ l2 → row_id r ≠ e_id) →
  y ∈ version_rows l1 v_id ++ version_rows l2 v_id →
  ∃ r, r ∈ others (l1 ++ row :: l2) v_id e_id ∧ y = row_entry r.
Proof.
  intros Hne Hy. unfold version_rows in Hy. rewrite <- fmap_app, <- filter_app in Hy.
  apply list_elem_of_fmap in Hy as (r & -> & Hr).
  apply list_elem_of_filter in Hr as [Hv Hr]. exists r. split; [|done].
  unfold others. apply list_elem_of_filter. split; [split; [done|by apply Hne]|].
  apply elem_of_app in Hr as [?|?]; apply elem_of_app; [by left|right; by right].
Qed.

Lemma move_entry_Moved db rows e_id new_slot row' rows' :
  move_entry db rows e_id new_slot = Returned (Moved row', rows') →
  ∃ row s_id,
    query_get row_id rows e_id = Some row
    ∧ is_locked (row_entry row) = false
    ∧ new_slot = Some s_id ∧ s_id ≠ 0
    ∧ acceptable db rows (e_version_id (row_entry row)) e_id
        (e_class_id (row_entry row)) (e_teacher_id (row_entry row))
        (e_room_id (row_entry row)) s_id
    ∧ row' = moved s_id row
    ∧ rows' = update_row e_id (moved s_id) rows.
Proof.
  unfold move_entry.
  destruct (query_get row_id rows e_id) as [row|] eqn:Hget; [|done].
  pose proof (query_get_Some _ _ _ _ Hget) as [_ Hid].
  destruct (is_locked (row_entry row)) eqn:Hlock; [done|].
  destruct new_slot as [[|s_id]|]; [done| |done].
  destruct (_validate_entry _ _ _ _ _ _ _ _) as [[issue|]|] eqn:Hv; [|intros [= <- <-]|done].
  { by destruct (_suggest_alternate_slots _ _ _ _ _). }
  exists row, (S s_id). do 3 (split; [done|]). split; [done|]. split; [|done].
  apply validate_entry_sound. by rewrite <- Hid.
Qed.

Section clean.
Variables (db : Db) (rows : list EntryRow) (e_id v_id : nat) (row : EntryRow) (s_id : nat).
Hypothesis Hids : NoDup (row_id <$> rows).
Hypothesis Hslots : NoDup (slot_id <$> time_slots db).
Hypothesis Hget : query_get row_id rows e_id = Some row.
Hypothesis Hv : e_version_id (row_entry row) = v_id.
Hypothesis Hacc :
  acceptable db rows v_id e_id (e_class_id (row_entry row))
    (e_teacher_id (row_entry row)) (e_room_id (row_entry row)) s_id.

Lemma moved_versions :
  ∃ a b, version_rows rows v_id = a ++ row_entry row :: b
    ∧ version_rows (update_row e_id (moved s_id) rows) v_id
      = a ++ with_slot (row_entry row) s_id :: b
    ∧ ∀ y, y ∈ a ++ b → ∃ r, r ∈ others rows v_id e_id ∧ y = row_entry r.
Proof.
  destruct (rows_split rows e_id row Hids Hget) as (l1 & l2 & Hrows & Hne).
  pose proof (query_get_Some _ _ _ _ Hget) as [_ Hid].
  exists (version_rows l1 v_id), (version_rows l2 v_id).
  rewrite Hrows.
  rewrite (update_row_split e_id _ l1 row l2 Hid Hne).
  rewrite (version_rows_split v_id l1 row l2 Hv).
  rewrite (version_rows_split v_id l1 (moved s_id row) l2 Hv).
  split; [done|]. split; [done|].
  intros y Hy. by apply (version_rows_others l1 l2 row v_id e_id y Hne).
Qed.

Lemma moved_resolved :
  Forall (resolved db) (version_rows rows v_id) →
  Forall (resolved db) (version_rows (update_row e_id (moved s_id) rows) v_id).
Proof.
  destruct moved_versions as (a & b & -> & -> & _).
  destruct Hacc as (target_slot & _ & Htarget & _).
  apply query_get_Some in Htarget as [Hin Hid].
  rewrite !Forall_app, !Forall_cons. intros (Ha & Hrow & Hb).
  split; [done|]. split; [|done].
  destruct Hrow as (_ & ? & ? & ?). split; [|done].
  simpl. rewrite <- Hid. by apply list_elem_of_fmap_2.
Qed.

Lemma moved_keys :
  (NoDup (key_teacher <$> version_rows rows v_id) →
   NoDup (key_teacher <$> version_rows (update_row e_id (moved s_id) rows) v_id))
  ∧ (NoDup (key_room <$> version_rows rows v_id) →
     NoDup (key_room <$> version_rows (update_row e_id (moved s_id) rows) v_id))
  ∧ (NoDup (key_class <$> version_rows rows v_id) →
     NoDup (key_class <$> version_rows (update_row e_id (moved s_id) rows) v_id)).
Proof.
  destruct moved_versions as (a & b & -> & -> & Hothers).
  destruct Hacc as (target_slot & this & _ & _ & _ & _ & Hsame & _).
  repeat split; intros Hnd; apply (NoDup_fmap_replace _ _ _ _ _ Hnd);
    intros y Hy; destruct (Hothers y Hy) as (r & Hr & ->);
    intros [= Hk Hs]; destruct (Hsame r Hr Hs) as (? & ? & ?); done.
Qed.

Lemma moved_day_keys :
  Forall (resolved db) (version_rows rows v_id) →
  NoDup (day_key_of db <$> version_rows rows v_id) →
  NoDup (day_key_of db <$> version_rows (update_row e_id (moved s_id) rows) v_id).
Proof.
  intros Hres. destruct moved_versions as (a & b & Hbefore & -> & Hothers).
  rewrite Hbefore in *. intros Hnd. apply (NoDup_fmap_replace _ _ _ _ _ Hnd).
  destruct Hacc as (target_slot & this & Htarget & _ & _ & _ & _ & Hthis & Hdup).
  rewrite Hget in Hthis. injection Hthis as <-.
  apply query_get_Some in Htarget as [Hin Hid].
  intros y Hy. destruct (Hothers y Hy) as (r & Hr & ->).
  assert (resolved db (row_entry r)) as (Hslot & _).
  { rewrite Forall_forall in Hres. apply Hres.
    apply elem_of_app in Hy as [?|?]; apply elem_of_app; [by left|right; by right]. }
  apply list_elem_of_fmap in Hslot as (s & Hs & Hsin).
  unfold day_key_of, entry_day. simpl.
  rewrite Hs, <- Hid, !by_id_lookup_NoDup by done.
  intros [= Hc Hday Hsub]. by apply (Hdup r s).
Qed.
End clean.

(** X24: a move that [move_entry] accepts brings none of the four kinds of
    conflict that [_validate_entry] guards into the report of the
    detector: when the detector returned a report for the version before
    the move, it returns one after it, and a [teacher_clash], a
    [room_clash], a [class_clash] or a [subject_repeat] is in the new
    report only if it was in the old one. *)
Theorem moved_entry_keeps_report_clean (db : Db) (rows : list EntryRow) (e_id : nat)
    (new_slot : option nat) (row' : EntryRow) (rows' : list EntryRow) (cs : list Conflict) :
  NoDup (row_id <$> rows) →
  NoDup (slot_id <$> time_slots db) →
  move_entry db rows e_id new_slot = Returned (Moved row', rows') →
  detect_conflicts (with_rows db rows) (e_version_id (row_entry row')) = Ok cs →
  ∃ cs', detect_conflicts (with_rows db rows') (e_version_id (row_entry row')) = Ok cs'
    ∧ ∀ k, k ∈ guarded_kinds → k ∈ kinds cs' → k ∈ kinds cs.
Proof.
  intros Hids Hslots Hmove Hcs.
  apply move_entry_Moved in Hmove as (row & s_id & Hget & _ & _ & _ & Hacc & -> & ->).
  change (e_version_id (row_entry (moved s_id row))) with (e_version_id (row_entry row)) in *.
  unfold detect_conflicts in *. rewrite version_entries_rows in *.
  pose proof (detect_entries_report (with_rows db rows)
                (version_rows rows (e_version_id (row_entry row)))) as Hb.
  rewrite Hcs in Hb. destruct Hb as (Hres & Bt & Br & Bc & Bs).
  pose proof (moved_resolved db rows e_id _ row s_id Hids Hget eq_refl Hacc Hres) as Hres'.
  destruct (moved_keys db rows e_id _ row s_id Hids Hget eq_refl Hacc) as (Kt & Kr & Kc).
  pose proof (moved_day_keys db rows e_id _ row s_id Hids Hslots Hget eq_refl Hacc Hres)
    as Ks.
  pose proof (detect_entries_report (with_rows db (update_row e_id (moved s_id) rows))
                (version_rows (update_row e_id (moved s_id) rows)
                   (e_version_id (row_entry row)))) as Ha.
  destruct (detect_entries (with_rows db (update_row e_id (moved s_id) rows)) _)
    as [cs'|x]; [|exfalso; apply Ha; exact Hres'].
  destruct Ha as (_ & At & Ar & Ac & As). exists cs'. split; [done|].
  intros k Hk. unfold guarded_kinds in Hk.
  repeat (apply elem_of_cons in Hk as [->|Hk]); [| | | |by apply elem_of_nil in Hk].
  - rewrite At, Bt. intros Hn Hnd. by apply Hn, Kt.
  - rewrite Ar, Br. intros Hn Hnd. by apply Hn, Kr.
  - rewrite Ac, Bc. intros Hn Hnd. by apply Hn, Kc.
  - rewrite As, Bs. intros Hn Hnd. by apply Hn, Ks.
Qed.

(** ** The readers of the availability table *)

Lemma first_row_filter (rows : list Nullable.AvailabilityRow) t_id s_id :
  Nullable.first_row rows t_id s_id
  = head (filter (λ row, Nullable.key row = (t_id, s_id)) rows).
Proof.
  unfold Nullable.first_row. f_equal.
  apply list_filter_iff. intros row. unfold Nullable.key. split.
  - by intros [-> ->].
  - by intros [= -> ->].
Qed.

Lemma first_row_None rows t_id s_id :
  Nullable.first_row rows t_id s_id = None ↔ (t_id, s_id) ∉ Nullable.key <$> rows.
Proof.
  rewrite first_row_filter, head_None. split.
  - intros Hnil (x & Hk & Hx)%list_elem_of_fmap.
    assert (x ∈ filter (λ row, Nullable.key row = (t_id, s_id)) rows) as Hin
      by (by apply list_elem_of_filter).
    rewrite Hnil in Hin. by apply elem_of_nil in Hin.
  - intros Hnot. destruct (filter _ rows) as [|x l] eqn:Hf; [done|].
    exfalso. apply Hnot.
    assert (x ∈ filter (λ row, Nullable.key row = (t_id, s_id)) rows) as Hin
      by (rewrite Hf; left).
    apply list_elem_of_filter in Hin as [<- Hin]. by apply list_elem_of_fmap_2.
Qed.

Lemma first_row_Some rows t_id s_id row :
  Nullable.first_row rows t_id s_id = Some row →
  row ∈ rows ∧ Nullable.key row = (t_id, s_id).
Proof.
  rewrite first_row_filter. intros Hx. apply head_Some_elem_of in Hx.
  by apply list_elem_of_filter in Hx as [? ?].
Qed.

Lemma load_availability_lookup rows k :
  Nullable._load_availability rows !! k = None ↔ k ∉ Nullable.key <$> rows.
Proof.
  unfold Nullable._load_availability.
  rewrite eq_None_not_Some,
    (foldl_insert_is_Some Nullable.key Nullable.ar_is_available), lookup_empty.
  split; [intros Hn Hin; apply Hn; by right|].
  intros Hn [[? ?]|?]; done.
Qed.

(** With one row per pair, the dict of [_load_availability] holds the
    [is_available] of the first row of the pair. *)
Lemma loaded_first_row rows t_id s_id :
  NoDup (Nullable.key <$> rows) →
  Nullable.loaded rows t_id s_id
  = match Nullable.first_row rows t_id s_id with
    | None => Some true
    | Some row => Nullable.ar_is_available row
    end.
Proof.
  intros Hnd. unfold Nullable.loaded.
  destruct (Nullable.first_row rows t_id s_id) as [row|] eqn:Hfirst.
  - apply first_row_Some in Hfirst as [Hrow Hkey].
    destruct (Nullable._load_availability rows !! (t_id, s_id)) as [b|] eqn:Hload.
    2: { apply load_availability_lookup in Hload. exfalso. apply Hload.
         rewrite <- Hkey. by apply list_elem_of_fmap_2. }
    unfold Nullable._load_availability in Hload.
    apply (foldl_insert_lookup Nullable.key Nullable.ar_is_available) in Hload
      as [Hload|(row' & Hrow' & Hkey' & <-)]; [by rewrite lookup_empty in Hload|].
    assert (row' = row) as ->; [|done].
    apply (NoDup_fmap_eq' Nullable.key rows); [done..|congruence].
  - apply first_row_None in Hfirst.
    by rewrite (proj2 (load_availability_lookup rows (t_id, s_id)) Hfirst).
Qed.

(** X17: when no pair of teacher and slot has two rows, the first row of the
    pair, which [_is_teacher_available] reads, is the row whose value
    [_load_availability] keeps, and the only row [substitutes_needed]
    can find for the pair.  The three readers agree on a pair whose row
    holds a boolean; on a row that holds NULL, [_is_teacher_available]
    and the truth value of the dict entry read the teacher as
    unavailable, and the set of [substitutes_needed] leaves the pair
    out. *)
Theorem availability_readers_agree (rows : list Nullable.AvailabilityRow)
    (t_id s_id : nat) :
  NoDup (Nullable.key <$> rows) →
  Nullable._is_teacher_available rows t_id s_id
  = default false (Nullable.loaded rows t_id s_id)
  ∧ ((t_id, s_id) ∈ Nullable.unavailable_set rows
     ↔ Nullable.loaded rows t_id s_id = Some false)
  ∧ (Nullable.loaded rows t_id s_id ≠ None →
     ((t_id, s_id) ∈ Nullable.unavailable_set rows
      ↔ Nullable._is_teacher_available rows t_id s_id = false))
  ∧ (Nullable.loaded rows t_id s_id = None →
     Nullable._is_teacher_available rows t_id s_id = false
     ∧ (t_id, s_id) ∉ Nullable.unavailable_set rows).
Proof.
  intros Hnd.
  assert (Nullable._is_teacher_available rows t_id s_id
          = default false (Nullable.loaded rows t_id s_id)) as Hread.
  { rewrite (loaded_first_row rows t_id s_id Hnd). unfold Nullable._is_teacher_available.
    by destruct (Nullable.first_row rows t_id s_id). }
  assert ((t_id, s_id) ∈ Nullable.unavailable_set rows
          ↔ Nullable.loaded rows t_id s_id = Some false) as Hset.
  { rewrite (loaded_first_row rows t_id s_id Hnd).
    unfold Nullable.unavailable_set, Nullable.unavailabilities.
    rewrite elem_of_list_to_set, list_elem_of_fmap.
    destruct (Nullable.first_row rows t_id s_id) as [row|] eqn:Hfirst.
    - apply first_row_Some in Hfirst as [Hrow Hkey]. split.
      + intros (u & Hu & [Hfalse Hin]%list_elem_of_filter).
        assert (u = row) as ->; [|done].
        apply (NoDup_fmap_eq' Nullable.key rows); [done..|congruence].
      + intros Hfalse. exists row. split; [done|]. by apply list_elem_of_filter.
    - apply first_row_None in Hfirst. split; [|done].
      intros (u & Hu & [_ Hin]%list_elem_of_filter).
      exfalso. apply Hfirst. rewrite Hu. by apply list_elem_of_fmap_2. }
  split; [exact Hread|]. split; [exact Hset|]. split.
  - intros Hnn. rewrite Hset, Hread.
    destruct (Nullable.loaded rows t_id s_id) as [[|]|]; simpl; [|done..].
    split; [by intros [= ?]|done].
  - intros Hnull. rewrite Hset, Hread, Hnull. done.
Qed.

(** ** Upserts *)

Lemma update_first_keys k v rows :
  Nullable.key <$> Nullable.update_first k v rows = Nullable.key <$> rows.
Proof.
  induction rows as [|row rest IH]; [done|]. simpl.
  destruct (decide (Nullable.key row = k)); [done|]. by rewrite !fmap_cons, IH.
Qed.

Lemma update_first_head k v rows k' :
  head (filter (λ row, Nullable.key row = k') (Nullable.update_first k v rows))
  = if decide (k' = k)
    then (λ row, {| Nullable.ar_teacher_id := Nullable.ar_teacher_id row;
                    Nullable.ar_time_slot_id := Nullable.ar_time_slot_id row;
                    Nullable.ar_is_available
                      := Nullable.updated (Nullable.ar_is_available row) v |})
           <$> head (filter (λ row, Nullable.key row = k') rows)
    else head (filter (λ row, Nullable.key row = k') rows).
Proof.
  induction rows as [|row rest IH]; simpl; [by destruct (decide _)|].
  destruct (decide (Nullable.key row = k)) as [Hk|Hk].
  - rewrite !filter_cons.
    change (Nullable.key
              {| Nullable.ar_teacher_id := Nullable.ar_teacher_id row;
                 Nullable.ar_time_slot_id := Nullable.ar_time_slot_id row;
                 Nullable.ar_is_available
                   := Nullable.updated (Nullable.ar_is_available row) v |})
      with (Nullable.key row).
    destruct (decide (k' = k)) as [->|Hne].
    + by rewrite !decide_True.
    + by rewrite !decide_False by congruence.
  - rewrite !filter_cons.
    destruct (decide (Nullable.key row = k')) as [Hk'|Hk'].
    + simpl. rewrite decide_False by congruence. done.
    + apply IH.
Qed.

(** X18: a teacher is forbidden to upsert the row of another teacher, and
    then nothing changes.  An upsert that is not forbidden answers with
    the first row of the pair as it is afterwards, and
    [_is_teacher_available] then reads for the pair: the boolean of the
    request; what it read before when the request has no
    [is_available]; and for [null], available when the pair had no row
    (the default of the column applies to the new row) and unavailable
    when it had one (the row now holds NULL).  The upsert changes the
    reading of no other pair, and it adds no second row to a pair. *)
Theorem upsert_availability_sets (rows : list Nullable.AvailabilityRow) (role : string)
    (user_teacher : option nat) (t_id s_id : nat) (is_av : Nullable.body_value)
    (resp : Nullable.upsert_response) (rows' : list Nullable.AvailabilityRow) :
  Nullable.upsert_availability rows role user_teacher t_id s_id is_av = (resp, rows') →
  match resp with
  | Nullable.Forbidden =>
      rows' = rows ∧ ¬ (role = "admin" ∨ role = "teacher" ∧ user_teacher = Some t_id)
  | Nullable.Upserted row =>
      (role = "admin" ∨ role = "teacher" ∧ user_teacher = Some t_id)
      ∧ Nullable.first_row rows' t_id s_id = Some row
      ∧ Nullable.key row = (t_id, s_id)
      ∧ Nullable.ar_is_available row
        = match Nullable.first_row rows t_id s_id with
          | None => Nullable.inserted is_av
          | Some old => Nullable.updated (Nullable.ar_is_available old) is_av
          end
      ∧ Nullable._is_teacher_available rows' t_id s_id
        = match is_av with
          | Nullable.Bool b => b
          | Nullable.Absent => Nullable._is_teacher_available rows t_id s_id
          | Nullable.Null => bool_decide ((t_id, s_id) ∉ Nullable.key <$> rows)
          end
      ∧ (∀ t' s', (t', s') ≠ (t_id, s_id) →
           Nullable.first_row rows' t' s' = Nullable.first_row rows t' s'
           ∧ Nullable._is_teacher_available rows' t' s'
             = Nullable._is_teacher_available rows t' s')
      ∧ (NoDup (Nullable.key <$> rows) → NoDup (Nullable.key <$> rows'))
  end.
Proof.
  unfold Nullable.upsert_availability.
  destruct (bool_decide (role = "teacher" ∧ user_teacher ≠ Some t_id)) eqn:Hteacher.
  { apply bool_decide_eq_true in Hteacher as [-> Hne]. intros [= <- <-].
    split; [done|]. intros [?|[_ ?]]; done. }
  apply bool_decide_eq_false in Hteacher.
  destruct (bool_decide (role ∉ ["admin"; "teacher"])) eqn:Hrole.
  { apply bool_decide_eq_true in Hrole. intros [= <- <-]. split; [done|].
    intros [->|[-> _]]; apply Hrole; [left|right; left]. }
  apply bool_decide_eq_false in Hrole.
  assert (role = "admin" ∨ role = "teacher" ∧ user_teacher = Some t_id) as Hallowed.
  { destruct (decide (role = "admin")) as [?|Hna]; [by left|].
    destruct (decide (role = "teacher")) as [->|Hnt].
    - right. split; [done|]. destruct (decide (user_teacher = Some t_id)); [done|].
      exfalso. by apply Hteacher.
    - exfalso. apply Hrole. intros [?|[?|?%elem_of_nil]%elem_of_cons]%elem_of_cons; done. }
  destruct (Nullable.first_row rows t_id s_id) as [old|] eqn:Hfirst.
  - pose proof (first_row_Some _ _ _ _ Hfirst) as [Hrow Hkey].
    assert (Nullable.first_row (Nullable.update_first (t_id, s_id) is_av rows) t_id s_id
            = Some {| Nullable.ar_teacher_id := Nullable.ar_teacher_id old;
                      Nullable.ar_time_slot_id := Nullable.ar_time_slot_id old;
                      Nullable.ar_is_available
                        := Nullable.updated (Nullable.ar_is_available old) is_av |})
      as Hnew.
    { rewrite first_row_filter, update_first_head, decide_True by done.
      rewrite first_row_filter in Hfirst. by rewrite Hfirst. }
    intros [= <- <-].
    split; [done|]. split; [done|]. split; [done|]. split; [done|]. split.
    { unfold Nullable._is_teacher_available. rewrite Hnew, Hfirst. simpl.
      destruct is_av as [| |b]; simpl; [done| |done].
      symmetry. apply bool_decide_eq_false. intros Hno. apply Hno.
      rewrite <- Hkey. by apply list_elem_of_fmap_2. }
    split.
    + intros t' s' Hne.
      assert (Nullable.first_row (Nullable.update_first (t_id, s_id) is_av rows) t' s'
              = Nullable.first_row rows t' s') as Hsame.
      { rewrite !first_row_filter, update_first_head, decide_False by done. done. }
      split; [done|]. unfold Nullable._is_teacher_available. by rewrite Hsame.
    + by rewrite update_first_keys.
  - pose proof (proj1 (first_row_None _ _ _) Hfirst) as Hno.
    assert (Nullable.first_row
              (rows ++ [{| Nullable.ar_teacher_id := t_id; Nullable.ar_time_slot_id := s_id;
                           Nullable.ar_is_available := Nullable.inserted is_av |}]) t_id s_id
            = Some {| Nullable.ar_teacher_id := t_id; Nullable.ar_time_slot_id := s_id;
                      Nullable.ar_is_available := Nullable.inserted is_av |}) as Hnew.
    { rewrite first_row_filter, filter_app.
      rewrite first_row_filter in Hfirst. rewrite (proj1 (head_None _) Hfirst). simpl.
      rewrite filter_cons, decide_True by done. done. }
    intros [= <- <-].
    split; [done|]. split; [done|]. split; [done|]. split; [done|]. split.
    { unfold Nullable._is_teacher_available. rewrite Hnew, Hfirst. simpl.
      destruct is_av as [| |b]; simpl; [done| |done].
      symmetry. by apply bool_decide_eq_true. }
    split.
    + intros t' s' Hne.
      assert (Nullable.first_row
                (rows ++ [{| Nullable.ar_teacher_id := t_id;
                             Nullable.ar_time_slot_id := s_id;
                             Nullable.ar_is_available := Nullable.inserted is_av |}]) t' s'
              = Nullable.first_row rows t' s') as Hsame.
      { rewrite !first_row_filter, filter_app.
        rewrite (filter_cons _ _ []), decide_False, filter_nil, app_nil_r; [done|].
        unfold Nullable.key. simpl. congruence. }
      split; [done|]. unfold Nullable._is_teacher_available. by rewrite Hsame.
    + intros Hnd. rewrite fmap_app. apply NoDup_app. split; [done|].
      split; [|apply NoDup_singleton].
      by intros k Hk ->%list_elem_of_singleton.
Qed.

(** ** Substitutes *)

Lemma add_busy_fold {A} (sl tc : A → nat) (l : list A) (m : gmap nat (gset nat)) s t :
  t ∈ default ∅ (foldl (λ m x, add_busy m (sl x) (tc x)) m l !! s)
  ↔ t ∈ default ∅ (m !! s) ∨ ∃ x, x ∈ l ∧ sl x = s ∧ tc x = t.
Proof.
  revert m. induction l as [|x l IH]; intros m; simpl.
  - split; [by left|]. intros [?|(x & ?%elem_of_nil & _)]; done.
  - rewrite IH. unfold add_busy. destruct (decide (sl x = s)) as [Hs|Hs].
    + rewrite Hs, lookup_insert_eq. simpl. rewrite elem_of_union, elem_of_singleton.
      split.
      * intros [[->|?]|(y & ? & ? & ?)].
        -- right. exists x. split; [left|done].
        -- by left.
        -- right. exists y. split; [by right|done].
      * intros [?|(y & [->|?]%elem_of_cons & ? & ?)].
        -- left. by right.
        -- left. left. done.
        -- right. by exists y.
    + rewrite lookup_insert_ne by done. split.
      * intros [?|(y & ? & ? & ?)]; [by left|]. right. exists y. split; [by right|done].
      * intros [?|(y & [->|?]%elem_of_cons & ? & ?)]; [by left|done|].
        right. by exists y.
Qed.

Lemma busy_teachers_spec db entries s t :
  t ∈ default ∅ (slot_to_busy_teachers db entries !! s)
  ↔ (∃ e, e ∈ entries ∧ e_time_slot_id e = s ∧ e_teacher_id e = t)
    ∨ (t, s) ∈ unavailable_set db.
Proof.
  unfold slot_to_busy_teachers, unavailable_set.
  rewrite (add_busy_fold av_time_slot_id av_teacher_id),
    (add_busy_fold e_time_slot_id e_teacher_id), lookup_empty.
  rewrite elem_of_list_to_set, list_elem_of_fmap. simpl. split.
  - intros [[?%elem_of_empty|?]|(u & ? & <- & <-)]; [done|by left|].
    right. by exists u.
  - intros [?|(u & [= -> ->] & ?)]; [left; by right|]. right. by exists u.
Qed.

Lemma substitutes_needed_inv db rows n :
  n ∈ substitutes_needed db rows →
  ∃ v row, active db = Some v ∧ row ∈ active_rows rows v
    ∧ n_entry_id n = row_id row
    ∧ absent_teacher_id n = e_teacher_id (row_entry row)
    ∧ (e_teacher_id (row_entry row), e_time_slot_id (row_entry row)) ∈ unavailable_set db
    ∧ available_substitutes n
      = all_teachers db
        ∖ default ∅ (slot_to_busy_teachers db (row_entry <$> active_rows rows v)
                       !! e_time_slot_id (row_entry row)).
Proof.
  unfold substitutes_needed. destruct (active db) as [v|]; [|by intros ?%elem_of_nil].
  intros (row & Hn & Hrow)%list_elem_of_bind.
  destruct (decide _) as [Hun|]; [|by apply elem_of_nil in Hn].
  apply list_elem_of_singleton in Hn as ->. by exists v, row.
Qed.

(** X25: a substitute that [substitutes_needed] offers for an entry of the
    active version is a teacher of the table other than the absent one,
    who has no entry of the version in the slot and whom no availability
    row marks absent in it; and the teacher of the entry is marked
    absent in the slot. *)
Theorem offered_substitute_is_free (db : Db) (rows : list EntryRow) (n : Needed) (t : nat) :
  n ∈ substitutes_needed db rows →
  t ∈ available_substitutes n →
  ∃ v row,
    active db = Some v ∧ row ∈ rows
    ∧ e_version_id (row_entry row) = version_id v
    ∧ row_id row = n_entry_id n
    ∧ e_teacher_id (row_entry row) = absent_teacher_id n
    ∧ (absent_teacher_id n, e_time_slot_id (row_entry row)) ∈ unavailable_set db
    ∧ t ∈ teacher_id <$> teachers db
    ∧ t ≠ absent_teacher_id n
    ∧ ((t, e_time_slot_id (row_entry row)) ∉ unavailable_set db)
    ∧ ∀ r, r ∈ rows → e_version_id (row_entry r) = version_id v →
        e_time_slot_id (row_entry r) = e_time_slot_id (row_entry row) →
        e_teacher_id (row_entry r) ≠ t.
Proof.
  intros Hn Ht.
  apply substitutes_needed_inv in Hn as (v & row & Hv & Hrow & Hid & Habs & Hun & Hsubs).
  rewrite Hsubs in Ht. apply elem_of_difference in Ht as [Hall Hfree].
  rewrite busy_teachers_spec in Hfree.
  pose proof Hrow as Hrow'. apply list_elem_of_filter in Hrow' as [Hver Hin].
  exists v, row. do 5 (split; [done|]). split; [by rewrite Habs|].
  split; [by apply by_id_is_Some, elem_of_dom|].
  split; [intros ->; apply Hfree; right; by rewrite Habs|].
  split; [intros Hmark; apply Hfree; by right|].
  intros r Hr Hrv Hrs Hrt. apply Hfree. left. exists (row_entry r).
  split; [|done]. apply list_elem_of_fmap_2. by apply list_elem_of_filter.
Qed.

Lemma NoDup_fmap_same {A B} (f : A → B) (l1 l2 : list A) (x x' : A) :
  f x' = f x → NoDup (f <$> (l1 ++ x :: l2)) → NoDup (f <$> (l1 ++ x' :: l2)).
Proof. intros Hf. by rewrite !fmap_app, !fmap_cons, Hf. Qed.

(** X26: assigning a substitute that [substitutes_needed] offered for an
    entry succeeds; afterwards the entry needs no substitute any more,
    and in a report the detector returns for the active version a
    [teacher_clash], a [room_clash], a [class_clash] or a
    [subject_repeat] appears only if it did in the report it returned
    before.  Whether the detector returns afterwards is left open: the
    handler checks nothing about the new teacher. *)
Theorem assigned_substitute_fits (db : Db) (rows : list EntryRow) (n : Needed) (t : nat)
    (v : TimetableVersion) (cs : list Conflict) :
  NoDup (row_id <$> rows) →
  n ∈ substitutes_needed db rows →
  t ∈ available_substitutes n →
  n_entry_id n ≠ 0 → t ≠ 0 →
  active db = Some v →
  detect_conflicts (with_rows db rows) (version_id v) = Ok cs →
  ∃ rows',
    assign_substitute rows (Some (n_entry_id n)) (Some t) = (Assigned, rows')
    ∧ (n_entry_id n ∉ n_entry_id <$> substitutes_needed db rows')
    ∧ ∀ cs', detect_conflicts (with_rows db rows') (version_id v) = Ok cs' →
        ∀ k, k ∈ guarded_kinds → k ∈ kinds cs' → k ∈ kinds cs.
Proof.
  intros Hids Hn Ht Hnz Htz Hactive Hcs.
  apply substitutes_needed_inv in Hn as (v' & row & Hv & Hrow & Hid & Habs & Hun & Hsubs).
  rewrite Hactive in Hv. injection Hv as <-.
  rewrite Hsubs in Ht. apply elem_of_difference in Ht as [Hall Hfree].
  rewrite busy_teachers_spec in Hfree.
  unfold all_teachers in Hall. apply elem_of_dom, by_id_is_Some in Hall.
  pose proof Hrow as Hrow'. apply list_elem_of_filter in Hrow' as [Hver Hin].
  pose proof (query_get_NoDup row_id rows row Hids Hin) as Hget.
  destruct (rows_split rows (row_id row) row Hids Hget) as (l1 & l2 & Hrows & Hne).
  rewrite Hid in *. unfold assign_substitute.
  destruct (row_id row) as [|e] eqn:He; [done|]. destruct t as [|t']; [done|].
  rewrite Hget. rewrite <- He in *. clear e He.
  set (t := S t') in *.
  exists (update_row (row_id row) (with_teacher t) rows). rewrite Hrows.
  rewrite (update_row_split (row_id row) _ l1 row l2 eq_refl Hne).
  unfold detect_conflicts in *. rewrite version_entries_rows in *.
  rewrite Hrows in Hcs.
  rewrite (version_rows_split (version_id v) l1 row l2 Hver) in Hcs.
  rewrite (version_rows_split (version_id v) l1 (with_teacher t row) l2 Hver).
  assert (∀ y, y ∈ version_rows l1 (version_id v) ++ version_rows l2 (version_id v) →
            key_teacher y ≠ (t, e_time_slot_id (row_entry row))) as Hothers.
  { intros y Hy [= Hyt Hys].
    destruct (version_rows_others l1 l2 row _ _ y Hne Hy) as (r & Hr & ->).
    apply list_elem_of_filter in Hr as [[Hrv _] Hr]. rewrite <- Hrows in Hr.
    apply Hfree. left. exists (row_entry r). split; [|done].
    apply list_elem_of_fmap_2. by apply list_elem_of_filter. }
  pose proof (detect_entries_report (with_rows db rows)
                (version_rows l1 (version_id v) ++ row_entry row
                   :: version_rows l2 (version_id v))) as Hb.
  rewrite <- Hrows in Hcs at 1. rewrite Hcs in Hb.
  destruct Hb as (Hres & Bt & Br & Bc & Bs).
  pose proof (detect_entries_report (with_rows db (l1 ++ with_teacher t row :: l2))
                (version_rows l1 (version_id v) ++ row_entry (with_teacher t row)
                   :: version_rows l2 (version_id v))) as Ha.
  split; [done|]. split.
  - intros (n' & Hid' & Hn')%list_elem_of_fmap.
    apply substitutes_needed_inv in Hn' as (v' & r & Hv' & Hr & Hrid & _ & Hmark & _).
    apply list_elem_of_filter in Hr as [_ Hr].
    assert (r = with_teacher t row) as ->.
    { apply elem_of_app in Hr as [Hr|[->|Hr]%elem_of_cons]; [|done|];
        exfalso; apply (Hne r); [apply elem_of_app; by left|congruence|
                                 apply elem_of_app; by right|congruence]. }
    simpl in Hmark. apply Hfree. by right.
  - intros cs' Hcs'. rewrite Hcs' in Ha. destruct Ha as (_ & At & Ar & Ac & As).
    intros k Hk. unfold guarded_kinds in Hk.
    repeat (apply elem_of_cons in Hk as [->|Hk]); [| | | |by apply elem_of_nil in Hk].
    + rewrite At, Bt. intros Hnew Hnd. apply Hnew.
      by apply (NoDup_fmap_replace _ _ _ _ _ Hnd).
    + rewrite Ar, Br. intros Hnew Hnd. apply Hnew.
      by apply (NoDup_fmap_same key_room _ _ (row_entry row)
                 (row_entry (with_teacher t row)) eq_refl Hnd).
    + rewrite Ac, Bc. intros Hnew Hnd. apply Hnew.
      by apply (NoDup_fmap_same key_class _ _ (row_entry row)
                 (row_entry (with_teacher t row)) eq_refl Hnd).
    + rewrite As, Bs. intros Hnew Hnd. apply Hnew.
      by apply (NoDup_fmap_same (day_key_of db) _ _ (row_entry row)
                 (row_entry (with_teacher t row)) eq_refl Hnd).
Qed.

(** ** The configured day and the grid *)

Lemma day_rows_eq day :
  day_rows day
  = [ (day, 1, false); (day, 2, false); (day, 3, false); (day, 4, true);
      (day, 5, false); (day, 6, false); (day, 7, true); (day, 8, false);
      (day, 9, false) ].
Proof. reflexivity. Qed.

Lemma configured_slot db first_id working_days s :
  s ∈ time_slots (configure_time_slots db first_id working_days)
  ↔ ∃ i, (working_days ≫= day_rows) !! i
         = Some (day_of_week s, slot_order s, is_break s)
         ∧ slot_id s = first_id + i.
Proof.
  unfold configure_time_slots. cbn [time_slots with_time_slots].
  rewrite list_elem_of_lookup. setoid_rewrite list_lookup_imap. split.
  - intros (i & Hi). exists i.
    destruct ((working_days ≫= day_rows) !! i) as [[[d o] brk]|]; [|done].
    simpl in Hi. injection Hi as <-. done.
  - intros (i & Hi & Hid). exists i. rewrite Hi. simpl. destruct s. simpl in *. by subst.
Qed.

Lemma configured_row working_days d o brk :
  (d, o, brk) ∈ working_days ≫= day_rows
  ↔ d ∈ working_days
    ∧ (brk = false ∧ o ∈ template_orders ∨ brk = true ∧ o ∈ [4; 7]).
Proof.
  rewrite list_elem_of_bind. split.
  - intros (day & Hrow & Hday). rewrite day_rows_eq in Hrow.
    unfold template_orders.
    repeat (apply elem_of_cons in Hrow as [[= -> -> ->]|Hrow]);
      try (by apply elem_of_nil in Hrow);
      (split; [done|]); rewrite ?elem_of_cons; tauto.
  - intros (Hd & Ho). exists d. split; [|done]. rewrite day_rows_eq.
    unfold template_orders in Ho. rewrite !elem_of_cons, !elem_of_nil in Ho.
    rewrite !elem_of_cons.
    destruct Ho as [[-> Ho]|[-> Ho]]; intuition (subst; auto 10).
Qed.

Lemma configured_ids_NoDup db first_id working_days :
  NoDup (slot_id <$> time_slots (configure_time_slots db first_id working_days)).
Proof.
  unfold configure_time_slots. cbn [time_slots with_time_slots].
  apply NoDup_alt. intros i j id. rewrite !list_lookup_fmap, !list_lookup_imap.
  destruct ((working_days ≫= day_rows) !! i) as [[[d o] brk]|]; [|done].
  destruct ((working_days ≫= day_rows) !! j) as [[[d' o'] brk']|]; [|done].
  simpl. intros [= <-] [= ?]. lia.
Qed.

Lemma configured_slot_map db first_id working_days d o :
  is_Some (slot_map (configure_time_slots db first_id working_days) !! (d, o))
  ↔ d ∈ working_days ∧ o ∈ template_orders.
Proof.
  unfold slot_map.
  rewrite (foldl_insert_is_Some (λ s, (day_of_week s, slot_order s)) slot_id), lookup_empty.
  rewrite list_elem_of_fmap. unfold lecture_slots. split.
  - intros [[? ?]|(s & [= -> ->] & Hs)]; [done|].
    apply list_elem_of_filter in Hs as [Hbreak Hs].
    apply configured_slot in Hs as (i & Hi & _). rewrite Hbreak in Hi.
    apply list_elem_of_lookup_2, configured_row in Hi as (? & [[_ ?]|[? _]]); done.
  - intros (Hd & Ho). right.
    assert ((d, o, false) ∈ working_days ≫= day_rows) as Hrow
      by (apply configured_row; split; [done|by left]).
    apply list_elem_of_lookup_1 in Hrow as [i Hi].
    exists {| slot_id := first_id + i; day_of_week := d; is_break := false;
              slot_order := o |}.
    split; [done|]. apply list_elem_of_filter. split; [done|].
    apply configured_slot. by exists i.
Qed.

Lemma template_slots i b s_idx :
  b ∈ day_template i → s_idx ∈ b_slots b → s_idx ∈ template_orders.
Proof.
  unfold day_template, heavy_day, light_day, empty_block, template_orders.
  destruct (decide (i < 3)); intros Hb Hs;
    repeat (apply elem_of_cons in Hb as [->|Hb]); try (by apply elem_of_nil in Hb);
    simpl in Hs; rewrite ?elem_of_cons, ?elem_of_nil in *; intuition (subst; auto 10).
Qed.

Lemma configured_id_pos db first_id working_days d o ts :
  first_id ≠ 0 →
  slot_map (configure_time_slots db first_id working_days) !! (d, o) = Some ts → ts ≠ 0.
Proof.
  intros Hfirst Hts. apply slot_map_lookup in Hts as (s & Hs & _ & _ & _ & <-).
  apply configured_slot in Hs as (i & _ & ->). lia.
Qed.

(** X27: the slots [configure_time_slots] stores fit the grid of the
    generator: their ids are pairwise distinct, and [slot_map] has an id
    for a day and an order exactly when the day is a working day and the
    order is one the grid uses, the two breaks of the schedule falling on
    the orders 4 and 7 that no block lists.  So, when the ids do not
    start at 0, no block of the grid on a working day fails the look-up
    of its slots, and every block on another day does. *)
Theorem configured_slots_fit_grid (db : Db) (first_id : nat) (working_days : list string) :
  NoDup (slot_id <$> time_slots (configure_time_slots db first_id working_days))
  ∧ (∀ d o, is_Some (slot_map (configure_time_slots db first_id working_days) !! (d, o))
            ↔ d ∈ working_days ∧ o ∈ template_orders)
  ∧ (first_id ≠ 0 → ∀ d i b who, b ∈ day_template i →
       slot_conflict (slot_map (configure_time_slots db first_id working_days)) ∅
         who d (b_slots b)
       = bool_decide (d ∉ working_days)).
Proof.
  split; [apply configured_ids_NoDup|]. split; [apply configured_slot_map|].
  intros Hfirst d i b who Hb. unfold slot_conflict.
  destruct (bool_decide (d ∉ working_days)) eqn:Hcase.
  - apply bool_decide_eq_true in Hcase.
    assert (∃ s_idx, s_idx ∈ b_slots b) as [s_idx Hs].
    { destruct (day_template_slots i) as [_ Hall]. rewrite Forall_forall in Hall.
      destruct (Hall b Hb) as (_ & _ & HL & HT). destruct (b_type b).
      - destruct (HL eq_refl) as [->| ->]; [exists 1|exists 5]; left.
      - destruct (HT eq_refl) as [o ->]. exists o. left. }
    apply existsb_exists. exists s_idx. split; [by apply list_elem_of_In|].
    destruct (slot_map _ !! (d, s_idx)) as [ts|] eqn:Hts; [|done].
    exfalso. apply Hcase.
    by apply (proj1 (configured_slot_map db first_id working_days d s_idx)
                (mk_is_Some _ _ Hts)).
  - apply bool_decide_eq_false in Hcase.
    assert (d ∈ working_days) as Hd by (destruct (decide (d ∈ working_days)); tauto).
    apply not_true_is_false. intros (s_idx & Hs & Hbad)%existsb_exists.
    apply list_elem_of_In in Hs.
    destruct (proj2 (configured_slot_map db first_id working_days d s_idx)
                (conj Hd (template_slots i b s_idx Hb Hs))) as [ts Hts].
    rewrite Hts in Hbad.
    pose proof (configured_id_pos _ _ _ _ _ _ Hfirst Hts) as Hnz.
    rewrite bool_decide_eq_false_2 in Hbad by done. simpl in Hbad.
    apply bool_decide_eq_true in Hbad. by apply elem_of_empty in Hbad.
Qed.

(** ** The edit theorems at concrete inputs *)

Lemma availability_readers_agree_witness :
  NoDup (Nullable.key <$> null_rows)
  ∧ Nullable.loaded null_rows 1 2 = None
  ∧ Nullable._is_teacher_available null_rows 1 2 = false
  ∧ ((1, 2) ∉ Nullable.unavailable_set null_rows)
  ∧ ((1, 1) ∈ Nullable.unavailable_set null_rows
     ↔ Nullable._is_teacher_available null_rows 1 1 = false).
Proof.
  assert (NoDup (Nullable.key <$> null_rows)) as Hnd
    by (apply (bool_decide_unpack _); vm_compute; reflexivity).
  assert (Nullable.loaded null_rows 1 2 = None) as Hnull by reflexivity.
  assert (Nullable.loaded null_rows 1 1 ≠ None) as Hbool by discriminate.
  split; [exact Hnd|]. split; [exact Hnull|].
  split; [exact (proj1 (proj2 (proj2 (proj2
                   (availability_readers_agree null_rows 1 2 Hnd))) Hnull))|].
  split; [exact (proj2 (proj2 (proj2 (proj2
                   (availability_readers_agree null_rows 1 2 Hnd))) Hnull))|].
  exact (proj1 (proj2 (proj2 (availability_readers_agree null_rows 1 1 Hnd))) Hbool).
Defined.

Lemma null_upsert :
  Nullable.upsert_availability null_rows "teacher" (Some 2) 2 1 Nullable.Null
  = (Nullable.Upserted {| Nullable.ar_teacher_id := 2; Nullable.ar_time_slot_id := 1;
                          Nullable.ar_is_available := None |},
     [ {| Nullable.ar_teacher_id := 1; Nullable.ar_time_slot_id := 1;
          Nullable.ar_is_available := Some false |};
       {| Nullable.ar_teacher_id := 1; Nullable.ar_time_slot_id := 2;
          Nullable.ar_is_available := None |};
       {| Nullable.ar_teacher_id := 2; Nullable.ar_time_slot_id := 1;
          Nullable.ar_is_available := None |} ]).
Proof. vm_compute. reflexivity. Defined.

Lemma upsert_availability_sets_witness :
  Nullable._is_teacher_available null_rows 2 1 = true
  ∧ Nullable._is_teacher_available
      [ {| Nullable.ar_teacher_id := 1; Nullable.ar_time_slot_id := 1;
           Nullable.ar_is_available := Some false |};
        {| Nullable.ar_teacher_id := 1; Nullable.ar_time_slot_id := 2;
           Nullable.ar_is_available := None |};
        {| Nullable.ar_teacher_id := 2; Nullable.ar_time_slot_id := 1;
           Nullable.ar_is_available := None |} ] 2 1
    = bool_decide ((2, 1) ∉ Nullable.key <$> null_rows)
  ∧ bool_decide ((2, 1) ∉ Nullable.key <$> null_rows) = false.
Proof.
  split; [reflexivity|]. split; [|vm_compute; reflexivity].
  exact (proj1 (proj2 (proj2 (proj2 (proj2
    (upsert_availability_sets null_rows "teacher" (Some 2) 2 1 Nullable.Null _ _
       null_upsert)))))).
Defined.

Lemma week_suggestions :
  _suggest_alternate_slots week_db week_rows 1
    {| row_id := 1; row_entry := entry_at 1 3 |} 2
  = Returned [ {| sg_time_slot_id := 37; sg_day := "Friday" |};
               {| sg_time_slot_id := 38; sg_day := "Friday" |} ].
Proof. vm_compute. reflexivity. Defined.

Lemma suggested_slots_are_valid_witness :
  _suggest_alternate_slots week_db week_rows 1
    {| row_id := 1; row_entry := entry_at 1 3 |} 2
  = Returned [ {| sg_time_slot_id := 37; sg_day := "Friday" |};
               {| sg_time_slot_id := 38; sg_day := "Friday" |} ]
  ∧ (length [ {| sg_time_slot_id := 37; sg_day := "Friday" |};
              {| sg_time_slot_id := 38; sg_day := "Friday" |} ] ≤ 2 `max` 1)%nat.
Proof.
  split; [exact week_suggestions|].
  exact (proj1 (suggested_slots_are_valid week_db week_rows 1 _ 2 _ week_suggestions)).
Defined.

Lemma suggested_slot_can_be_taken_witness :
  query_get row_id week_rows 1 = Some {| row_id := 1; row_entry := entry_at 1 3 |}
  ∧ move_entry week_db week_rows 1 (Some 37)
    = Returned (Moved {| row_id := 1; row_entry := entry_at 1 37 |},
                [ {| row_id := 1; row_entry := entry_at 1 37 |};
                  {| row_id := 2; row_entry := entry_at 2 5 |} ]).
Proof.
  assert (query_get row_id week_rows 1 = Some {| row_id := 1; row_entry := entry_at 1 3 |})
    as Hget by reflexivity.
  assert ({| sg_time_slot_id := 37; sg_day := "Friday" |}
          ∈ [ {| sg_time_slot_id := 37; sg_day := "Friday" |};
              {| sg_time_slot_id := 38; sg_day := "Friday" |} ]) as Hin by left.
  assert (37 ≠ 0) as Hnz by discriminate.
  split; [exact Hget|].
  exact (suggested_slot_can_be_taken week_db week_rows 1 _ 2 _ _ Hget eq_refl
           week_suggestions Hin Hnz).
Defined.

Lemma week_move :
  move_entry week_db week_rows 1 (Some 37)
  = Returned (Moved {| row_id := 1; row_entry := entry_at 1 37 |},
              [ {| row_id := 1; row_entry := entry_at 1 37 |};
                {| row_id := 2; row_entry := entry_at 2 5 |} ]).
Proof. vm_compute. reflexivity. Defined.

Lemma week_rows_report : detect_conflicts (with_rows week_db week_rows) 1 = Ok [].
Proof. vm_compute. reflexivity. Defined.

Lemma moved_entry_keeps_report_clean_witness :
  NoDup (row_id <$> week_rows)
  ∧ detect_conflicts (with_rows week_db week_rows) 1 = Ok []
  ∧ ∃ cs', detect_conflicts
             (with_rows week_db [ {| row_id := 1; row_entry := entry_at 1 37 |};
                                  {| row_id := 2; row_entry := entry_at 2 5 |} ]) 1
           = Ok cs'
      ∧ ∀ k, k ∈ guarded_kinds → k ∈ kinds cs' → k ∈ kinds [].
Proof.
  assert (NoDup (row_id <$> week_rows)) as Hids
    by (apply (bool_decide_unpack _); vm_compute; reflexivity).
  assert (NoDup (slot_id <$> time_slots week_db)) as Hslots
    by (apply (bool_decide_unpack _); vm_compute; reflexivity).
  split; [exact Hids|]. split; [exact week_rows_report|].
  exact (moved_entry_keeps_report_clean week_db week_rows 1 (Some 37) _ _ []
           Hids Hslots week_move week_rows_report).
Defined.

Lemma absence_needed :
  {| n_entry_id := 1; absent_teacher_id := 1; available_substitutes := {[2]} |}
  ∈ substitutes_needed absence_db week_rows.
Proof.
  assert (substitutes_needed absence_db week_rows
          = [ {| n_entry_id := 1; absent_teacher_id := 1;
                 available_substitutes := {[2]} |} ]) as ->
    by (vm_compute; reflexivity).
  left.
Defined.

Lemma offered_substitute_is_free_witness :
  {| n_entry_id := 1; absent_teacher_id := 1; available_substitutes := {[2]} |}
  ∈ substitutes_needed absence_db week_rows
  ∧ ∃ v row,
      active absence_db = Some v ∧ row ∈ week_rows
      ∧ e_version_id (row_entry row) = version_id v
      ∧ row_id row = 1
      ∧ e_teacher_id (row_entry row) = 1
      ∧ (1, e_time_slot_id (row_entry row)) ∈ unavailable_set absence_db
      ∧ 2 ∈ teacher_id <$> teachers absence_db
      ∧ 2 ≠ 1
      ∧ ((2, e_time_slot_id (row_entry row)) ∉ unavailable_set absence_db)
      ∧ ∀ r, r ∈ week_rows → e_version_id (row_entry r) = version_id v →
          e_time_slot_id (row_entry r) = e_time_slot_id (row_entry row) →
          e_teacher_id (row_entry r) ≠ 2.
Proof.
  assert (2 ∈ ({[2]} : gset nat)) as Hin by (apply elem_of_singleton; reflexivity).
  split; [exact absence_needed|].
  exact (offered_substitute_is_free absence_db week_rows _ 2 absence_needed Hin).
Defined.

Lemma absence_report : detect_conflicts (with_rows absence_db week_rows) 1 = Ok [].
Proof. vm_compute. reflexivity. Defined.

Lemma assigned_substitute_fits_witness :
  NoDup (row_id <$> week_rows)
  ∧ active absence_db = Some (with_active true (new_version 1 0 1 10000))
  ∧ detect_conflicts
      (with_rows absence_db (assign_substitute week_rows (Some 1) (Some 2)).2) 1 = Ok []
  ∧ ∃ rows',
      assign_substitute week_rows (Some 1) (Some 2) = (Assigned, rows')
      ∧ (1 ∉ n_entry_id <$> substitutes_needed absence_db rows')
      ∧ ∀ cs', detect_conflicts (with_rows absence_db rows') 1 = Ok cs' →
          ∀ k, k ∈ guarded_kinds → k ∈ kinds cs' → k ∈ kinds [].
Proof.
  assert (NoDup (row_id <$> week_rows)) as Hids
    by (apply (bool_decide_unpack _); vm_compute; reflexivity).
  assert (2 ∈ ({[2]} : gset nat)) as Hin by (apply elem_of_singleton; reflexivity).
  assert (1 ≠ 0) as H1 by discriminate.
  assert (2 ≠ 0) as H2 by discriminate.
  split; [exact Hids|]. split; [reflexivity|]. split; [vm_compute; reflexivity|].
  exact (assigned_substitute_fits absence_db week_rows _ 2
           (with_active true (new_version 1 0 1 10000)) []
           Hids absence_needed Hin H1 H2 eq_refl absence_report).
Defined.
